(** * binance_trade_bot.backtest: the simulated exchange, the backtest loop
      and the market-data prefetcher

    A shallow embedding of [src/binance_trade_bot/backtest.py].

    Conventions of the embedding:
    - a [datetime] is the number of microseconds since 0001-01-01T00:00:00
      (Python's resolution), with Python's range check: arithmetic that
      leaves [datetime.min .. datetime.max] raises [OverflowError];
    - in the model of the methods, prices, quantities and balances are exact
      rationals ([Q]); equalities between them are [Qeq] ([==]).  The code
      computes them in binary floating point: the ledger arithmetic of the
      two order methods is modelled a second time in [Binary64], with the
      rounding of the code, and what depends on rounding is stated there;
    - the module-level [cache], the upstream kline endpoint and [print]'s
      output are part of the explicit program state;
    - every method is a computation in a state-and-exception monad [M];
      a Python exception carries the state reached when it was raised, since
      the manager's dictionaries are mutated in place. *)

From Stdlib Require Import ZArith QArith Lqa Lia List Floats.
From stdpp Require Import gmap strings list fin_maps.

Local Open Scope Z_scope.
#[local] Set Default Proof Using "Type".
#[local] Set Warnings "-inexact-float".

(** ** Python exceptions that the module raises, catches or lets through *)

Inductive exn : Type :=
  | KeyboardInterrupt
  | ConnectionError        (* requests.exceptions.ConnectionError *)
  | BinanceAPIException
  | IndexError
  | KeyError
  | TypeError
  | ZeroDivisionError
  | OverflowError
  | RecursionError
  | AttributeError.

Global Instance exn_eq_dec : EqDecision exn.
Proof. solve_decision. Defined.

(** ** datetime *)

Module Datetime.

(** [datetime._days_before_year]. *)
Definition days_before_year (year : Z) : Z :=
  let y := year - 1 in y * 365 + y / 4 - y / 100 + y / 400.

Definition is_leap (year : Z) : bool :=
  (year mod 4 =? 0) && (negb (year mod 100 =? 0) || (year mod 400 =? 0)).

Definition days_in_month (year month : Z) : Z :=
  if month =? 2 then (if is_leap year then 29 else 28)
  else if (month =? 4) || (month =? 6) || (month =? 9) || (month =? 11)
       then 30 else 31.

(** [datetime._days_before_month]: days of the year before the first day
    of [month]. *)
Fixpoint days_before_month_aux (year : Z) (months : nat) : Z :=
  match months with
  | O => 0
  | S k => days_before_month_aux year k + days_in_month year (Z.of_nat (S k))
  end.

Definition days_before_month (year month : Z) : Z :=
  days_before_month_aux year (Z.to_nat (month - 1)).

(** [datetime._ymd2ord]: 0001-01-01 is day 1. *)
Definition ymd2ord (year month day : Z) : Z :=
  days_before_year year + days_before_month year month + day.

Definition us_per_second : Z := 1000000.
Definition us_per_minute : Z := 60 * us_per_second.
Definition us_per_day : Z := 86400 * us_per_second.

(** [datetime(year, month, day, hour, minute)]. *)
Definition make (year month day hour minute : Z) : Z :=
  (ymd2ord year month day - 1) * us_per_day
  + hour * 3600 * us_per_second + minute * us_per_minute.

(** [datetime.min] and [datetime.max]. *)
Definition min : Z := 0.
Definition max : Z := ymd2ord 9999 12 31 * us_per_day - 1.

Definition in_range (d : Z) : bool := (min <=? d) && (d <=? max).

(** [timedelta(minutes=interval)], in microseconds. *)
Definition timedelta_minutes (interval : Z) : Z := interval * us_per_minute.

(** [dt.strftime("%d %b %Y %H:%M:%S")]: the text shows the datetime down
    to the second and drops the microseconds.  It is a fixed-width
    rendering of the whole second, which is what the model keeps. *)
Definition strftime (d : Z) : Z := d / us_per_second.

End Datetime.

(** ** The upstream kline endpoint

    [binance_client.get_historical_klines(symbol, "1m", dt, dt)] either
    returns a list of klines or raises.  Of a kline only field [1], the open
    price, is read, so a kline is its open price. *)

Inductive response : Type :=
  | Klines (opens : list Q)
  | Fails (e : exn).

(** ** Program state *)

Record State : Type := mkState {
  datetime : Z;                        (* manager.datetime *)
  balances : gmap string Q;            (* manager.balances *)
  cache : gmap (string * Z) Q;         (* the module-level diskcache *)
  calls : nat;                         (* requests sent to the kline endpoint *)
  stdout : list Z;                     (* datetimes printed by the tick loop *)
}.

Definition set_datetime (d : Z) (s : State) : State :=
  mkState d (balances s) (cache s) (calls s) (stdout s).
Definition set_balances (b : gmap string Q) (s : State) : State :=
  mkState (datetime s) b (cache s) (calls s) (stdout s).
Definition set_cache (c : gmap (string * Z) Q) (s : State) : State :=
  mkState (datetime s) (balances s) c (calls s) (stdout s).
Definition tick_calls (s : State) : State :=
  mkState (datetime s) (balances s) (cache s) (S (calls s)) (stdout s).
Definition print_datetime (s : State) : State :=
  mkState (datetime s) (balances s) (cache s) (calls s) (stdout s ++ [datetime s]).

(** ** The monad of methods *)

Inductive outcome (A : Type) : Type :=
  | Ok (a : A) (s : State)          (* returned [a] *)
  | Raise (e : exn) (s : State)     (* raised [e] *)
  | Running.                        (* a [while] loop still going when the fuel ran out *)
Arguments Ok {A} a s.
Arguments Raise {A} e s.
Arguments Running {A}.

Definition M (A : Type) : Type := State -> outcome A.

Definition ret {A} (a : A) : M A := fun s => Ok a s.
Definition raise {A} (e : exn) : M A := fun s => Raise e s.
Definition bind {A B} (c : M A) (k : A -> M B) : M B :=
  fun s => match c s with
           | Ok a s' => k a s'
           | Raise e s' => Raise e s'
           | Running => Running
           end.
Definition gets {A} (f : State -> A) : M A := fun s => Ok (f s) s.
Definition modify (f : State -> State) : M unit := fun s => Ok tt (f s).

(** [try: c  except e: h]. *)
Definition try_except {A} (c : M A) (e : exn) (h : M A) : M A :=
  fun s => match c s with
           | Raise e' s' => if decide (e' = e) then h s' else Raise e' s'
           | r => r
           end.

Declare Scope py_scope.
Delimit Scope py_scope with py.
Notation "x <- c1 ;; c2" := (bind c1 (fun x => c2))
  (at level 100, c1 at next level, right associativity) : py_scope.
Notation "c1 ;; c2" := (bind c1 (fun _ => c2))
  (at level 100, right associativity) : py_scope.

(** A pure helper that may raise. *)
Definition lift {A} (r : exn + A) : M A :=
  match r with inl e => raise e | inr a => ret a end.

(** [multiprocessing.Value("i", ...)]: a C [int]; a store truncates to 32
    bits, two's complement, with no overflow check. *)
Definition c_int (z : Z) : Z := (z + 2 ^ 31) mod 2 ^ 32 - 2 ^ 31.

Record Config : Type := mkConfig {
  BRIDGE : string;                     (* config.BRIDGE.symbol *)
  SUPPORTED_COIN_LIST : list string;
}.

(** ** The order-sizing helpers of the base class

    [buy_alt] and [sell_alt] call [self._buy_quantity] and
    [self._sell_quantity], which [MockBinanceManager] inherits from
    [BinanceAPIManager] (binance_api_manager.py, not among the sources).
    The exchange below takes them as parameters; [spec_buy_quantity] and
    [spec_sell_quantity] are the instances the specification describes. *)

(** Modelled from the spec: [BinanceAPIManager._buy_quantity] is missing
    from the sources; section 4.4 gives "quantity = available_target /
    price".  Dividing by an absent price is a [TypeError] and dividing by
    zero a [ZeroDivisionError], as for any Python division. *)
Definition spec_buy_quantity (origin_symbol target_symbol : string)
    (target_balance : Q) (from_coin_price : option Q) : exn + Q :=
  match from_coin_price with
  | None => inl TypeError
  | Some p => if Qeq_bool p 0 then inl ZeroDivisionError
              else inr (target_balance / p)%Q
  end.

(** Modelled from the spec: [BinanceAPIManager._sell_quantity] is missing
    from the sources; section 4.4 gives "sell quantity as the entire
    available origin balance". *)
Definition spec_sell_quantity (origin_symbol target_symbol : string)
    (origin_balance : Q) : exn + Q :=
  inr origin_balance.

(** What a process has done when it is observed: returned, died of an
    exception, or is still going. *)
Inductive run (A : Type) : Type :=
  | Returned (a : A)
  | Raised (e : exn)
  | StillRunning.
Arguments Returned {A} a.
Arguments Raised {A} e.
Arguments StillRunning {A}.

(** ** Sample inputs, used to run the definitions on concrete data *)

Module Sample.

(** An endpoint with no kline for any minute. *)
Definition no_data (n : nat) (symbol : string) (dt : Z) : response :=
  Klines [].

(** An endpoint whose every kline opens at [p]. *)
Definition flat (p : Q) (n : nat) (symbol : string) (dt : Z) : response :=
  Klines [p].

(** An endpoint that drops the connection on the first request and then
    answers like [flat p]. *)
Definition flaky (p : Q) (n : nat) (symbol : string) (dt : Z) : response :=
  match n with
  | O => Fails ConnectionError
  | S _ => Klines [p]
  end.

(** An endpoint that fails with an API error on the first request and
    then answers like [flat p]. *)
Definition throttled (p : Q) (n : nat) (symbol : string) (dt : Z) : response :=
  match n with
  | O => Fails BinanceAPIException
  | S _ => Klines [p]
  end.

Definition config : Config := mkConfig "USDT" ["XMR"; "ETH"].

(** The state of a fresh process at 2021-01-01T00:00 holding the default
    ledger, with an empty cache. *)
Definition genesis : State :=
  mkState (Datetime.make 2021 1 1 0 0) {[ "USDT" := 100%Q ]} ∅ 0 [].

(** The last minute a datetime can show. *)
Definition doomsday : State :=
  mkState (Datetime.make 9999 12 31 23 59) {[ "USDT" := 100%Q ]} ∅ 0 [].

(** A strategy that counts its ticks, credits one USDT to the ledger at
    every tick, and is interrupted by the operator during tick [stop]. *)
Definition interrupted_at (stop : nat) (n : nat) : M nat :=
  fun s =>
    if (n =? stop)%nat then Raise KeyboardInterrupt s
    else Ok (S n)
           (set_balances
              (<["USDT" := (default 0 (balances s !! "USDT") + 1)%Q]>
                 (balances s)) s).

(** A strategy that counts its ticks and never trades. *)
Definition idle (n : nat) : M nat := fun s => Ok (S n) s.

Definition new_trader (config : Config) : nat := 0%nat.

Definition no_thresholds (n : nat) : M nat := ret n.


(** A configuration without coins. *)
Definition no_coins : Config := mkConfig "USDT" [].

(** A strategy that counts its ticks and raises [e] during tick [stop]. *)
Definition raises_at (e : exn) (stop : nat) (n : nat) : M nat :=
  fun s => if (n =? stop)%nat then Raise e s else Ok (S n) s.


(** Two minutes after the first datetime there is. *)
Definition dawn : State :=
  mkState (Datetime.make 1 1 1 0 2) {[ "USDT" := 100%Q ]} ∅ 0 [].

End Sample.

(** ** The order arithmetic in binary64

    The manager's balances and prices are Python floats.  [buy_alt] and
    [sell_alt] are modelled here a second time, on the ledger alone and with
    the arithmetic of IEEE 754 binary64 (the primitive floats, which compute
    as the hardware does): each sum, difference and product is rounded where
    the source evaluates it.  The price an order fills at is the value its
    lookup returned ([all_tickers.get_price(...)] in [buy_alt],
    [self.get_market_ticker_price(...)] in [sell_alt]); the lookup itself is
    the [get_market_ticker_price] of the section below and does not touch the
    ledger, so here the value is an argument.  An [int] balance, such as the
    default 100, enters the arithmetic as the float of the same value. *)

Module Binary64.

(** How an order method ends: it returns or it raises, either way with the
    ledger as it has left it, the dictionary being mutated in place. *)
Inductive result : Type :=
  | Settled (balances : gmap string float)
  | Aborted (e : exn) (balances : gmap string float).

Definition ledger_of (r : result) : gmap string float :=
  match r with Settled b | Aborted _ b => b end.

Definition get_fee (origin_coin target_coin : string) (selling : bool)
    : float :=
  0.0075%float.

(** [self.balances.get(currency_symbol, 0)]. *)
Definition get_currency_balance (balances : gmap string float)
    (currency_symbol : string) : float :=
  default 0%float (balances !! currency_symbol).

(** Modelled from the spec: [BinanceAPIManager._buy_quantity] is missing
    from the sources; section 4.4 gives "quantity = available_target /
    price", here with the float division. *)
Definition spec_buy_quantity (origin_symbol target_symbol : string)
    (target_balance : float) (from_coin_price : option float) : exn + float :=
  match from_coin_price with
  | None => inl TypeError
  | Some p => if (p =? 0)%float then inl ZeroDivisionError
              else inr (target_balance / p)%float
  end.

(** Modelled from the spec: [BinanceAPIManager._sell_quantity] is missing
    from the sources; section 4.4 gives "sell quantity as the entire
    available origin balance". *)
Definition spec_sell_quantity (origin_symbol target_symbol : string)
    (origin_balance : float) : exn + float :=
  inr origin_balance.


Section Orders.

Variable _buy_quantity : string -> string -> float -> option float -> exn + float.
Variable _sell_quantity : string -> string -> float -> exn + float.

(** Lines 84 and 87 to 92 of [buy_alt], [from_coin_price] being what line
    85 looked up. *)
Definition buy_alt (origin_coin target_coin : string)
    (from_coin_price : option float) (balances : gmap string float) : result :=
  let origin_symbol := origin_coin in
  let target_symbol := target_coin in
  let target_balance := get_currency_balance balances target_symbol in
  match _buy_quantity origin_symbol target_symbol target_balance
          from_coin_price with
  | inl e => Aborted e balances
  | inr order_quantity =>
      match from_coin_price with
      | None => Aborted TypeError balances
      | Some price =>
          let target_quantity := (order_quantity * price)%float in
          match balances !! target_symbol with
          | None => Aborted KeyError balances
          | Some old_target =>
              let balances :=
                <[target_symbol := (old_target - target_quantity)%float]>
                  balances in
              Settled
                (<[origin_symbol :=
                     (get_currency_balance balances origin_symbol
                      + order_quantity
                        * (1 - get_fee origin_coin target_coin false))%float]>
                   balances)
          end
      end
  end.

(** Lines 99 and 102 to 107 of [sell_alt], [from_coin_price] being what
    line 100 looked up. *)
Definition sell_alt (origin_coin target_coin : string)
    (from_coin_price : option float) (balances : gmap string float) : result :=
  let origin_symbol := origin_coin in
  let target_symbol := target_coin in
  let origin_balance := get_currency_balance balances origin_symbol in
  match _sell_quantity origin_symbol target_symbol origin_balance with
  | inl e => Aborted e balances
  | inr order_quantity =>
      match from_coin_price with
      | None => Aborted TypeError balances
      | Some price =>
          let target_quantity := (order_quantity * price)%float in
          let balances :=
            <[target_symbol :=
                (get_currency_balance balances target_symbol
                 + target_quantity
                   * (1 - get_fee origin_coin target_coin true))%float]>
              balances in
          match balances !! origin_symbol with
          | None => Aborted KeyError balances
          | Some old_origin =>
              Settled
                (<[origin_symbol := (old_origin - order_quantity)%float]>
                   balances)
          end
      end
  end.

(** An order, with the price its lookup returned. *)
Inductive order : Type :=
  | Buy (origin_coin target_coin : string) (from_coin_price : option float)
  | Sell (origin_coin target_coin : string) (from_coin_price : option float).

Definition place (o : order) (balances : gmap string float) : result :=
  match o with
  | Buy origin_coin target_coin from_coin_price =>
      buy_alt origin_coin target_coin from_coin_price balances
  | Sell origin_coin target_coin from_coin_price =>
      sell_alt origin_coin target_coin from_coin_price balances
  end.

(** The ledger after each operation of a sequence, in order.  The sequence
    ends with the first operation that raises, whose ledger is the last. *)
Fixpoint trade (orders : list order) (balances : gmap string float)
    : list (gmap string float) :=
  match orders with
  | [] => []
  | o :: rest =>
      match place o balances with
      | Settled b => b :: trade rest b
      | Aborted _ b => [b]
      end
  end.

(** An order is covered by the ledger it is placed on: its pair has two
    symbols, its price is a positive finite number, its quantity is not
    negative, and what it takes, as the method computes it, is finite and
    within the balance it is taken from ([q * p] of the target for a buy,
    [q] of the origin for a sell).  An order that raises before it writes
    needs no cover. *)
Definition covered (o : order) (balances : gmap string float) : bool :=
  match o with
  | Buy origin target (Some p) =>
      let b := get_currency_balance balances target in
      match _buy_quantity origin target b (Some p) with
      | inr q =>
          bool_decide (origin <> target)
          && (0 <? p)%float && (p <? infinity)%float && (0 <=? q)%float
          && (q * p <=? b)%float && (q * p <? infinity)%float
      | inl _ => true
      end
  | Sell origin target (Some p) =>
      let b := get_currency_balance balances origin in
      match _sell_quantity origin target b with
      | inr q =>
          bool_decide (origin <> target)
          && (0 <? p)%float && (p <? infinity)%float && (0 <=? q)%float
          && (q <=? b)%float && (q <? infinity)%float
      | inl _ => true
      end
  | Buy _ _ None | Sell _ _ None => true
  end.

(** Every order of the sequence is covered by the ledger it meets. *)
Fixpoint sized_from_balance (orders : list order)
    (balances : gmap string float) : bool :=
  match orders with
  | [] => true
  | o :: rest =>
      covered o balances
      && match place o balances with
         | Settled b => sized_from_balance rest b
         | Aborted _ _ => true
         end
  end.

End Orders.

(** No balance of the ledger is negative, or not a number. *)
Definition nonneg (balances : gmap string float) : Prop :=
  forall symbol v, balances !! symbol = Some v -> (0 <=? v)%float = true.

End Binary64.

(** What the representation of a binary64 number says of its sign:
    [signed s x] when [x] is a zero, a finite number or an infinity of sign
    bit [s]; [SFnonneg x] for what [0 <= x] says; [SFpositive x] when [x] is
    finite and above zero. *)
Definition signed (s : bool) (x : spec_float) : Prop :=
  match x with
  | S754_zero s' | S754_infinity s' | S754_finite s' _ _ => s' = s
  | S754_nan => False
  end.

Definition SFnonneg (x : spec_float) : Prop :=
  match x with
  | S754_zero _ => True
  | S754_infinity s | S754_finite s _ _ => s = false
  | S754_nan => False
  end.

Definition SFpositive (x : spec_float) : Prop :=
  match x with S754_finite false _ _ => True | _ => False end.



(** ** Counting the invocations of a strategy

    [counting scout] is [scout] with a counter beside the strategy's state:
    each invocation that returns has added one to it.  [uncounted init] runs
    [init] and leaves the counter alone. *)

Definition counting {T : Type} (scout : T -> M T) (ct : nat * T)
    : M (nat * T) :=
  bind (scout (snd ct)) (fun t' => ret (S (fst ct), t')).

Definition uncounted {T : Type} (init : T -> M T) (ct : nat * T)
    : M (nat * T) :=
  bind (init (snd ct)) (fun t' => ret (fst ct, t')).

Section Backtest.

Local Open Scope py_scope.

(** The kline endpoint: the answer to the [n]-th request ever sent, for a
    symbol and a formatted datetime. *)
Variable source : nat -> string -> Z -> response.

(** Frames the interpreter still grants to the retry recursion of
    [get_market_ticker_price] before it raises [RecursionError]. *)
Variable recursion_limit : nat.

Variable _buy_quantity : string -> string -> Q -> option Q -> exn + Q.
Variable _sell_quantity : string -> string -> Q -> exn + Q.

(** *** class MockBinanceManager *)

(** [__init__]: [self.datetime = start_date or datetime(2021, 1, 1)],
    [self.balances = start_balances or {config.BRIDGE.symbol: 100}].
    A datetime is never falsy; an empty dict is. *)
Definition MockBinanceManager (config : Config) (start_date : option Z)
    (start_balances : option (gmap string Q)) : M unit :=
  modify (fun s =>
    set_datetime (default (Datetime.make 2021 1 1 0 0) start_date)
      (set_balances
         (match start_balances with
          | Some b => if decide (b = ∅) then {[ BRIDGE config := 100%Q ]} else b
          | None => {[ BRIDGE config := 100%Q ]}
          end) s)).

Definition increment (interval : Z) : M unit :=
  fun s =>
    let d := datetime s + Datetime.timedelta_minutes interval in
    if Datetime.in_range d then Ok tt (set_datetime d s)
    else Raise OverflowError s.

Definition get_fee (origin_coin target_coin : string) (selling : bool) : Q :=
  (75 # 10000)%Q.

(** [get_market_ticker_price], with the frames left for its retry
    recursion.  [time.sleep] is not modelled. *)
Fixpoint get_market_ticker_price_in (frames : nat) (ticker_symbol : string)
    (s : State) : outcome (option Q) :=
  let dt := Datetime.strftime (datetime s) in
  let key := (ticker_symbol, dt) in
  match cache s !! key with
  | Some val => Ok (Some val) s
  | None =>
      match source (calls s) ticker_symbol dt with
      | Klines (p :: _) =>
          Ok (Some p) (set_cache (<[key := p]> (cache s)) (tick_calls s))
      | Klines [] => Ok None (tick_calls s)
      | Fails IndexError => Ok None (tick_calls s)
      | Fails ConnectionError =>
          match frames with
          | O => Raise RecursionError (tick_calls s)
          | S frames' =>
              get_market_ticker_price_in frames' ticker_symbol (tick_calls s)
          end
      | Fails e => Raise e (tick_calls s)
      end
  end.

Definition get_market_ticker_price (ticker_symbol : string) : M (option Q) :=
  get_market_ticker_price_in recursion_limit ticker_symbol.

(** *** class FakeAllTickers: [get_price] asks the manager. *)
Inductive AllTickers : Type := FakeAllTickers.

Definition get_price (tickers : AllTickers) (ticker_symbol : string)
    : M (option Q) :=
  match tickers with
  | FakeAllTickers => get_market_ticker_price ticker_symbol
  end.

Definition get_all_market_tickers : M AllTickers := ret FakeAllTickers.

Definition get_currency_balance (currency_symbol : string) : M Q :=
  gets (fun s => default 0%Q (balances s !! currency_symbol)).

(** [self.balances[k]] read and written. *)
Definition getitem (k : string) : M Q :=
  fun s => match balances s !! k with
           | Some v => Ok v s
           | None => Raise KeyError s
           end.
Definition setitem (k : string) (v : Q) : M unit :=
  modify (fun s => set_balances (<[k := v]> (balances s)) s).

(** [order_quantity * from_coin_price]; a number times [None] is a
    [TypeError]. *)
Definition times_price (order_quantity : Q) (from_coin_price : option Q)
    : M Q :=
  match from_coin_price with
  | Some p => ret (order_quantity * p)%Q
  | None => raise TypeError
  end.

(** Both order methods return [{"price": from_coin_price}]; the result
    here is that [from_coin_price].  The amounts are exact here;
    [Binary64.buy_alt] and [Binary64.sell_alt] are the same updates of the
    ledger with the rounding of the code. *)
Definition buy_alt (origin_coin target_coin : string) (all_tickers : AllTickers)
    : M (option Q) :=
  let origin_symbol := origin_coin in
  let target_symbol := target_coin in
  target_balance <- get_currency_balance target_symbol ;;
  from_coin_price <- get_price all_tickers (origin_symbol ++ target_symbol) ;;
  order_quantity <- lift (_buy_quantity origin_symbol target_symbol
                            target_balance from_coin_price) ;;
  target_quantity <- times_price order_quantity from_coin_price ;;
  old_target <- getitem target_symbol ;;
  setitem target_symbol (old_target - target_quantity)%Q ;;
  old_origin <- get_currency_balance origin_symbol ;;
  setitem origin_symbol
    (old_origin + order_quantity * (1 - get_fee origin_coin target_coin false))%Q ;;
  ret from_coin_price.

Definition sell_alt (origin_coin target_coin : string) : M (option Q) :=
  let origin_symbol := origin_coin in
  let target_symbol := target_coin in
  origin_balance <- get_currency_balance origin_symbol ;;
  from_coin_price <- get_market_ticker_price (origin_symbol ++ target_symbol) ;;
  order_quantity <- lift (_sell_quantity origin_symbol target_symbol
                            origin_balance) ;;
  target_quantity <- times_price order_quantity from_coin_price ;;
  old_target <- get_currency_balance target_symbol ;;
  setitem target_symbol
    (old_target + target_quantity * (1 - get_fee origin_coin target_coin true))%Q ;;
  old_origin <- getitem origin_symbol ;;
  setitem origin_symbol (old_origin - order_quantity)%Q ;;
  ret from_coin_price.

(** *** def backtest

    [AutoTrader] (auto_trader.py) and [Database] (database.py) are not
    among the sources.  The strategy is a parameter: its state, its
    constructor and its two methods, which run against the manager and may
    raise.  A [Coin] is identified with its symbol, so [db.get_coin] is the
    identity and the other database calls have no effect on the manager. *)
Variable trader : Type.
Variable AutoTrader : Config -> trader.
Variable initialize_trade_thresholds : trader -> M trader.
Variable scout : trader -> M trader.

(** [datetime.today()]. *)
Variable today : Z.

(** [starting_coin or config.SUPPORTED_COIN_LIST[0]]. *)
Definition starting_symbol (starting_coin : option string) (config : Config)
    : M string :=
  let first := match SUPPORTED_COIN_LIST config with
               | c :: _ => ret c
               | [] => raise IndexError
               end in
  match starting_coin with
  | Some c => if decide (c = "") then first else ret c
  | None => first
  end.

(** The body of the [while] of [backtest]: print the clock, scout,
    advance.  The strategy's state is handed to the next iteration. *)
Definition tick (interval : Z) (t : trader) : M trader :=
  modify print_datetime ;;
  t' <- scout t ;;
  increment interval ;;
  ret t'.

(** The [while] of [backtest]. *)
Fixpoint tick_loop (fuel : nat) (end_date interval : Z) (t : trader)
    (s : State) : outcome unit :=
  if datetime s <? end_date then
    match fuel with
    | O => Running
    | S fuel' =>
        (t' <- tick interval t ;;
         tick_loop fuel' end_date interval t') s
    end
  else Ok tt s.

(** Lines 139-144: the manager and the opening position. *)
Definition open_position (start_date : option Z)
    (start_balances : option (gmap string Q)) (starting_coin : option string)
    (config : Config) : M unit :=
  MockBinanceManager config start_date start_balances ;;
  starting_coin <- starting_symbol starting_coin config ;;
  held <- get_currency_balance starting_coin ;;
  if Qeq_bool held 0 then
    tickers <- get_all_market_tickers ;;
    buy_alt starting_coin (BRIDGE config) tickers ;;
    ret tt
  else ret tt.

Definition backtest (fuel : nat) (start_date end_date : option Z)
    (interval : Z) (start_balances : option (gmap string Q))
    (starting_coin : option string) (config : Config)
    : M (gmap string Q) :=
  let end_date := default today end_date in
  open_position start_date start_balances starting_coin config ;;
  t <- initialize_trade_thresholds (AutoTrader config) ;;
  try_except (tick_loop fuel end_date interval t) KeyboardInterrupt (ret tt) ;;
  gets balances.

(** *** def download_market_data *)

(** One iteration of the worker's [while]: the body of its [try] and the
    [except BinanceAPIException], whose [time.sleep] is not modelled. *)
Definition _thread_step (symbol : string) (interval : Z) (counter : Z) : M Z :=
  try_except
    (get_market_ticker_price symbol ;;
     increment interval ;;
     ret (c_int (counter + 1)))
    BinanceAPIException
    (ret counter).

(** [_thread], after its manager is built; it returns the counter.
    [end_date] is the enclosing function's argument, unchanged: comparing
    a datetime with [None] is a [TypeError]. *)
Fixpoint _thread_loop (fuel : nat) (symbol : string) (end_date : option Z)
    (interval : Z) (counter : Z) (s : State) : outcome Z :=
  match end_date with
  | None => Raise TypeError s
  | Some e =>
      if datetime s <? e then
        match fuel with
        | O => Running
        | S fuel' =>
            (c <- _thread_step symbol interval counter ;;
             _thread_loop fuel' symbol end_date interval c) s
        end
      else Ok counter s
  end.

Definition _thread (fuel : nat) (config : Config)
    (start_date end_date : option Z) (interval : Z) (symbol : string) : M Z :=
  MockBinanceManager config start_date None ;;
  _thread_loop fuel symbol end_date interval 0.

(** What the supervising loop prints. *)
Inductive line : Type :=
  | TotalDatapointCount (total : Z)
  | AverageFetchedPerSymbol (avg : Z)
  | AverageDatetime (d : Z)
  | Blank.

(** [sum(p[1].value for p in processes)]. *)
Definition sum_values (values : list Z) : Z := foldr Z.add 0 values.

(** One round of the supervising [while True]: [int(total / len)] truncates
    the quotient, and fails on an empty process list before anything is
    printed; the addition to [datetime(2021, 1, 1)] is range-checked after
    the first two lines are out. *)
Definition report_round (values : list Z) : list line * option exn :=
  let total := sum_values values in
  match values with
  | [] => ([], Some ZeroDivisionError)
  | _ :: _ =>
      let avg := Z.quot total (Z.of_nat (length values)) in
      let d := Datetime.make 2021 1 1 0 0 + Datetime.timedelta_minutes avg in
      if Datetime.in_range d then
        ([TotalDatapointCount total; AverageFetchedPerSymbol avg;
          AverageDatetime d; Blank], None)
      else
        ([TotalDatapointCount total; AverageFetchedPerSymbol avg],
         Some OverflowError)
  end.

(** The supervising loop.  The workers are separate processes; what the
    loop reads from their counters in round [r] is [observe r], one value
    per process. *)
Fixpoint supervise (fuel : nat) (observe : nat -> list Z) (round : nat)
    (printed : list line) : run unit * list line :=
  match fuel with
  | O => (StillRunning, printed)
  | S fuel' =>
      match report_round (observe round) with
      | (out, Some e) => (Raised e, printed ++ out)
      | (out, None) => supervise fuel' observe (S round) (printed ++ out)
      end
  end.

(** [download_market_data], seen from the calling process: it starts one
    worker per supported coin and supervises.  [values r i] is the counter
    of the [i]-th worker as read in round [r]. *)
Definition download_market_data (fuel : nat) (config : Config)
    (values : nat -> nat -> Z) : run unit * list line :=
  let processes := seq 0 (length (SUPPORTED_COIN_LIST config)) in
  supervise fuel (fun r => map (values r) processes) 0%nat [].

(** The worker started for [coin]. *)
Definition worker (fuel : nat) (config : Config)
    (start_date end_date : option Z) (interval : Z) (coin : string) : M Z :=
  _thread fuel config start_date end_date interval (coin ++ BRIDGE config).

(** ** Notions the statements below are phrased with *)

(** [n] calls of [increment(interval)] in a row. *)
Fixpoint advance (n : nat) (interval : Z) : M unit :=
  match n with
  | O => ret tt
  | S k => increment interval ;; advance k interval
  end.

(** The balance of a symbol, as [get_currency_balance] reads it. *)
Definition balance_of (symbol : string) (s : State) : Q :=
  default 0%Q (balances s !! symbol).

(** Orders placed on the exchange, one after the other. *)
Inductive order : Type :=
  | Buy (origin_coin target_coin : string)
  | Sell (origin_coin target_coin : string).

Definition place (o : order) : M (option Q) :=
  match o with
  | Buy origin_coin target_coin =>
      tickers <- get_all_market_tickers ;;
      buy_alt origin_coin target_coin tickers
  | Sell origin_coin target_coin => sell_alt origin_coin target_coin
  end.

(** [completed end_date interval k t s t' s']: started with the strategy
    in [t] and the program in [s], the tick loop goes through [k] whole
    iterations, each entered with the clock before [end_date] and left
    normally, and is then at [t'], [s']. *)
Inductive completed (end_date interval : Z)
    : nat -> trader -> State -> trader -> State -> Prop :=
  | completed_O t s : completed end_date interval 0 t s t s
  | completed_S k t s t1 s1 t2 s2 :
      datetime s < end_date ->
      tick interval t s = Ok t1 s1 ->
      completed end_date interval k t1 s1 t2 s2 ->
      completed end_date interval (S k) t s t2 s2.

(** The state after [n] more requests have gone to the endpoint. *)
Definition after_requests (n : nat) (s : State) : State :=
  mkState (datetime s) (balances s) (cache s) (n + calls s) (stdout s).

(** The two symbols of an order. *)
Definition origin_of (o : order) : string :=
  match o with Buy a _ | Sell a _ => a end.
Definition target_of (o : order) : string :=
  match o with Buy _ b | Sell _ b => b end.

(** The number of iterations a loop [while clock < end_date: ...; clock +=
    interval] makes from [start_date]: the intervals needed to reach or pass
    [end_date], none when the start is not before the end. *)
Definition ticks_between (start_date end_date interval : Z) : nat :=
  let step := Datetime.timedelta_minutes interval in
  Z.to_nat ((end_date - start_date + step - 1) / step).

(** The clock readings of the first [n] ticks. *)
Definition tick_times (start_date interval : Z) (n : nat) : list Z :=
  map (fun k => start_date + Z.of_nat k * Datetime.timedelta_minutes interval)
    (seq 0 n).

(** The manager as [__init__] leaves it, for the default ledger. *)
Definition fresh_manager (config : Config) (start_date : option Z) (w : State)
    : State :=
  set_datetime (default (Datetime.make 2021 1 1 0 0) start_date)
    (set_balances {[ BRIDGE config := 100%Q ]} w).

(** The counter after [n] increments [counter.value += 1], each stored
    back into the C [int]. *)
Fixpoint count_up (n : nat) (counter : Z) : Z :=
  match n with
  | O => counter
  | S k => count_up k (c_int (counter + 1))
  end.

(** ** Properties of the price lookup *)

Definition key_of (ticker_symbol : string) (s : State) : string * Z :=
  (ticker_symbol, Datetime.strftime (datetime s)).

(** What a lookup may have changed: the cache and the request count only,
    and the cache only by growing. *)
Definition lookup_frame (s s' : State) : Prop :=
  datetime s' = datetime s /\ balances s' = balances s /\
  stdout s' = stdout s /\ (calls s <= calls s')%nat /\
  (forall k x, cache s !! k = Some x -> cache s' !! k = Some x).

Lemma lookup_frame_refl s : lookup_frame s s.
Proof. repeat split; auto. Qed.

Lemma lookup_frame_trans s1 s2 s3 :
  lookup_frame s1 s2 -> lookup_frame s2 s3 -> lookup_frame s1 s3.
Proof.
  intros (A1 & A2 & A3 & A4 & A5) (B1 & B2 & B3 & B4 & B5).
  repeat split; try congruence; [lia | auto].
Qed.

Lemma lookup_frame_tick s : lookup_frame s (tick_calls s).
Proof. repeat split; simpl; auto. Qed.

(** The cases of [get_market_ticker_price], as an induction principle: a
    hit, a fetched price, no data, an exception that is passed on, and a
    dropped connection, which is either retried or runs out of frames. *)
Lemma get_market_ticker_price_ind (ticker_symbol : string)
    (P : State -> outcome (option Q) -> Prop) :
  (forall s v,
      cache s !! key_of ticker_symbol s = Some v -> P s (Ok (Some v) s)) ->
  (forall s p l,
      cache s !! key_of ticker_symbol s = None ->
      source (calls s) ticker_symbol (Datetime.strftime (datetime s))
        = Klines (p :: l) ->
      P s (Ok (Some p)
             (set_cache (<[key_of ticker_symbol s := p]> (cache s))
                (tick_calls s)))) ->
  (forall s,
      cache s !! key_of ticker_symbol s = None ->
      source (calls s) ticker_symbol (Datetime.strftime (datetime s)) = Klines []
      \/ source (calls s) ticker_symbol (Datetime.strftime (datetime s))
         = Fails IndexError ->
      P s (Ok None (tick_calls s))) ->
  (forall s e,
      cache s !! key_of ticker_symbol s = None ->
      source (calls s) ticker_symbol (Datetime.strftime (datetime s)) = Fails e ->
      e <> IndexError -> e <> ConnectionError ->
      P s (Raise e (tick_calls s))) ->
  (forall s,
      cache s !! key_of ticker_symbol s = None ->
      source (calls s) ticker_symbol (Datetime.strftime (datetime s))
        = Fails ConnectionError ->
      P s (Raise RecursionError (tick_calls s))) ->
  (forall s r,
      cache s !! key_of ticker_symbol s = None ->
      source (calls s) ticker_symbol (Datetime.strftime (datetime s))
        = Fails ConnectionError ->
      P (tick_calls s) r -> P s r) ->
  forall frames s, P s (get_market_ticker_price_in frames ticker_symbol s).
Proof.
  intros Hhit Hprice Hnone Hraise Hexhausted Hretry.
  induction frames as [|frames IH]; intros s; cbn [get_market_ticker_price_in];
    cbv zeta; fold (key_of ticker_symbol s);
    (destruct (cache s !! key_of ticker_symbol s) as [v|] eqn:Hc;
     [apply Hhit; exact Hc|]);
    (destruct (source (calls s) ticker_symbol (Datetime.strftime (datetime s)))
       as [[|p l]|e] eqn:Hs;
     [apply Hnone; auto | eapply Hprice; eauto |]).
  - destruct e;
      first [ apply Hnone; [exact Hc | right; exact Hs]
            | apply Hexhausted; [exact Hc | exact Hs]
            | apply Hraise; [exact Hc | exact Hs | discriminate | discriminate] ].
  - destruct e;
      first [ apply Hnone; [exact Hc | right; exact Hs]
            | apply (Hretry s _ Hc Hs), IH
            | apply Hraise; [exact Hc | exact Hs | discriminate | discriminate] ].
Qed.

Lemma get_market_ticker_price_in_spec frames ticker_symbol s :
  match get_market_ticker_price_in frames ticker_symbol s with
  | Ok (Some p) s' =>
      lookup_frame s s' /\ cache s' !! key_of ticker_symbol s = Some p
  | Ok None s' =>
      lookup_frame s s' /\ cache s' = cache s /\ (calls s < calls s')%nat
  | Raise e s' =>
      lookup_frame s s' /\ cache s' = cache s /\ (calls s < calls s')%nat
  | Running => False
  end.
Proof.
  revert frames s.
  apply (get_market_ticker_price_ind ticker_symbol
           (fun s r =>
              match r with
              | Ok (Some p) s' =>
                  lookup_frame s s' /\ cache s' !! key_of ticker_symbol s = Some p
              | Ok None s' | Raise _ s' =>
                  lookup_frame s s' /\ cache s' = cache s
                  /\ (calls s < calls s')%nat
              | Running => False
              end)).
  - intros s v Hc. split; [apply lookup_frame_refl | exact Hc].
  - intros s p l Hc _. split; [|apply lookup_insert_eq].
    repeat split; simpl; auto.
    intros k x Hk. rewrite lookup_insert_ne; [exact Hk | congruence].
  - intros s _ _. split; [apply lookup_frame_tick | simpl; split; [reflexivity | lia]].
  - intros s e _ _ _ _.
    split; [apply lookup_frame_tick | simpl; split; [reflexivity | lia]].
  - intros s _ _.
    split; [apply lookup_frame_tick | simpl; split; [reflexivity | lia]].
  - intros s r _ _ Hr. pose proof (lookup_frame_tick s) as Ht.
    destruct r as [[p|] s'|e s'|]; [| | |exact Hr].
    + destruct Hr as [F Hk]. split; [eapply lookup_frame_trans; eauto | exact Hk].
    + destruct Hr as (F & Hk & Hn).
      split; [eapply lookup_frame_trans; eauto | split; [exact Hk | simpl in Hn; lia]].
    + destruct Hr as (F & Hk & Hn).
      split; [eapply lookup_frame_trans; eauto | split; [exact Hk | simpl in Hn; lia]].
Qed.

(** C4 (amended): a lookup that returns a price leaves it in the cache, so
    a second lookup at the same timestamp returns the same price and sends
    nothing to the endpoint (the state, request count included, is
    unchanged); when the first lookup misses and the endpoint answers at
    once with a kline, that is the only request of the two lookups.  When
    the endpoint has no kline nothing is cached, and a second lookup asks
    the endpoint again.  No lookup overwrites or drops an entry that is
    already in the cache. *)
Theorem cache_fill_idempotent (ticker_symbol : string) (s : State) :
  (forall v s1,
      get_market_ticker_price ticker_symbol s = Ok (Some v) s1 ->
      get_market_ticker_price ticker_symbol s1 = Ok (Some v) s1)
  /\ (forall p l,
      cache s !! key_of ticker_symbol s = None ->
      source (calls s) ticker_symbol (Datetime.strftime (datetime s))
        = Klines (p :: l) ->
      exists s1,
        get_market_ticker_price ticker_symbol s = Ok (Some p) s1
        /\ get_market_ticker_price ticker_symbol s1 = Ok (Some p) s1
        /\ calls s1 = S (calls s))
  /\ (cache s !! key_of ticker_symbol s = None ->
      source (calls s) ticker_symbol (Datetime.strftime (datetime s))
        = Klines [] ->
      source (S (calls s)) ticker_symbol (Datetime.strftime (datetime s))
        = Klines [] ->
      let s1 := tick_calls s in
      let s2 := tick_calls s1 in
      get_market_ticker_price ticker_symbol s = Ok None s1
      /\ get_market_ticker_price ticker_symbol s1 = Ok None s2
      /\ cache s2 = cache s /\ calls s2 = S (S (calls s)))
  /\ (forall k x,
      cache s !! k = Some x ->
      match get_market_ticker_price ticker_symbol s with
      | Ok _ s' | Raise _ s' => cache s' !! k = Some x
      | Running => False
      end).
Proof.
  unfold get_market_ticker_price. split; [|split; [|split]].
  - intros v s1 H1.
    pose proof (get_market_ticker_price_in_spec recursion_limit ticker_symbol s) as Hs.
    rewrite H1 in Hs. destruct Hs as [(Hd & _) Hk].
    assert (Hhit : cache s1 !! (ticker_symbol, Datetime.strftime (datetime s1)) = Some v).
    { unfold key_of in Hk. rewrite Hd. exact Hk. }
    destruct recursion_limit; simpl; rewrite Hhit; reflexivity.
  - intros p l Hmiss Hsrc. unfold key_of in Hmiss.
    eexists. split; [|split].
    + destruct recursion_limit; simpl; rewrite Hmiss, Hsrc; reflexivity.
    + destruct recursion_limit; simpl; rewrite lookup_insert_eq; reflexivity.
    + reflexivity.
  - intros Hmiss Hsrc1 Hsrc2. unfold key_of in Hmiss. cbv zeta.
    split; [|split; [|split; reflexivity]];
      destruct recursion_limit; simpl; rewrite Hmiss;
      [rewrite Hsrc1 | rewrite Hsrc1 | rewrite Hsrc2 | rewrite Hsrc2];
      reflexivity.
  - intros k x Hk.
    pose proof (get_market_ticker_price_in_spec recursion_limit ticker_symbol s) as Hs.
    destruct (get_market_ticker_price_in recursion_limit ticker_symbol s)
      as [[p|] s'|e s'|];
      [destruct Hs as [(_ & _ & _ & _ & Hc) _]; auto ..| exact Hs].
Qed.

(** ** The virtual clock *)

Lemma increment_ok (interval : Z) (s : State) :
  Datetime.in_range (datetime s + Datetime.timedelta_minutes interval) = true ->
  increment interval s
  = Ok tt (set_datetime (datetime s + Datetime.timedelta_minutes interval) s).
Proof. intros H. unfold increment. simpl. rewrite H. reflexivity. Qed.

Lemma in_range_iff (d : Z) :
  Datetime.in_range d = true <-> Datetime.min <= d <= Datetime.max.
Proof. unfold Datetime.in_range. rewrite andb_true_iff, !Z.leb_le. reflexivity. Qed.

Lemma timedelta_minutes_pos (interval : Z) :
  0 < interval -> 0 < Datetime.timedelta_minutes interval.
Proof. unfold Datetime.timedelta_minutes, Datetime.us_per_minute,
         Datetime.us_per_second. lia. Qed.

Lemma advance_ok (n : nat) (interval : Z) (s : State) :
  0 < interval ->
  Datetime.in_range (datetime s) = true ->
  datetime s + Z.of_nat n * Datetime.timedelta_minutes interval <= Datetime.max ->
  advance n interval s
  = Ok tt (set_datetime
             (datetime s + Z.of_nat n * Datetime.timedelta_minutes interval) s).
Proof.
  intros Hpos. apply timedelta_minutes_pos in Hpos.
  revert s. induction n as [|n IH]; intros s Hin Hmax.
  - simpl. unfold ret. f_equal. destruct s; unfold set_datetime; simpl.
    f_equal. lia.
  - apply in_range_iff in Hin.
    cbn [advance]. unfold bind.
    rewrite increment_ok by (apply in_range_iff; lia).
    rewrite IH.
    + unfold set_datetime; simpl. do 2 f_equal. lia.
    + apply in_range_iff. simpl. lia.
    + simpl. lia.
Qed.

(** C7 (amended): from a start time [datetime s], with a positive
    interval, as long as [start + n * interval] minutes is still a datetime
    (at most [datetime.max]), every one of the first [n] advances returns,
    after the [k]-th the clock reads exactly [start + k * interval]
    minutes, nothing else in the state changes, and the readings increase
    strictly.  Whatever the state, one advance with a positive interval
    either moves the clock forward by exactly the interval or raises
    [OverflowError] and leaves the clock where it was: it never moves
    backward and never wraps. *)
Theorem clock_monotone (s : State) (interval : Z) (n : nat) :
  0 < interval ->
  Datetime.in_range (datetime s) = true ->
  datetime s + Z.of_nat n * Datetime.timedelta_minutes interval <= Datetime.max ->
  let clock k := datetime s + Z.of_nat k * Datetime.timedelta_minutes interval in
  (forall k, (k <= n)%nat ->
             advance k interval s = Ok tt (set_datetime (clock k) s))
  /\ (forall j k, (j < k <= n)%nat -> clock j < clock k)
  /\ (forall s0 : State,
         match increment interval s0 with
         | Ok _ s1 =>
             datetime s1 = datetime s0 + Datetime.timedelta_minutes interval
             /\ datetime s0 < datetime s1 /\ datetime s1 <= Datetime.max
         | Raise e s1 => e = OverflowError /\ s1 = s0
         | Running => False
         end).
Proof.
  intros Hpos Hin Hmax clock.
  pose proof (timedelta_minutes_pos _ Hpos) as Hstep.
  split; [|split].
  - intros k Hk. apply advance_ok; auto. nia.
  - intros j k Hjk. unfold clock. nia.
  - intros s0. unfold increment.
    destruct (Datetime.in_range
                (datetime s0 + Datetime.timedelta_minutes interval)) eqn:Hr.
    + apply in_range_iff in Hr. cbn [datetime set_datetime]. lia.
    + auto.
Qed.

(** ** The order methods, step by step *)

Lemma buy_alt_unfold (origin target : string) (s : State) :
  buy_alt origin target FakeAllTickers s
  = match get_market_ticker_price (origin ++ target) s with
    | Ok price s1 =>
        match _buy_quantity origin target (balance_of target s) price with
        | inl e => Raise e s1
        | inr q =>
            match price with
            | None => Raise TypeError s1
            | Some p =>
                match balances s1 !! target with
                | None => Raise KeyError s1
                | Some old =>
                    let s2 := set_balances
                                (<[target := (old - q * p)%Q]> (balances s1)) s1 in
                    Ok (Some p)
                      (set_balances
                         (<[origin := (balance_of origin s2
                                       + q * (1 - get_fee origin target false))%Q]>
                            (balances s2)) s2)
                end
            end
        end
    | Raise e s1 => Raise e s1
    | Running => Running
    end.
Proof.
  unfold buy_alt, bind, get_currency_balance, gets, get_price.
  fold (balance_of target s).
  destruct (get_market_ticker_price (origin ++ target) s) as [price s1|e s1|];
    try reflexivity.
  destruct (_buy_quantity origin target (balance_of target s) price) as [e|q];
    try reflexivity.
  destruct price as [p|]; try reflexivity.
  unfold lift, ret, times_price, getitem. simpl.
  destruct (balances s1 !! target) as [old|]; reflexivity.
Qed.

Lemma sell_alt_unfold (origin target : string) (s : State) :
  sell_alt origin target s
  = match get_market_ticker_price (origin ++ target) s with
    | Ok price s1 =>
        match _sell_quantity origin target (balance_of origin s) with
        | inl e => Raise e s1
        | inr q =>
            match price with
            | None => Raise TypeError s1
            | Some p =>
                let s2 := set_balances
                            (<[target := (balance_of target s1
                                          + q * p * (1 - get_fee origin target true))%Q]>
                               (balances s1)) s1 in
                match balances s2 !! origin with
                | None => Raise KeyError s2
                | Some old =>
                    Ok (Some p)
                      (set_balances
                         (<[origin := (old - q)%Q]> (balances s2)) s2)
                end
            end
        end
    | Raise e s1 => Raise e s1
    | Running => Running
    end.
Proof.
  unfold sell_alt, bind, get_currency_balance, gets.
  fold (balance_of origin s).
  destruct (get_market_ticker_price (origin ++ target) s) as [price s1|e s1|];
    try reflexivity.
  destruct (_sell_quantity origin target (balance_of origin s)) as [e|q];
    try reflexivity.
  destruct price as [p|]; try reflexivity.
  unfold lift, ret, times_price, getitem, setitem, modify. simpl.
  unfold balance_of.
  destruct (<[target:=_]> (balances s1) !! origin) as [old|]; reflexivity.
Qed.

(** ** What an order does to the ledger *)

Lemma lookup_keeps_balances (ticker_symbol : string) (s s1 : State) r :
  get_market_ticker_price ticker_symbol s = Ok r s1 -> balances s1 = balances s.
Proof.
  unfold get_market_ticker_price. intros H.
  pose proof (get_market_ticker_price_in_spec recursion_limit ticker_symbol s) as Hs.
  rewrite H in Hs. destruct r; destruct Hs as [(_ & Hb & _) _]; exact Hb.
Qed.


Lemma sell_alt_effect (origin target : string) (s s1 : State) (p q old : Q) :
  origin <> target ->
  get_market_ticker_price (origin ++ target) s = Ok (Some p) s1 ->
  _sell_quantity origin target (balance_of origin s) = inr q ->
  balances s !! origin = Some old ->
  exists s',
    sell_alt origin target s = Ok (Some p) s'
    /\ (balance_of origin s - balance_of origin s' == q)%Q
    /\ (balance_of target s' - balance_of target s
        == q * p * (1 - (75 # 10000)))%Q
    /\ (forall k, k <> origin -> k <> target ->
                  balances s' !! k = balances s !! k).
Proof.
  intros Hne Hp Hq Hold. pose proof (lookup_keeps_balances _ _ _ _ Hp) as Hb.
  assert (Hold1 : balances s1 !! origin = Some old) by (rewrite Hb; exact Hold).
  rewrite sell_alt_unfold, Hp, Hq. cbv zeta. cbn [balances set_balances].
  rewrite lookup_insert_ne by auto. rewrite Hold1.
  eexists. split; [reflexivity|].
  unfold balance_of, get_fee. cbn [balances set_balances].
  rewrite lookup_insert_eq.
  rewrite !(lookup_insert_ne _ origin target) by exact Hne.
  rewrite lookup_insert_eq, Hb, Hold. cbn [from_option id].
  split; [ring|]. split; [ring|].
  intros k Hko Hkt. rewrite !lookup_insert_ne by auto. reflexivity.
Qed.

(** ** A tick without data *)

Lemma lookup_no_data (ticker_symbol : string) (s : State) :
  cache s !! key_of ticker_symbol s = None ->
  source (calls s) ticker_symbol (Datetime.strftime (datetime s)) = Klines [] ->
  get_market_ticker_price ticker_symbol s = Ok None (tick_calls s).
Proof.
  unfold key_of, get_market_ticker_price. intros Hmiss Hsrc.
  destruct recursion_limit; simpl; rewrite Hmiss, Hsrc; reflexivity.
Qed.

(** C3 (amended): at a (pair, timestamp) that is not cached and for which
    the endpoint has no kline, the price lookup returns absent ([None])
    without raising, and no balance is touched.  An order placed at that
    tick does not touch a balance either, but it does not report a no-fill:
    [buy_alt] and [sell_alt] raise, and when the sizing helper returns a
    quantity the exception is the [TypeError] of multiplying it by the
    absent price.  Keeping clear of the exception is left to the caller,
    who has to look at the price before ordering. *)
Theorem no_data_no_fill (origin target : string) (s : State) :
  cache s !! key_of (origin ++ target) s = None ->
  source (calls s) (origin ++ target) (Datetime.strftime (datetime s))
    = Klines [] ->
  let s1 := tick_calls s in
  get_market_ticker_price (origin ++ target) s = Ok None s1
  /\ balances s1 = balances s
  /\ (exists e,
        buy_alt origin target FakeAllTickers s = Raise e s1
        /\ (forall q,
              _buy_quantity origin target (balance_of target s) None = inr q ->
              e = TypeError))
  /\ (exists e,
        sell_alt origin target s = Raise e s1
        /\ (forall q,
              _sell_quantity origin target (balance_of origin s) = inr q ->
              e = TypeError)).
Proof.
  intros Hmiss Hsrc s1. pose proof (lookup_no_data _ _ Hmiss Hsrc) as Hl.
  split; [exact Hl|]. split; [reflexivity|]. split.
  - rewrite buy_alt_unfold, Hl.
    destruct (_buy_quantity origin target (balance_of target s) None) as [e|q].
    + exists e. split; [reflexivity | discriminate].
    + exists TypeError. split; reflexivity.
  - rewrite sell_alt_unfold, Hl.
    destruct (_sell_quantity origin target (balance_of origin s)) as [e|q].
    + exists e. split; [reflexivity | discriminate].
    + exists TypeError. split; reflexivity.
Qed.

(** ** The opening position *)


(** ** The tick loop *)

Lemma tick_loop_step (fuel : nat) (end_date interval : Z) (t : trader)
    (s : State) :
  datetime s < end_date ->
  tick_loop (S fuel) end_date interval t s
  = bind (tick interval t) (tick_loop fuel end_date interval) s.
Proof.
  intros Hlt. apply Z.ltb_lt in Hlt. cbn [tick_loop]. rewrite Hlt. reflexivity.
Qed.

Lemma tick_loop_done (fuel : nat) (end_date interval : Z) (t : trader)
    (s : State) :
  end_date <= datetime s -> tick_loop fuel end_date interval t s = Ok tt s.
Proof.
  intros Hge. apply Z.ltb_ge in Hge. destruct fuel; cbn [tick_loop];
    rewrite Hge; reflexivity.
Qed.

(** After [k] whole iterations the loop goes on from where they ended. *)
Lemma tick_loop_completed (end_date interval : Z) (k : nat) t s t' s' :
  completed end_date interval k t s t' s' ->
  forall fuel,
    tick_loop (k + fuel) end_date interval t s
    = tick_loop fuel end_date interval t' s'.
Proof.
  induction 1 as [|k t s t1 s1 t2 s2 Hlt Htick _ IH]; intros fuel.
  - reflexivity.
  - cbn [Nat.add]. rewrite tick_loop_step by exact Hlt.
    unfold bind at 1. rewrite Htick. apply IH.
Qed.

(** The number of whole iterations after which the loop stops is
    determined. *)
Lemma completed_unique (end_date interval : Z) (k k' : nat) t s t1 s1 t2 s2 :
  completed end_date interval k t s t1 s1 ->
  completed end_date interval k' t s t2 s2 ->
  end_date <= datetime s1 -> end_date <= datetime s2 ->
  k = k'.
Proof.
  intros H. revert k' t2 s2.
  induction H as [|k t s ta sa t1 s1 Hlt Htick _ IH]; intros k' t2 s2 H' H1 H2.
  - inversion H'; subst; [reflexivity | lia].
  - inversion H'; subst; [lia|].
    match goal with
    | Ha : tick interval t s = Ok _ _ |- _ =>
        rewrite Htick in Ha; injection Ha as <- <-
    end.
    f_equal. eapply IH; eauto.
Qed.

(** C6: suppose the backtest has opened its position and set up the
    strategy, the tick loop has gone through [k] whole iterations, the
    clock is still before the end, and the operator's interrupt is raised
    while the strategy scouts in the next iteration (tick [k], counting
    from 0), with the program in state [s'].  Then the loop stops, the
    interrupt is swallowed, and [backtest] returns normally with the ledger
    of [s']: the mutations of ticks 0 to [k] up to the interrupt, and
    nothing of a later tick, since no later tick is run.  ([s'] is any state
    the strategy can be in when the interrupt surfaces, from the one it was
    entered in to the one it would have returned; the two other statements
    of the loop body, [print] and [increment], do not touch the ledger.) *)
Theorem cancellation_returns_ledger (fuel k : nat)
    (start_date end_date : option Z) (interval : Z)
    (start_balances : option (gmap string Q)) (starting_coin : option string)
    (config : Config) (w s sk s' : State) (t tk : trader) :
  bind (open_position start_date start_balances starting_coin config)
       (fun _ => initialize_trade_thresholds (AutoTrader config)) w
  = Ok t s ->
  completed (default today end_date) interval k t s tk sk ->
  datetime sk < default today end_date ->
  scout tk (print_datetime sk) = Raise KeyboardInterrupt s' ->
  (k < fuel)%nat ->
  backtest fuel start_date end_date interval start_balances starting_coin
    config w
  = Ok (balances s') s'
  /\ tick_loop fuel (default today end_date) interval t s
     = Raise KeyboardInterrupt s'.
Proof.
  intros Hopen Hk Hlt Hint Hfuel.
  assert (Hloop : tick_loop fuel (default today end_date) interval t s
                  = Raise KeyboardInterrupt s').
  { replace fuel with (k + S (fuel - S k))%nat by lia.
    rewrite (tick_loop_completed _ _ _ _ _ _ _ Hk).
    rewrite tick_loop_step by exact Hlt.
    unfold bind, tick, modify. unfold bind. rewrite Hint. reflexivity. }
  split; [|exact Hloop].
  unfold backtest. unfold bind in Hopen |- *.
  destruct (open_position start_date start_balances starting_coin config w)
    as [[] s0|e s0|]; try discriminate.
  rewrite Hopen. unfold try_except. rewrite Hloop.
  destruct (decide (KeyboardInterrupt = KeyboardInterrupt)); [|congruence].
  reflexivity.
Qed.

(** From 2021-01-01T00:00 to 2021-01-01T00:10 with an interval of one
    minute, and a strategy whose per-tick evaluation returns normally and
    leaves the manager's clock alone: 10 whole iterations of the tick loop
    bring the clock to the end time, no other number of iterations does,
    and [backtest] then returns the ledger. *)
Lemma ten_whole_iterations (fuel : nat)
    (start_balances : option (gmap string Q))
    (starting_coin : option string) (config : Config) (w s : State)
    (t : trader) :
  let start_date := Datetime.make 2021 1 1 0 0 in
  let end_date := Datetime.make 2021 1 1 0 10 in
  (forall t0 s0, exists t1 s1,
        scout t0 s0 = Ok t1 s1 /\ datetime s1 = datetime s0) ->
  bind (open_position (Some start_date) start_balances starting_coin config)
       (fun _ => initialize_trade_thresholds (AutoTrader config)) w
  = Ok t s ->
  datetime s = start_date ->
  (10 <= fuel)%nat ->
  exists t' s',
    completed end_date 1 10 t s t' s'
    /\ datetime s' = end_date
    /\ (forall k t'' s'', completed end_date 1 k t s t'' s'' ->
                          end_date <= datetime s'' -> k = 10%nat)
    /\ backtest fuel (Some start_date) (Some end_date) 1 start_balances
         starting_coin config w
       = Ok (balances s') s'.
Proof.
  intros start_date end_date Hscout Hopen Hstart Hfuel.
  assert (Htick : forall t0 s0,
             datetime s0 + Datetime.timedelta_minutes 1 <= end_date ->
             0 <= datetime s0 ->
             exists t1 s1, tick 1 t0 s0 = Ok t1 s1
               /\ datetime s1 = datetime s0 + Datetime.timedelta_minutes 1).
  { intros t0 s0 Hle H0.
    destruct (Hscout t0 (print_datetime s0)) as (t1 & s1 & Hs & Hd).
    exists t1, (set_datetime (datetime s1 + Datetime.timedelta_minutes 1) s1).
    unfold tick, bind, modify. rewrite Hs.
    rewrite increment_ok.
    - split; [reflexivity|]. simpl. rewrite Hd. reflexivity.
    - apply in_range_iff. rewrite Hd. cbn [print_datetime datetime].
      split; [unfold Datetime.min; vm_compute Datetime.timedelta_minutes; lia|].
      etransitivity; [exact Hle|]. vm_compute. discriminate. }
  assert (Hrun : forall n t0 s0,
             datetime s0 + Z.of_nat n * Datetime.timedelta_minutes 1 = end_date ->
             0 <= datetime s0 ->
             exists t1 s1, completed end_date 1 n t0 s0 t1 s1
                           /\ datetime s1 = end_date).
  { induction n as [|n IH]; intros t0 s0 Hd H0.
    - exists t0, s0. split; [constructor | lia].
    - assert (Hm : 0 < Datetime.timedelta_minutes 1) by reflexivity.
      destruct (Htick t0 s0) as (t1 & s1 & Ht & Hd1); [nia | exact H0 |].
      destruct (IH t1 s1) as (t2 & s2 & Hc & Hd2); [lia | lia |].
      exists t2, s2. split; [|exact Hd2].
      econstructor; [nia | exact Ht | exact Hc]. }
  destruct (Hrun 10%nat t s) as (t' & s' & Hc & Hd).
  { rewrite Hstart. reflexivity. }
  { rewrite Hstart. vm_compute. discriminate. }
  exists t', s'. split; [exact Hc|]. split; [exact Hd|]. split.
  - intros k t'' s'' Hk Hend.
    eapply completed_unique; [exact Hk | exact Hc | exact Hend | lia].
  - unfold backtest. unfold bind in Hopen |- *.
    destruct (open_position (Some start_date) start_balances starting_coin
                config w) as [[] s0|e s0|]; try discriminate.
    rewrite Hopen. unfold try_except. cbn [default from_option id].
    replace fuel with (10 + (fuel - 10))%nat by lia.
    rewrite (tick_loop_completed _ _ _ _ _ _ _ Hc).
    rewrite tick_loop_done by lia. reflexivity.
Qed.

(** ** The prefetch worker *)

Lemma _thread_step_fetched (symbol : string) (interval counter : Z)
    (s s1 : State) (v : option Q) :
  get_market_ticker_price symbol s = Ok v s1 ->
  Datetime.in_range (datetime s1 + Datetime.timedelta_minutes interval) = true ->
  _thread_step symbol interval counter s
  = Ok (c_int (counter + 1))
       (set_datetime (datetime s1 + Datetime.timedelta_minutes interval) s1).
Proof.
  intros Hl Hr. unfold _thread_step, try_except, bind. rewrite Hl.
  rewrite increment_ok by exact Hr. reflexivity.
Qed.

Lemma _thread_step_api_error (symbol : string) (interval counter : Z)
    (s s1 : State) :
  get_market_ticker_price symbol s = Raise BinanceAPIException s1 ->
  _thread_step symbol interval counter s = Ok counter s1.
Proof.
  intros Hl. unfold _thread_step, try_except, bind. rewrite Hl.
  destruct (decide (BinanceAPIException = BinanceAPIException)); [|congruence].
  reflexivity.
Qed.

Lemma lookup_miss_klines (ticker_symbol : string) (s : State) (l : list Q) :
  cache s !! key_of ticker_symbol s = None ->
  source (calls s) ticker_symbol (Datetime.strftime (datetime s)) = Klines l ->
  exists v s1,
    get_market_ticker_price ticker_symbol s = Ok v s1
    /\ datetime s1 = datetime s /\ v = head l.
Proof.
  unfold key_of, get_market_ticker_price. intros Hmiss Hsrc.
  destruct l as [|p l]; do 2 eexists;
    (split; [destruct recursion_limit; simpl; rewrite Hmiss, Hsrc; reflexivity
            | split; reflexivity]).
Qed.

Lemma lookup_miss_api_error (ticker_symbol : string) (s : State) :
  cache s !! key_of ticker_symbol s = None ->
  source (calls s) ticker_symbol (Datetime.strftime (datetime s))
    = Fails BinanceAPIException ->
  get_market_ticker_price ticker_symbol s
  = Raise BinanceAPIException (tick_calls s).
Proof.
  unfold key_of, get_market_ticker_price. intros Hmiss Hsrc.
  destruct recursion_limit; simpl; rewrite Hmiss, Hsrc; reflexivity.
Qed.

Lemma c_int_small (z : Z) : - 2 ^ 31 <= z < 2 ^ 31 -> c_int z = z.
Proof.
  intros H. unfold c_int.
  rewrite Z.mod_small by lia. lia.
Qed.

(** C10: in one iteration of a prefetch worker, at a tick that is not in
    the cache and whose advance is a datetime, whatever list of klines the
    endpoint returns, the empty list (no data, the lookup returns [None])
    as much as a list with a price, the worker advances its clock by the
    interval and increments its counter (a C [int]: the increment is exact
    below [2^31 - 1]).  When the endpoint fails with the API exception, the
    worker keeps clock and counter and goes round again for the same tick.
    And an iteration that returns with the clock where it was, for an
    interval other than 0, is one whose lookup raised the API exception. *)
Theorem no_data_counts_as_fetched (symbol : string) (interval counter : Z)
    (s : State) :
  cache s !! key_of symbol s = None ->
  Datetime.in_range (datetime s + Datetime.timedelta_minutes interval) = true ->
  (forall l,
      source (calls s) symbol (Datetime.strftime (datetime s)) = Klines l ->
      exists s1,
        get_market_ticker_price symbol s = Ok (head l) s1
        /\ _thread_step symbol interval counter s
           = Ok (c_int (counter + 1))
                (set_datetime
                   (datetime s + Datetime.timedelta_minutes interval) s1))
  /\ (- 2 ^ 31 <= counter < 2 ^ 31 - 1 -> c_int (counter + 1) = counter + 1)
  /\ (source (calls s) symbol (Datetime.strftime (datetime s))
        = Fails BinanceAPIException ->
      _thread_step symbol interval counter s = Ok counter (tick_calls s)
      /\ datetime (tick_calls s) = datetime s)
  /\ (forall c' s',
        _thread_step symbol interval counter s = Ok c' s' ->
        interval <> 0 ->
        datetime s' = datetime s ->
        get_market_ticker_price symbol s = Raise BinanceAPIException s'
        /\ c' = counter).
Proof.
  intros Hmiss Hr. split; [|split; [|split]].
  - intros l Hsrc.
    destruct (lookup_miss_klines _ _ _ Hmiss Hsrc) as (v & s1 & Hl & Hd & ->).
    rewrite <- Hd in Hr |- *.
    exists s1. split; [exact Hl|].
    apply (_thread_step_fetched _ _ _ _ _ _ Hl Hr).
  - intros Hc. apply c_int_small. lia.
  - intros Hsrc. split; [|reflexivity].
    apply _thread_step_api_error, lookup_miss_api_error; assumption.
  - intros c' s' Hstep Hi Hd.
    unfold _thread_step, try_except, bind in Hstep.
    pose proof (get_market_ticker_price_in_spec recursion_limit symbol s) as Hspec.
    unfold get_market_ticker_price in *.
    destruct (get_market_ticker_price_in recursion_limit symbol s)
      as [v s1|e s1|]; [| |discriminate].
    + assert (Hd1 : datetime s1 = datetime s)
        by (destruct v; destruct Hspec as [(? & _) _]; assumption).
      unfold increment in Hstep. cbv zeta in Hstep.
      destruct (Datetime.in_range
                  (datetime s1 + Datetime.timedelta_minutes interval));
        [|discriminate].
      unfold ret in Hstep. injection Hstep as <- <-.
      cbn [datetime set_datetime] in Hd. rewrite Hd1 in Hd.
      unfold Datetime.timedelta_minutes, Datetime.us_per_minute,
        Datetime.us_per_second in Hd. lia.
    + destruct (decide (e = BinanceAPIException)) as [->|]; [|discriminate].
      injection Hstep as <- <-. split; reflexivity.
Qed.

(** ** The prefetch entry point *)

Lemma supervise_never_returns (fuel : nat) (observe : nat -> list Z)
    (round : nat) (printed : list line) :
  fst (supervise fuel observe round printed) <> Returned tt.
Proof.
  revert round printed. induction fuel as [|fuel IH]; intros round printed.
  - discriminate.
  - cbn [supervise]. destruct (report_round (observe round)) as [out [e|]].
    + discriminate.
    + apply IH.
Qed.

Lemma sum_values_bounds (bound : Z) (values : list Z) :
  Forall (fun v => 0 <= v < bound) values ->
  0 <= sum_values values <= Z.of_nat (length values) * (bound - 1).
Proof.
  induction 1 as [|v values Hv _ IH]; simpl.
  - lia.
  - unfold sum_values in *. simpl. lia.
Qed.

Lemma report_round_ok (values : list Z) :
  values <> [] ->
  Forall (fun v => 0 <= v < 2 ^ 31) values ->
  exists r1 r2 r3, report_round values = ([r1; r2; r3; Blank], None).
Proof.
  intros Hne Hall. pose proof (sum_values_bounds _ _ Hall) as Hsum.
  unfold report_round. destruct values as [|v values]; [congruence|].
  set (n := Z.of_nat (length (v :: values))) in *.
  assert (Hn : 0 < n) by (unfold n; simpl; lia).
  assert (Havg : 0 <= Z.quot (sum_values (v :: values)) n < 2 ^ 31).
  { rewrite Z.quot_div_nonneg by lia. split.
    - apply Z.div_pos; lia.
    - apply Z.div_lt_upper_bound; nia. }
  set (a := Z.quot (sum_values (v :: values)) n) in *.
  assert (Hr : Datetime.in_range
                 (Datetime.make 2021 1 1 0 0 + Datetime.timedelta_minutes a)
               = true).
  { apply in_range_iff.
    assert (Hs : Datetime.make 2021 1 1 0 0 = 63745056000000000) by reflexivity.
    assert (Hm : Datetime.max = 315537897599999999) by reflexivity.
    rewrite Hs, Hm. unfold Datetime.min, Datetime.timedelta_minutes,
      Datetime.us_per_minute, Datetime.us_per_second. lia. }
  rewrite Hr. eauto.
Qed.

Lemma supervise_reports (fuel : nat) (observe : nat -> list Z) (round : nat)
    (printed : list line) :
  (forall r, observe r <> [] /\ Forall (fun v => 0 <= v < 2 ^ 31) (observe r)) ->
  exists out,
    supervise fuel observe round printed = (StillRunning, printed ++ out)
    /\ length out = (4 * fuel)%nat.
Proof.
  intros Hobs. revert round printed.
  induction fuel as [|fuel IH]; intros round printed.
  - exists []. rewrite app_nil_r. split; reflexivity.
  - cbn [supervise].
    destruct (Hobs round) as [Hne Hall].
    destruct (report_round_ok _ Hne Hall) as (r1 & r2 & r3 & ->).
    destruct (IH (S round) (printed ++ [r1; r2; r3; Blank])) as (out & -> & Hlen).
    exists ([r1; r2; r3; Blank] ++ out). rewrite app_assoc. split; [reflexivity|].
    rewrite length_app, Hlen. simpl. lia.
Qed.

Lemma lookup_answers (ticker_symbol : string) (s : State) :
  (forall n symbol dt, exists l, source n symbol dt = Klines l) ->
  exists v s1,
    get_market_ticker_price ticker_symbol s = Ok v s1
    /\ datetime s1 = datetime s.
Proof.
  intros Hsrc. unfold get_market_ticker_price.
  destruct (Hsrc (calls s) ticker_symbol (Datetime.strftime (datetime s)))
    as [l Hl].
  destruct (cache s !! (ticker_symbol, Datetime.strftime (datetime s)))
    as [x|] eqn:Hc.
  - exists (Some x), s.
    destruct recursion_limit; simpl; rewrite Hc; split; reflexivity.
  - destruct l as [|p l]; do 2 eexists;
      (split; [destruct recursion_limit; simpl; rewrite Hc, Hl; reflexivity
              | reflexivity]).
Qed.

Lemma _thread_loop_done (fuel : nat) (symbol : string) (end_date interval
    counter : Z) (s : State) :
  end_date <= datetime s ->
  _thread_loop fuel symbol (Some end_date) interval counter s = Ok counter s.
Proof.
  intros H. apply Z.ltb_ge in H. destruct fuel; cbn [_thread_loop];
    rewrite H; reflexivity.
Qed.

(** With an endpoint that answers every request, a worker reaches the end
    of its timeline within [n] iterations, [n] intervals covering what is
    left of it. *)
Lemma _thread_loop_terminates (n : nat) (symbol : string)
    (end_date interval counter : Z) (s : State) :
  (forall n symbol dt, exists l, source n symbol dt = Klines l) ->
  0 < interval ->
  0 <= datetime s ->
  end_date + Datetime.timedelta_minutes interval <= Datetime.max ->
  end_date - datetime s <= Z.of_nat n * Datetime.timedelta_minutes interval ->
  exists counter' s',
    end_date <= datetime s'
    /\ forall fuel, (n <= fuel)%nat ->
         _thread_loop fuel symbol (Some end_date) interval counter s
         = Ok counter' s'.
Proof.
  intros Hsrc Hpos. pose proof (timedelta_minutes_pos _ Hpos) as Hst.
  revert counter s. induction n as [|n IH]; intros counter s H0 Hmax Hleft.
  - exists counter, s. split; [lia|]. intros fuel _.
    apply _thread_loop_done. lia.
  - destruct (Z_lt_le_dec (datetime s) end_date) as [Hlt|Hge].
    + destruct (lookup_answers symbol s Hsrc) as (v & s1 & Hl & Hd).
      assert (Hr : Datetime.in_range
                     (datetime s1 + Datetime.timedelta_minutes interval) = true).
      { apply in_range_iff. unfold Datetime.min. lia. }
      pose proof (_thread_step_fetched symbol interval counter s s1 v Hl Hr)
        as Hstep.
      destruct (IH (c_int (counter + 1))
                   (set_datetime
                      (datetime s1 + Datetime.timedelta_minutes interval) s1))
        as (c' & s' & Hend & Hrun).
      * simpl. lia.
      * exact Hmax.
      * simpl. lia.
      * exists c', s'. split; [exact Hend|].
        intros [|fuel] Hfuel; [lia|].
        cbn [_thread_loop]. apply Z.ltb_lt in Hlt. rewrite Hlt.
        unfold bind. rewrite Hstep. apply Hrun. lia.
    + exists counter, s. split; [exact Hge|]. intros fuel _.
      apply _thread_loop_done. exact Hge.
Qed.

(** C9 (amended): the workers terminate, the entry point does not.  With
    a positive interval, an endpoint that answers every request and an end
    time one interval short of [datetime.max], the worker of a coin runs
    its clock from the start time to the end time and returns.  The
    supervising loop of [download_market_data] is a [while True] without an
    exit: however long it is run and whatever it reads from the counters it
    has not returned, and with at least one coin and counters in the
    non-negative range of a C [int] it has printed its four lines in every
    round and is still running. *)
Theorem prefetch_never_returns (config : Config)
    (start_date end_date interval : Z) (coin : string) (w : State) :
  0 < interval ->
  (forall n symbol dt, exists l, source n symbol dt = Klines l) ->
  Datetime.in_range start_date = true ->
  end_date + Datetime.timedelta_minutes interval <= Datetime.max ->
  (exists n counter s',
      end_date <= datetime s'
      /\ forall fuel, (n <= fuel)%nat ->
           worker fuel config (Some start_date) (Some end_date) interval coin w
           = Ok counter s')
  /\ (forall fuel values,
        fst (download_market_data fuel config values) <> Returned tt)
  /\ (forall fuel values,
        SUPPORTED_COIN_LIST config <> [] ->
        (forall r i, 0 <= values r i < 2 ^ 31) ->
        exists printed,
          download_market_data fuel config values = (StillRunning, printed)
          /\ length printed = (4 * fuel)%nat).
Proof.
  intros Hpos Hsrc Hstart Hmax. apply in_range_iff in Hstart.
  pose proof (timedelta_minutes_pos _ Hpos) as Hst.
  split; [|split].
  - set (s0 := set_datetime start_date
                 (set_balances {[ BRIDGE config := 100%Q ]} w)).
    destruct (_thread_loop_terminates (Z.to_nat (end_date - start_date))
                (coin ++ BRIDGE config) end_date interval 0 s0 Hsrc Hpos)
      as (c' & s' & Hend & Hrun).
    + simpl. unfold Datetime.min in Hstart. lia.
    + exact Hmax.
    + simpl. nia.
    + exists (Z.to_nat (end_date - start_date)), c', s'. split; [exact Hend|].
      intros fuel Hfuel. unfold worker, _thread, bind. simpl.
      apply Hrun. exact Hfuel.
  - intros fuel values. apply supervise_never_returns.
  - intros fuel values Hne Hval. unfold download_market_data.
    destruct (supervise_reports fuel
                (fun r => map (values r)
                            (seq 0 (length (SUPPORTED_COIN_LIST config))))
                0%nat []) as (out & Hs & Hlen).
    + intros r. split.
      * destruct (SUPPORTED_COIN_LIST config); [congruence | discriminate].
      * apply Forall_forall. intros v Hv. apply list_elem_of_In in Hv.
        apply in_map_iff in Hv. destruct Hv as (i & <- & _). apply Hval.
    + exists out. split; [exact Hs | exact Hlen].
Qed.

(** ** Further properties of the price lookup *)

(** X1: a price lookup always comes back (with a value or an exception),
    and whatever the endpoint does it leaves the clock, the ledger and the
    printed output alone.  The cache is either untouched or, when a price is
    returned for a key that was absent, extended by exactly that key and
    price. *)
Theorem lookup_changes_only_the_cache (ticker_symbol : string) (s : State) :
  match get_market_ticker_price ticker_symbol s with
  | Ok v s' =>
      datetime s' = datetime s /\ balances s' = balances s
      /\ stdout s' = stdout s
      /\ (cache s' = cache s
          \/ exists p, v = Some p
               /\ cache s !! key_of ticker_symbol s = None
               /\ cache s' = <[key_of ticker_symbol s := p]> (cache s))
  | Raise _ s' =>
      datetime s' = datetime s /\ balances s' = balances s
      /\ stdout s' = stdout s /\ cache s' = cache s
  | Running => False
  end.
Proof.
  unfold get_market_ticker_price. generalize recursion_limit. intros frames.
  revert frames s.
  apply (get_market_ticker_price_ind ticker_symbol
           (fun s r =>
              match r with
              | Ok v s' =>
                  datetime s' = datetime s /\ balances s' = balances s
                  /\ stdout s' = stdout s
                  /\ (cache s' = cache s
                      \/ exists p, v = Some p
                           /\ cache s !! key_of ticker_symbol s = None
                           /\ cache s' = <[key_of ticker_symbol s := p]> (cache s))
              | Raise _ s' =>
                  datetime s' = datetime s /\ balances s' = balances s
                  /\ stdout s' = stdout s /\ cache s' = cache s
              | Running => False
              end)).
  - intros s v _. repeat split; auto.
  - intros s p l Hmiss _. repeat split; auto. right. exists p. auto.
  - intros s _ _. repeat split; auto.
  - intros s e _ _ _ _. repeat split; auto.
  - intros s _ _. repeat split; auto.
  - intros s r _ _ Hr. destruct r as [v s'|e s'|]; exact Hr.
Qed.

Lemma after_requests_S (n : nat) (s : State) :
  after_requests n (tick_calls s) = after_requests (S n) s.
Proof. unfold after_requests, tick_calls. simpl. f_equal. lia. Qed.

Lemma retried_lookup (frames k : nat) (ticker_symbol : string) (s : State) :
  cache s !! key_of ticker_symbol s = None ->
  (forall i, (i < k)%nat ->
     source (i + calls s) ticker_symbol (Datetime.strftime (datetime s))
     = Fails ConnectionError) ->
  (k <= frames)%nat ->
  get_market_ticker_price_in frames ticker_symbol s
  = get_market_ticker_price_in (frames - k) ticker_symbol (after_requests k s).
Proof.
  revert frames s. induction k as [|k IH]; intros frames s Hmiss Hfail Hk.
  - rewrite Nat.sub_0_r. destruct s; reflexivity.
  - destruct frames as [|frames]; [lia|].
    cbn [get_market_ticker_price_in]. cbv zeta.
    unfold key_of in Hmiss. rewrite Hmiss.
    pose proof (Hfail 0%nat ltac:(lia)) as H0. cbn [Nat.add] in H0. rewrite H0.
    rewrite IH.
    + rewrite after_requests_S. reflexivity.
    + exact Hmiss.
    + intros i Hi. simpl. replace (i + S (calls s))%nat with (S i + calls s)%nat by lia.
      apply Hfail. lia.
    + lia.
Qed.

(** X2: dropped connections are retried, one request each, for the same
    key.  When the cache misses and the endpoint fails the next [k] requests
    with a connection error, then: if [k] is within the recursion depth and
    request [k] is answered with a kline, the lookup returns its open price
    and caches it, having sent [k + 1] requests; if the failures outlast the
    recursion depth, the lookup ends in [RecursionError] after
    [recursion_limit + 1] requests with the cache as it was. *)
Theorem dropped_connections_are_retried (k : nat) (ticker_symbol : string)
    (s : State) :
  cache s !! key_of ticker_symbol s = None ->
  (forall i, (i < k)%nat ->
     source (i + calls s) ticker_symbol (Datetime.strftime (datetime s))
     = Fails ConnectionError) ->
  (forall p l,
      (k <= recursion_limit)%nat ->
      source (k + calls s) ticker_symbol (Datetime.strftime (datetime s))
      = Klines (p :: l) ->
      get_market_ticker_price ticker_symbol s
      = Ok (Some p)
           (set_cache (<[key_of ticker_symbol s := p]> (cache s))
              (after_requests (S k) s)))
  /\ (k = S recursion_limit ->
      get_market_ticker_price ticker_symbol s
      = Raise RecursionError (after_requests k s)).
Proof.
  intros Hmiss Hfail. unfold get_market_ticker_price. split.
  - intros p l Hk Hsrc.
    rewrite (retried_lookup recursion_limit k) by auto.
    unfold key_of in *.
    destruct (recursion_limit - k)%nat; cbn [get_market_ticker_price_in];
      cbv zeta; cbn [cache datetime calls after_requests];
      rewrite Hmiss, Hsrc; reflexivity.
  - intros ->.
    rewrite (retried_lookup recursion_limit recursion_limit) by (auto; intros; apply Hfail; lia).
    rewrite Nat.sub_diag. cbn [get_market_ticker_price_in]. cbv zeta.
    unfold key_of in *. cbn [cache datetime calls after_requests].
    rewrite Hmiss, (Hfail recursion_limit) by lia.
    unfold tick_calls, after_requests. simpl. reflexivity.
Qed.

(** ** Further properties of the order methods *)

Lemma lookup_keeps_frame (ticker_symbol : string) (s : State) :
  match get_market_ticker_price ticker_symbol s with
  | Ok _ s' | Raise _ s' =>
      datetime s' = datetime s /\ balances s' = balances s
  | Running => False
  end.
Proof.
  pose proof (get_market_ticker_price_in_spec recursion_limit ticker_symbol s) as H.
  unfold get_market_ticker_price.
  destruct (get_market_ticker_price_in recursion_limit ticker_symbol s)
    as [[p|] s'|e s'|]; [| | |exact H];
    destruct H as [(Hd & Hb & _) _]; split; assumption.
Qed.

(** X3: an order, whether it returns or raises, leaves the clock alone,
    changes no balance other than those of its two symbols, and removes no
    symbol from the ledger. *)
Theorem orders_touch_only_their_pair (o : order) (s : State) :
  match place o s with
  | Ok _ s' | Raise _ s' =>
      datetime s' = datetime s
      /\ (forall k, k <> origin_of o -> k <> target_of o ->
                    balances s' !! k = balances s !! k)
      /\ (forall k, is_Some (balances s !! k) -> is_Some (balances s' !! k))
  | Running => False
  end.
Proof.
  destruct o as [origin target|origin target]; cbn [place origin_of target_of].
  - unfold bind, get_all_market_tickers, ret. rewrite buy_alt_unfold.
    pose proof (lookup_keeps_frame (origin ++ target) s) as Hl.
    destruct (get_market_ticker_price (origin ++ target) s) as [price s1|e s1|];
      [|destruct Hl as [Hd Hb]; rewrite Hb; auto | exact Hl].
    destruct Hl as [Hd Hb].
    destruct (_buy_quantity origin target (balance_of target s) price) as [e|q];
      [rewrite Hb; auto|].
    destruct price as [p|]; [|rewrite Hb; auto].
    destruct (balances s1 !! target) as [old|]; [|rewrite Hb; auto].
    cbv zeta. cbn [datetime balances set_balances]. rewrite Hb.
    split; [exact Hd|]. split.
    + intros k Ho Ht. rewrite !lookup_insert_ne by auto. reflexivity.
    + intros k Hk. rewrite !lookup_insert. repeat case_decide; eauto.
  - rewrite sell_alt_unfold.
    pose proof (lookup_keeps_frame (origin ++ target) s) as Hl.
    destruct (get_market_ticker_price (origin ++ target) s) as [price s1|e s1|];
      [|destruct Hl as [Hd Hb]; rewrite Hb; auto | exact Hl].
    destruct Hl as [Hd Hb].
    destruct (_sell_quantity origin target (balance_of origin s)) as [e|q];
      [rewrite Hb; auto|].
    destruct price as [p|]; [|rewrite Hb; auto].
    cbv zeta. cbn [datetime balances set_balances].
    destruct (<[target:=_]> (balances s1) !! origin) as [old|];
      cbn [datetime balances set_balances]; rewrite Hb;
      (split; [exact Hd|]); split.
    + intros k Ho Ht. rewrite !lookup_insert_ne by auto. reflexivity.
    + intros k Hk. rewrite !lookup_insert. repeat case_decide; eauto.
    + intros k Ho Ht. rewrite !lookup_insert_ne by auto. reflexivity.
    + intros k Hk. rewrite !lookup_insert. repeat case_decide; eauto.
Qed.

(** X4: a buy is all or nothing.  When [buy_alt] raises, for whatever
    reason, the ledger is the one it started from; when it returns, the
    price was found, the sizing helper returned a quantity and the target
    symbol was in the ledger.  In particular a target that is missing from
    the ledger is a [KeyError], although its balance reads as 0. *)
Theorem buy_alt_all_or_nothing (origin target : string) (s : State) :
  match buy_alt origin target FakeAllTickers s with
  | Raise e s' =>
      balances s' = balances s
      /\ (balances s !! target = None ->
          (exists p q s1,
              get_market_ticker_price (origin ++ target) s = Ok (Some p) s1
              /\ _buy_quantity origin target 0%Q (Some p) = inr q) ->
          e = KeyError)
  | Ok r s' =>
      exists p q old,
        r = Some p
        /\ balances s !! target = Some old
        /\ _buy_quantity origin target old (Some p) = inr q
  | Running => False
  end.
Proof.
  rewrite buy_alt_unfold.
  pose proof (lookup_keeps_frame (origin ++ target) s) as Hl.
  destruct (get_market_ticker_price (origin ++ target) s) as [price s1|e s1|];
    [| |exact Hl].
  - destruct Hl as [_ Hb].
    destruct (_buy_quantity origin target (balance_of target s) price)
      as [e|q] eqn:Hq.
    + split; [exact Hb|]. intros Hmiss (p & q & s2 & [= -> <-] & Hq').
      unfold balance_of in Hq. rewrite Hmiss in Hq. cbn in Hq. congruence.
    + destruct price as [p|].
      * rewrite Hb. destruct (balances s !! target) as [old|] eqn:Hold.
        -- cbv zeta. exists p, q, old. repeat split.
           unfold balance_of in Hq. rewrite Hold in Hq. exact Hq.
        -- split; [exact Hb | reflexivity].
      * split; [exact Hb|]. intros _ (p & q' & s2 & [=] & _).
  - destruct Hl as [_ Hb]. split; [exact Hb|].
    intros _ (p & q & s2 & [=] & _).
Qed.

(** X5: a sell is not all or nothing.  With a price [p] and a quantity
    [q] from the sizing helper, a sell whose origin symbol is missing from
    the ledger raises [KeyError] only after the target has been credited:
    the ledger it leaves behind holds the target at its old balance plus
    [q * p * (1 - 0.0075)], as a new entry if the target was not held. *)
Theorem sell_alt_credits_before_it_fails (origin target : string)
    (s s1 : State) (p q : Q) :
  origin <> target ->
  get_market_ticker_price (origin ++ target) s = Ok (Some p) s1 ->
  _sell_quantity origin target (balance_of origin s) = inr q ->
  balances s !! origin = None ->
  exists s',
    sell_alt origin target s = Raise KeyError s'
    /\ balances s'
       = <[target := (balance_of target s + q * p * (1 - (75 # 10000)))%Q]>
           (balances s)
    /\ is_Some (balances s' !! target).
Proof.
  intros Hne Hp Hq Hmiss. pose proof (lookup_keeps_balances _ _ _ _ Hp) as Hb.
  rewrite sell_alt_unfold, Hp, Hq. cbv zeta. cbn [balances set_balances].
  rewrite lookup_insert_ne by auto. rewrite Hb, Hmiss.
  eexists. split; [reflexivity|]. cbn [balances set_balances].
  unfold balance_of, get_fee. rewrite Hb. split; [reflexivity|].
  rewrite lookup_insert_eq. eauto.
Qed.

Lemma lookup_hit (ticker_symbol : string) (s : State) (v : Q) :
  cache s !! key_of ticker_symbol s = Some v ->
  get_market_ticker_price ticker_symbol s = Ok (Some v) s.
Proof.
  unfold key_of, get_market_ticker_price. intros H.
  destruct recursion_limit; simpl; rewrite H; reflexivity.
Qed.

Lemma lookup_caches (ticker_symbol : string) (s s1 : State) (p : Q) :
  get_market_ticker_price ticker_symbol s = Ok (Some p) s1 ->
  cache s1 !! key_of ticker_symbol s = Some p /\ datetime s1 = datetime s.
Proof.
  unfold get_market_ticker_price. intros H.
  pose proof (get_market_ticker_price_in_spec recursion_limit ticker_symbol s) as Hs.
  rewrite H in Hs. destruct Hs as [(Hd & _) Hk]. split; assumption.
Qed.


(** ** Further properties of the backtest *)

(** X8: when the starting asset is already held, the backtest opens no
    position: the ledger is the initial one and nothing is asked of the
    endpoint. *)
Theorem held_asset_opens_nothing (config : Config) (start_date : option Z)
    (start_balances : option (gmap string Q)) (starting_coin : string)
    (w s0 : State) :
  starting_coin <> "" ->
  MockBinanceManager config start_date start_balances w = Ok tt s0 ->
  ~ (balance_of starting_coin s0 == 0)%Q ->
  open_position start_date start_balances (Some starting_coin) config w
  = Ok tt s0
  /\ calls s0 = calls w /\ cache s0 = cache w.
Proof.
  intros Hname Hinit Hheld. split.
  - unfold open_position, bind. rewrite Hinit. unfold starting_symbol.
    destruct (decide (starting_coin = "")) as [|_]; [contradiction|].
    unfold ret at 1. unfold get_currency_balance, gets.
    fold (balance_of starting_coin s0).
    destruct (Qeq_bool (balance_of starting_coin s0) 0) eqn:Hz; [|reflexivity].
    apply Qeq_bool_iff in Hz. contradiction.
  - unfold MockBinanceManager, modify in Hinit. injection Hinit as <-.
    split; reflexivity.
Qed.

(** X9: the defaults of [backtest].  No start balances and an empty dict
    of start balances are the same thing: the manager starts with 100 units
    of the bridge asset and nothing else.  No starting coin and an empty
    starting coin are the same thing too: the first supported coin is taken,
    and when the list of supported coins is empty the backtest ends in
    [IndexError] with the manager built and nothing asked of the endpoint. *)
Theorem backtest_defaults (config : Config) (start_date : option Z)
    (start_balances : option (gmap string Q)) (starting_coin : option string)
    (w : State) :
  start_balances = None \/ start_balances = Some ∅ ->
  starting_coin = None \/ starting_coin = Some "" ->
  MockBinanceManager config start_date start_balances w
  = Ok tt (fresh_manager config start_date w)
  /\ open_position start_date start_balances starting_coin config w
     = match SUPPORTED_COIN_LIST config with
       | [] => Raise IndexError (fresh_manager config start_date w)
       | c :: _ => open_position start_date None (Some c) config w
       end.
Proof.
  intros Hb Hc.
  assert (Hinit : forall sb, sb = None \/ sb = Some ∅ ->
            MockBinanceManager config start_date sb w
            = Ok tt (fresh_manager config start_date w)).
  { intros sb [->| ->]; unfold MockBinanceManager, modify, fresh_manager;
      [reflexivity|].
    destruct (decide ((∅ : gmap string Q) = ∅)); [reflexivity | congruence]. }
  split; [apply Hinit; exact Hb|].
  unfold open_position, bind. rewrite (Hinit _ Hb), (Hinit None) by auto.
  assert (Hs : starting_symbol starting_coin config
               = match SUPPORTED_COIN_LIST config with
                 | c :: _ => ret c
                 | [] => raise IndexError
                 end).
  { destruct Hc as [->| ->]; unfold starting_symbol; [reflexivity|].
    destruct (decide ("" = "")); [reflexivity | congruence]. }
  rewrite Hs. unfold starting_symbol.
  destruct (SUPPORTED_COIN_LIST config) as [|c l]; [reflexivity|].
  destruct (decide (c = "")); reflexivity.
Qed.

(** The loop body under a strategy that returns and leaves clock and
    output alone. *)
Lemma tick_quiet (interval : Z) (t : trader) (s : State) :
  (forall t0 s0, exists t1 s1,
        scout t0 s0 = Ok t1 s1 /\ datetime s1 = datetime s0
        /\ stdout s1 = stdout s0) ->
  Datetime.in_range (datetime s + Datetime.timedelta_minutes interval) = true ->
  exists t1 s1,
    tick interval t s = Ok t1 s1
    /\ datetime s1 = datetime s + Datetime.timedelta_minutes interval
    /\ stdout s1 = stdout s ++ [datetime s].
Proof.
  intros Hscout Hr.
  destruct (Hscout t (print_datetime s)) as (t1 & s1 & Hs & Hd & Ho).
  cbn [print_datetime datetime stdout] in Hd, Ho.
  exists t1, (set_datetime (datetime s1 + Datetime.timedelta_minutes interval) s1).
  unfold tick, bind, modify. rewrite Hs.
  rewrite increment_ok by (rewrite Hd; exact Hr).
  split; [reflexivity|]. split; [simpl; rewrite Hd; reflexivity | exact Ho].
Qed.

Lemma tick_times_S (start_date interval : Z) (n : nat) :
  tick_times start_date interval (S n)
  = start_date
    :: tick_times (start_date + Datetime.timedelta_minutes interval) interval n.
Proof.
  unfold tick_times. cbn [seq map]. f_equal; [simpl; lia|].
  rewrite <- seq_shift, map_map. apply map_ext. intros k. lia.
Qed.

Lemma quiet_run (end_date interval : Z) (n : nat) (t : trader) (s : State) :
  0 < interval ->
  (forall t0 s0, exists t1 s1,
        scout t0 s0 = Ok t1 s1 /\ datetime s1 = datetime s0
        /\ stdout s1 = stdout s0) ->
  0 <= datetime s ->
  datetime s + Z.of_nat n * Datetime.timedelta_minutes interval <= Datetime.max ->
  (forall k, (k < n)%nat ->
     datetime s + Z.of_nat k * Datetime.timedelta_minutes interval < end_date) ->
  exists t' s',
    completed end_date interval n t s t' s'
    /\ datetime s'
       = datetime s + Z.of_nat n * Datetime.timedelta_minutes interval
    /\ stdout s' = stdout s ++ tick_times (datetime s) interval n.
Proof.
  intros Hpos Hscout. pose proof (timedelta_minutes_pos _ Hpos) as Hst.
  revert t s. induction n as [|n IH]; intros t s H0 Hmax Hlt.
  - exists t, s. split; [constructor|]. split; [lia|].
    unfold tick_times. simpl. rewrite app_nil_r. reflexivity.
  - destruct (tick_quiet interval t s Hscout) as (t1 & s1 & Ht & Hd & Ho).
    { apply in_range_iff. unfold Datetime.min. lia. }
    destruct (IH t1 s1) as (t' & s' & Hc & Hd' & Ho').
    + lia.
    + rewrite Hd. lia.
    + intros k Hk. rewrite Hd. specialize (Hlt (S k) ltac:(lia)). lia.
    + exists t', s'. split; [|split].
      * econstructor; [|exact Ht|exact Hc].
        specialize (Hlt 0%nat ltac:(lia)). lia.
      * rewrite Hd', Hd. lia.
      * rewrite Ho', Ho, Hd, tick_times_S, <- app_assoc. reflexivity.
Qed.

Lemma ticks_between_spec (start_date end_date interval : Z) :
  0 < interval ->
  let step := Datetime.timedelta_minutes interval in
  let n := Z.of_nat (ticks_between start_date end_date interval) in
  end_date <= start_date + n * step
  /\ (forall k, 0 <= k < n -> start_date + k * step < end_date).
Proof.
  intros Hpos step n. pose proof (timedelta_minutes_pos _ Hpos) as Hst.
  fold step in Hst. unfold n, ticks_between. fold step.
  set (d := end_date - start_date + step - 1).
  destruct (Z_lt_le_dec d 0) as [Hneg|Hnn].
  - assert (Hq : d / step < 0) by (apply Z.div_lt_upper_bound; lia).
    rewrite Z2Nat.nonpos by lia. simpl. split; [unfold d in *; lia | lia].
  - pose proof (Z.div_pos d step Hnn Hst) as Hq.
    rewrite Z2Nat.id by exact Hq.
    pose proof (Z.div_mod d step ltac:(lia)) as Hdm.
    pose proof (Z.mod_pos_bound d step Hst) as Hm.
    unfold d in *. split; [nia|]. intros k Hk. nia.
Qed.

(** X10: how many ticks a backtest makes.  With a positive interval, a
    strategy whose per-tick evaluation returns and leaves the clock and the
    printed output alone, and an end time at least one interval short of
    [datetime.max], the tick loop started at [start] makes exactly
    [ticks_between start end interval] iterations, the number of intervals
    needed to reach or pass the end time (none if the start is not before the
    end), prints the clock at the start of each one, stops with the clock on
    [start + n * interval] minutes, at or past the end time by less than one
    interval, and returns. *)
Theorem tick_count (fuel : nat) (end_date interval : Z) (t : trader)
    (s : State) :
  0 < interval ->
  (forall t0 s0, exists t1 s1,
        scout t0 s0 = Ok t1 s1 /\ datetime s1 = datetime s0
        /\ stdout s1 = stdout s0) ->
  0 <= datetime s ->
  Z.max (datetime s) end_date + Datetime.timedelta_minutes interval
    <= Datetime.max ->
  let n := ticks_between (datetime s) end_date interval in
  (n <= fuel)%nat ->
  exists t' s',
    tick_loop fuel end_date interval t s = Ok tt s'
    /\ completed end_date interval n t s t' s'
    /\ datetime s'
       = datetime s + Z.of_nat n * Datetime.timedelta_minutes interval
    /\ end_date <= datetime s'
    /\ (datetime s < end_date ->
        datetime s' < end_date + Datetime.timedelta_minutes interval)
    /\ stdout s' = stdout s ++ tick_times (datetime s) interval n.
Proof.
  intros Hpos Hscout H0 Hmax n Hfuel.
  pose proof (timedelta_minutes_pos _ Hpos) as Hst.
  destruct (ticks_between_spec (datetime s) end_date interval Hpos)
    as [Hreach Hbefore]. fold n in Hreach, Hbefore.
  assert (Hlast : datetime s < end_date ->
            datetime s + Z.of_nat n * Datetime.timedelta_minutes interval
            < end_date + Datetime.timedelta_minutes interval).
  { intros Hlt. destruct n as [|m]; [lia|].
    specialize (Hbefore (Z.of_nat m) ltac:(lia)). lia. }
  assert (Hzero : end_date <= datetime s -> n = 0%nat).
  { intros Hge. destruct n as [|m]; [reflexivity|].
    specialize (Hbefore 0 ltac:(lia)). lia. }
  destruct (quiet_run end_date interval n t s Hpos Hscout H0)
    as (t' & s' & Hc & Hd & Ho).
  - destruct (Z_lt_le_dec (datetime s) end_date) as [Hlt|Hge].
    + specialize (Hlast Hlt). lia.
    + rewrite (Hzero Hge). lia.
  - intros k Hk. apply Hbefore. lia.
  - exists t', s'. split; [|split; [exact Hc|]].
    + replace fuel with (n + (fuel - n))%nat by lia.
      rewrite (tick_loop_completed _ _ _ _ _ _ _ Hc).
      apply tick_loop_done. lia.
    + split; [exact Hd|]. split; [lia|]. split; [|exact Ho].
      intros Hlt. rewrite Hd. apply Hlast, Hlt.
Qed.

(** X11: an interval of 0 never ends.  With the clock before the end time
    and a strategy that returns and leaves the clock alone, the tick loop
    with interval 0 is still running after any number of iterations, and so
    is the backtest. *)
Theorem zero_interval_runs_forever (start_date end_date : option Z)
    (start_balances : option (gmap string Q)) (starting_coin : option string)
    (config : Config) (w s : State) (t : trader) :
  (forall t0 s0, exists t1 s1,
        scout t0 s0 = Ok t1 s1 /\ datetime s1 = datetime s0) ->
  bind (open_position start_date start_balances starting_coin config)
       (fun _ => initialize_trade_thresholds (AutoTrader config)) w
  = Ok t s ->
  Datetime.in_range (datetime s) = true ->
  datetime s < default today end_date ->
  forall fuel,
    tick_loop fuel (default today end_date) 0 t s = Running
    /\ backtest fuel start_date end_date 0 start_balances starting_coin
         config w = Running.
Proof.
  intros Hscout Hopen Hr Hlt fuel.
  assert (Hloop : forall fuel t0 s0,
            datetime s0 = datetime s ->
            tick_loop fuel (default today end_date) 0 t0 s0 = Running).
  { clear fuel. induction fuel as [|fuel IH]; intros t0 s0 Hd.
    - cbn [tick_loop]. rewrite Hd. apply Z.ltb_lt in Hlt. rewrite Hlt. reflexivity.
    - rewrite tick_loop_step by (rewrite Hd; exact Hlt).
      destruct (Hscout t0 (print_datetime s0)) as (t1 & s1 & Hs & Hd1).
      cbn [print_datetime datetime] in Hd1.
      unfold bind, tick, modify. unfold bind. rewrite Hs.
      rewrite increment_ok.
      + unfold ret. apply IH. simpl.
        unfold Datetime.timedelta_minutes. lia.
      + unfold Datetime.timedelta_minutes. rewrite Z.mul_0_l, Z.add_0_r.
        rewrite Hd1, Hd. exact Hr. }
  split; [apply Hloop; reflexivity|].
  unfold backtest. unfold bind in Hopen |- *.
  destruct (open_position start_date start_balances starting_coin config w)
    as [[] s0|e s0|]; try discriminate.
  rewrite Hopen. unfold try_except. rewrite Hloop by reflexivity. reflexivity.
Qed.

(** X12: only the operator's interrupt is swallowed.  When the strategy
    raises any other exception while scouting in tick [k], the backtest does
    not return a ledger: the exception leaves [backtest], carrying the state
    in which it was raised. *)
Theorem strategy_errors_are_fatal (fuel k : nat)
    (start_date end_date : option Z) (interval : Z)
    (start_balances : option (gmap string Q)) (starting_coin : option string)
    (config : Config) (w s sk s' : State) (t tk : trader) (e : exn) :
  bind (open_position start_date start_balances starting_coin config)
       (fun _ => initialize_trade_thresholds (AutoTrader config)) w
  = Ok t s ->
  completed (default today end_date) interval k t s tk sk ->
  datetime sk < default today end_date ->
  scout tk (print_datetime sk) = Raise e s' ->
  e <> KeyboardInterrupt ->
  (k < fuel)%nat ->
  backtest fuel start_date end_date interval start_balances starting_coin
    config w
  = Raise e s'.
Proof.
  intros Hopen Hk Hlt Hraise He Hfuel.
  assert (Hloop : tick_loop fuel (default today end_date) interval t s
                  = Raise e s').
  { replace fuel with (k + S (fuel - S k))%nat by lia.
    rewrite (tick_loop_completed _ _ _ _ _ _ _ Hk).
    rewrite tick_loop_step by exact Hlt.
    unfold bind, tick, modify. unfold bind. rewrite Hraise. reflexivity. }
  unfold backtest. unfold bind in Hopen |- *.
  destruct (open_position start_date start_balances starting_coin config w)
    as [[] s0|e0 s0|]; try discriminate.
  rewrite Hopen. unfold try_except. rewrite Hloop.
  destruct (decide (e = KeyboardInterrupt)); [contradiction | reflexivity].
Qed.

(** X13: when a backtest raises.  [backtest] raises [e] exactly when
    opening the position or setting up the strategy raises [e], whatever
    [e] is, the operator's interrupt included, or when the tick loop raises
    [e] and [e] is not the operator's interrupt.  So an interrupt is handled
    only once the loop is running, and no other failure of the loop is. *)
Theorem backtest_raises_iff (fuel : nat) (start_date end_date : option Z)
    (interval : Z) (start_balances : option (gmap string Q))
    (starting_coin : option string) (config : Config) (w s' : State)
    (e : exn) :
  backtest fuel start_date end_date interval start_balances starting_coin
    config w
  = Raise e s'
  <-> (bind (open_position start_date start_balances starting_coin config)
         (fun _ => initialize_trade_thresholds (AutoTrader config)) w
       = Raise e s'
       \/ exists t s,
           bind (open_position start_date start_balances starting_coin config)
             (fun _ => initialize_trade_thresholds (AutoTrader config)) w
           = Ok t s
           /\ tick_loop fuel (default today end_date) interval t s = Raise e s'
           /\ e <> KeyboardInterrupt).
Proof.
  unfold backtest, bind.
  destruct (open_position start_date start_balances starting_coin config w)
    as [[] s0|e0 s0|].
  - destruct (initialize_trade_thresholds (AutoTrader config) s0)
      as [t s1|e1 s1|].
    + unfold try_except.
      destruct (tick_loop fuel (default today end_date) interval t s1)
        as [[] s2|e2 s2|] eqn:Hloop.
      * split; [discriminate|].
        intros [H|(t0 & s3 & [= <- <-] & H & _)]; [discriminate|].
        rewrite Hloop in H. discriminate.
      * destruct (decide (e2 = KeyboardInterrupt)) as [->|Hne].
        -- split; [discriminate|].
           intros [H|(t0 & s3 & [= <- <-] & H & Hn)]; [discriminate|].
           rewrite Hloop in H. injection H as <- <-. congruence.
        -- split.
           ++ intros [= <- <-]. right. exists t, s1. auto.
           ++ intros [H|(t0 & s3 & [= <- <-] & H & _)]; [discriminate|].
              rewrite Hloop in H. injection H as <- <-. reflexivity.
      * split; [discriminate|].
        intros [H|(t0 & s3 & [= <- <-] & H & _)]; [discriminate|].
        rewrite Hloop in H. discriminate.
    + split.
      * intros [= <- <-]. left. reflexivity.
      * intros [[= <- <-]|(t0 & s3 & H & _)]; [reflexivity | discriminate].
    + split; [discriminate|].
      intros [H|(t0 & s3 & H & _)]; discriminate.
  - split.
    + intros [= <- <-]. left. reflexivity.
    + intros [[= <- <-]|(t0 & s3 & H & _)]; [reflexivity | discriminate].
  - split; [discriminate|]. intros [H|(t0 & s3 & H & _)]; discriminate.
Qed.

(** ** Further properties of the prefetcher *)

Lemma count_up_exact (n : nat) (counter : Z) :
  - 2 ^ 31 <= counter -> counter + Z.of_nat n < 2 ^ 31 ->
  count_up n counter = counter + Z.of_nat n.
Proof.
  revert counter. induction n as [|n IH]; intros counter Hlo Hhi.
  - simpl. lia.
  - cbn [count_up]. rewrite c_int_small by lia. rewrite IH by lia. lia.
Qed.

(** Against an endpoint that either answers or fails with the API
    exception, a lookup returns at the same clock or raises that exception
    on a miss, after one request. *)
Lemma lookup_or_api_error (ticker_symbol : string) (s : State) :
  (forall n symbol dt,
      (exists l, source n symbol dt = Klines l)
      \/ source n symbol dt = Fails BinanceAPIException) ->
  (exists v s1,
      get_market_ticker_price ticker_symbol s = Ok v s1
      /\ datetime s1 = datetime s /\ (calls s <= calls s1)%nat)
  \/ (get_market_ticker_price ticker_symbol s
      = Raise BinanceAPIException (tick_calls s)
      /\ source (calls s) ticker_symbol (Datetime.strftime (datetime s))
         = Fails BinanceAPIException).
Proof.
  intros Hsrc. unfold get_market_ticker_price.
  destruct (cache s !! (ticker_symbol, Datetime.strftime (datetime s)))
    as [x|] eqn:Hc.
  - left. exists (Some x), s.
    destruct recursion_limit; simpl; rewrite Hc; repeat split; lia.
  - destruct (Hsrc (calls s) ticker_symbol (Datetime.strftime (datetime s)))
      as [[l Hl]|Hl].
    + left. destruct l as [|p l]; do 2 eexists;
        (split; [destruct recursion_limit; simpl; rewrite Hc, Hl; reflexivity
                | split; [reflexivity | simpl; lia]]).
    + right. split; [|exact Hl].
      destruct recursion_limit; simpl; rewrite Hc, Hl; reflexivity.
Qed.

Lemma _thread_loop_step (fuel : nat) (symbol : string)
    (end_date interval counter : Z) (s : State) :
  datetime s < end_date ->
  _thread_loop (S fuel) symbol (Some end_date) interval counter s
  = bind (_thread_step symbol interval counter)
      (_thread_loop fuel symbol (Some end_date) interval) s.
Proof.
  intros H. apply Z.ltb_lt in H. cbn [_thread_loop]. rewrite H. reflexivity.
Qed.

Lemma worker_run (failing : nat) (symbol : string) (end_date interval : Z) :
  0 < interval ->
  (forall n symbol dt,
      (exists l, source n symbol dt = Klines l)
      \/ source n symbol dt = Fails BinanceAPIException) ->
  (forall n symbol dt, (failing <= n)%nat -> exists l, source n symbol dt = Klines l) ->
  forall (n f : nat) (counter : Z) (s : State),
    (failing - calls s <= f)%nat ->
    0 <= datetime s ->
    datetime s + Z.of_nat n * Datetime.timedelta_minutes interval
      <= Datetime.max ->
    (forall k, (k < n)%nat ->
       datetime s + Z.of_nat k * Datetime.timedelta_minutes interval < end_date) ->
    end_date
      <= datetime s + Z.of_nat n * Datetime.timedelta_minutes interval ->
    exists s',
      datetime s'
      = datetime s + Z.of_nat n * Datetime.timedelta_minutes interval
      /\ forall fuel, (n + f <= fuel)%nat ->
           _thread_loop fuel symbol (Some end_date) interval counter s
           = Ok (count_up n counter) s'.
Proof.
  intros Hpos Hsrc Hlate. pose proof (timedelta_minutes_pos _ Hpos) as Hst.
  induction n as [|n IHn].
  - intros f counter s _ H0 _ _ Hend. exists s. split; [lia|].
    intros fuel _. apply _thread_loop_done. lia.
  - induction f as [|f IHf]; intros counter s Hf H0 Hmax Hlt Hend.
    + assert (Hnow : datetime s < end_date)
        by (specialize (Hlt 0%nat ltac:(lia)); lia).
      destruct (lookup_or_api_error symbol s Hsrc)
        as [(v & s1 & Hl & Hd & Hc)|[_ Hfail]].
      * assert (Hr : Datetime.in_range
                       (datetime s1 + Datetime.timedelta_minutes interval) = true)
          by (apply in_range_iff; unfold Datetime.min; lia).
        destruct (IHn 0%nat (c_int (counter + 1))
                    (set_datetime
                       (datetime s1 + Datetime.timedelta_minutes interval) s1))
          as (s' & Hd' & Hrun).
        -- simpl. lia.
        -- simpl. lia.
        -- simpl. lia.
        -- intros k Hk. simpl. specialize (Hlt (S k) ltac:(lia)). lia.
        -- simpl. lia.
        -- exists s'. split; [simpl in Hd'; lia|].
           intros [|fuel] Hfuel; [lia|].
           rewrite _thread_loop_step by exact Hnow. unfold bind.
           rewrite (_thread_step_fetched _ _ _ _ _ _ Hl Hr).
           apply Hrun. lia.
      * destruct (Hlate (calls s) symbol (Datetime.strftime (datetime s)))
          as [l Hl]; [lia | congruence].
    + assert (Hnow : datetime s < end_date)
        by (specialize (Hlt 0%nat ltac:(lia)); lia).
      destruct (lookup_or_api_error symbol s Hsrc)
        as [(v & s1 & Hl & Hd & Hc)|[Hl Hfail]].
      * assert (Hr : Datetime.in_range
                       (datetime s1 + Datetime.timedelta_minutes interval) = true)
          by (apply in_range_iff; unfold Datetime.min; lia).
        destruct (IHn (S f) (c_int (counter + 1))
                    (set_datetime
                       (datetime s1 + Datetime.timedelta_minutes interval) s1))
          as (s' & Hd' & Hrun).
        -- simpl. lia.
        -- simpl. lia.
        -- simpl. lia.
        -- intros k Hk. simpl. specialize (Hlt (S k) ltac:(lia)). lia.
        -- simpl. lia.
        -- exists s'. split; [simpl in Hd'; lia|].
           intros [|fuel] Hfuel; [lia|].
           rewrite _thread_loop_step by exact Hnow. unfold bind.
           rewrite (_thread_step_fetched _ _ _ _ _ _ Hl Hr).
           apply Hrun. lia.
      * destruct (IHf counter (tick_calls s)) as (s' & Hd' & Hrun).
        -- simpl. lia.
        -- exact H0.
        -- exact Hmax.
        -- exact Hlt.
        -- exact Hend.
        -- exists s'. split; [exact Hd'|].
           intros [|fuel] Hfuel; [lia|].
           rewrite _thread_loop_step by exact Hnow. unfold bind.
           rewrite (_thread_step_api_error _ _ _ _ _ Hl).
           apply Hrun. lia.
Qed.

(** X14: a worker counts every tick once, however often it has to
    retry.  Against an endpoint that answers or fails with the API exception,
    and that fails no request from the [failing]-th on, a worker with a
    positive interval reaches the end of its timeline: it stops with the
    clock on [start + n * interval] minutes, at or past the end time, and its
    counter advanced by the [n = ticks_between start end interval] ticks of
    the timeline, not by the retries (exactly [counter + n] while that stays
    below [2^31]). *)
Theorem worker_counts_every_tick_once (failing : nat) (symbol : string)
    (end_date interval counter : Z) (s : State) :
  0 < interval ->
  (forall n symbol dt,
      (exists l, source n symbol dt = Klines l)
      \/ source n symbol dt = Fails BinanceAPIException) ->
  (forall n symbol dt, (failing <= n)%nat -> exists l, source n symbol dt = Klines l) ->
  0 <= datetime s ->
  Z.max (datetime s) end_date + Datetime.timedelta_minutes interval
    <= Datetime.max ->
  let n := ticks_between (datetime s) end_date interval in
  exists s',
    (forall fuel, (n + (failing - calls s) <= fuel)%nat ->
       _thread_loop fuel symbol (Some end_date) interval counter s
       = Ok (count_up n counter) s')
    /\ datetime s'
       = datetime s + Z.of_nat n * Datetime.timedelta_minutes interval
    /\ end_date <= datetime s'
    /\ (- 2 ^ 31 <= counter -> counter + Z.of_nat n < 2 ^ 31 ->
        count_up n counter = counter + Z.of_nat n).
Proof.
  intros Hpos Hsrc Hlate H0 Hmax n.
  pose proof (timedelta_minutes_pos _ Hpos) as Hst.
  destruct (ticks_between_spec (datetime s) end_date interval Hpos)
    as [Hreach Hbefore]. fold n in Hreach, Hbefore.
  assert (Hbound : datetime s
                   + Z.of_nat n * Datetime.timedelta_minutes interval
                   <= Datetime.max).
  { destruct n as [|m]; [lia|].
    specialize (Hbefore (Z.of_nat m) ltac:(lia)). lia. }
  destruct (worker_run failing symbol end_date interval Hpos Hsrc Hlate
              n (failing - calls s)%nat counter s)
    as (s' & Hd & Hrun); auto.
  - intros k Hk. apply Hbefore. lia.
  - exists s'. split; [exact Hrun|]. split; [exact Hd|]. split; [lia|].
    apply count_up_exact.
Qed.

Lemma lookup_priced (ticker_symbol : string) (s : State) :
  (forall n symbol dt, exists p l, source n symbol dt = Klines (p :: l)) ->
  exists p s1,
    get_market_ticker_price ticker_symbol s = Ok (Some p) s1
    /\ lookup_frame s s1
    /\ cache s1 !! key_of ticker_symbol s = Some p.
Proof.
  intros Hsrc.
  pose proof (get_market_ticker_price_in_spec recursion_limit ticker_symbol s)
    as Hspec.
  unfold get_market_ticker_price, key_of in *.
  destruct (cache s !! (ticker_symbol, Datetime.strftime (datetime s)))
    as [x|] eqn:Hc.
  - exists x, s. split; [|split; [apply lookup_frame_refl | exact Hc]].
    destruct recursion_limit; simpl; rewrite Hc; reflexivity.
  - destruct (Hsrc (calls s) ticker_symbol (Datetime.strftime (datetime s)))
      as (p & l & Hl).
    assert (E : get_market_ticker_price_in recursion_limit ticker_symbol s
                = Ok (Some p)
                     (set_cache
                        (<[(ticker_symbol, Datetime.strftime (datetime s)) := p]>
                           (cache s)) (tick_calls s)))
      by (destruct recursion_limit; simpl; rewrite Hc, Hl; reflexivity).
    rewrite E in Hspec. destruct Hspec as [F Hk].
    exists p. eexists. split; [exact E|]. split; [exact F | exact Hk].
Qed.

Lemma worker_fill (symbol : string) (end_date interval : Z) :
  0 < interval ->
  (forall n symbol dt, exists p l, source n symbol dt = Klines (p :: l)) ->
  forall (n : nat) (counter : Z) (s : State),
    0 <= datetime s ->
    datetime s + Z.of_nat n * Datetime.timedelta_minutes interval
      <= Datetime.max ->
    (forall k, (k < n)%nat ->
       datetime s + Z.of_nat k * Datetime.timedelta_minutes interval < end_date) ->
    end_date
      <= datetime s + Z.of_nat n * Datetime.timedelta_minutes interval ->
    exists counter' s',
      (forall fuel, (n <= fuel)%nat ->
         _thread_loop fuel symbol (Some end_date) interval counter s
         = Ok counter' s')
      /\ balances s' = balances s
      /\ (forall key x, cache s !! key = Some x -> cache s' !! key = Some x)
      /\ (forall k, (k < n)%nat ->
            is_Some (cache s' !! (symbol,
                                  Datetime.strftime
                                    (datetime s
                                     + Z.of_nat k
                                       * Datetime.timedelta_minutes interval)))).
Proof.
  intros Hpos Hsrc. pose proof (timedelta_minutes_pos _ Hpos) as Hst.
  induction n as [|n IH]; intros counter s H0 Hmax Hlt Hend.
  - exists counter, s. split; [|split; [reflexivity | split; [auto | lia]]].
    intros fuel _. apply _thread_loop_done. lia.
  - assert (Hnow : datetime s < end_date)
      by (specialize (Hlt 0%nat ltac:(lia)); lia).
    destruct (lookup_priced symbol s Hsrc)
      as (p & s1 & Hl & (Hd & Hb & _ & _ & Hgrow) & Hk).
    assert (Hr : Datetime.in_range
                   (datetime s1 + Datetime.timedelta_minutes interval) = true)
      by (apply in_range_iff; unfold Datetime.min; lia).
    destruct (IH (c_int (counter + 1))
                (set_datetime
                   (datetime s1 + Datetime.timedelta_minutes interval) s1))
      as (c' & s' & Hrun & Hb' & Hgrow' & Hfill).
    + simpl. lia.
    + simpl. lia.
    + intros k Hk'. simpl. specialize (Hlt (S k) ltac:(lia)). lia.
    + simpl. lia.
    + exists c', s'. split; [|split; [|split]].
      * intros [|fuel] Hfuel; [lia|].
        rewrite _thread_loop_step by exact Hnow. unfold bind.
        rewrite (_thread_step_fetched _ _ _ _ _ _ Hl Hr). apply Hrun. lia.
      * rewrite Hb'. simpl. exact Hb.
      * intros key x Hx. apply Hgrow'. simpl. apply Hgrow, Hx.
      * intros [|k] Hk'.
        -- exists p. apply Hgrow'. simpl. unfold key_of in Hk.
           replace (datetime s + Z.of_nat 0 * Datetime.timedelta_minutes interval)
             with (datetime s) by lia.
           exact Hk.
        -- specialize (Hfill k ltac:(lia)). simpl in Hfill.
           replace (datetime s + Z.of_nat (S k) * Datetime.timedelta_minutes interval)
             with (datetime s1 + Datetime.timedelta_minutes interval
                   + Z.of_nat k * Datetime.timedelta_minutes interval) by lia.
           exact Hfill.
Qed.

(** X15: what the prefetch is for.  Against an endpoint that has a kline
    for every request, a worker with a positive interval returns with the
    ledger untouched, every earlier cache entry kept, and a price in the
    cache for its symbol at every tick of its timeline; a manager that later
    stands at one of those ticks with that cache gets the price without a
    request. *)
Theorem prefetch_fills_the_cache (symbol : string)
    (end_date interval counter : Z) (s : State) :
  0 < interval ->
  (forall n symbol dt, exists p l, source n symbol dt = Klines (p :: l)) ->
  0 <= datetime s ->
  Z.max (datetime s) end_date + Datetime.timedelta_minutes interval
    <= Datetime.max ->
  let n := ticks_between (datetime s) end_date interval in
  exists counter' s',
    (forall fuel, (n <= fuel)%nat ->
       _thread_loop fuel symbol (Some end_date) interval counter s
       = Ok counter' s')
    /\ balances s' = balances s
    /\ (forall key x, cache s !! key = Some x -> cache s' !! key = Some x)
    /\ (forall k later,
          (k < n)%nat ->
          cache later = cache s' ->
          datetime later
          = datetime s + Z.of_nat k * Datetime.timedelta_minutes interval ->
          exists p, get_market_ticker_price symbol later = Ok (Some p) later).
Proof.
  intros Hpos Hsrc H0 Hmax n.
  pose proof (timedelta_minutes_pos _ Hpos) as Hst.
  destruct (ticks_between_spec (datetime s) end_date interval Hpos)
    as [Hreach Hbefore]. fold n in Hreach, Hbefore.
  assert (Hbound : datetime s
                   + Z.of_nat n * Datetime.timedelta_minutes interval
                   <= Datetime.max).
  { destruct n as [|m]; [lia|].
    specialize (Hbefore (Z.of_nat m) ltac:(lia)). lia. }
  destruct (worker_fill symbol end_date interval Hpos Hsrc n counter s)
    as (c' & s' & Hrun & Hb & Hgrow & Hfill); auto.
  - intros k Hk. apply Hbefore. lia.
  - exists c', s'. split; [exact Hrun|]. split; [exact Hb|].
    split; [exact Hgrow|].
    intros k later Hk Hc Hd. destruct (Hfill k Hk) as [p Hp].
    exists p. apply lookup_hit. unfold key_of. rewrite Hc, Hd. exact Hp.
Qed.

(** X16: [download_market_data] without an end date.  [end_date] defaults
    to [None] and is handed to the workers as it is, so every worker raises
    [TypeError] at its first comparison, with its manager built and nothing
    asked of the endpoint.  The supervising loop, with at least one coin,
    goes on all the same and reports no progress in every round. *)
Theorem prefetch_without_end_date (fuel : nat) (config : Config)
    (start_date : option Z) (interval : Z) (coin : string) (w : State) :
  worker fuel config start_date None interval coin w
  = Raise TypeError (fresh_manager config start_date w)
  /\ calls (fresh_manager config start_date w) = calls w
  /\ (SUPPORTED_COIN_LIST config <> [] ->
      forall rounds,
        download_market_data rounds config (fun _ _ => 0)
        = (StillRunning,
           concat (replicate rounds
                     [TotalDatapointCount 0; AverageFetchedPerSymbol 0;
                      AverageDatetime (Datetime.make 2021 1 1 0 0); Blank]))).
Proof.
  split; [|split; [reflexivity|]].
  - unfold worker, _thread, bind, MockBinanceManager, modify.
    destruct fuel; reflexivity.
  - intros Hne rounds. unfold download_market_data.
    set (observe := fun _ : nat =>
                      map (fun _ : nat => 0)
                        (seq 0 (length (SUPPORTED_COIN_LIST config)))).
    assert (Hround : forall r,
              report_round (observe r)
              = ([TotalDatapointCount 0; AverageFetchedPerSymbol 0;
                  AverageDatetime (Datetime.make 2021 1 1 0 0); Blank], None)).
    { intros r. unfold observe.
      destruct (SUPPORTED_COIN_LIST config) as [|c l]; [congruence|].
      assert (Hsum : forall m, sum_values (map (fun _ : nat => 0) m) = 0)
        by (induction m as [|? ? IHm]; [reflexivity | unfold sum_values in *; simpl; exact IHm]).
      unfold report_round. rewrite Hsum. cbn [length seq map].
      rewrite Z.quot_0_l by lia. reflexivity. }
    assert (Hgo : forall n r printed,
              supervise n observe r printed
              = (StillRunning,
                 printed
                 ++ concat (replicate n
                              [TotalDatapointCount 0; AverageFetchedPerSymbol 0;
                               AverageDatetime (Datetime.make 2021 1 1 0 0);
                               Blank]))).
    { induction n as [|n IHn]; intros r printed.
      - simpl. rewrite app_nil_r. reflexivity.
      - cbn [supervise]. rewrite Hround, IHn. cbn [replicate concat].
        rewrite <- app_assoc. reflexivity. }
    apply (Hgo rounds 0%nat []).
Qed.

Lemma supervise_zero_division (fuel : nat) (observe : nat -> list Z)
    (round : nat) (printed : list line) :
  (forall r, observe r <> []) ->
  fst (supervise fuel observe round printed) <> Raised ZeroDivisionError.
Proof.
  intros Hne. revert round printed.
  induction fuel as [|fuel IH]; intros round printed.
  - discriminate.
  - cbn [supervise]. specialize (Hne round). unfold report_round.
    destruct (observe round) as [|v l]; [congruence|].
    destruct (Datetime.in_range _); [apply IH | discriminate].
Qed.

(** X17: [download_market_data] without coins.  The entry point raises
    [ZeroDivisionError] exactly when the list of supported coins is empty:
    then there is no worker and the first round of the supervising loop
    divides by the number of processes before it has printed anything.  With
    at least one coin no round ever divides by zero, whatever the counters
    hold. *)
Theorem prefetch_divides_by_zero_iff_no_coins (rounds : nat) (config : Config)
    (values : nat -> nat -> Z) :
  (fst (download_market_data (S rounds) config values) = Raised ZeroDivisionError
   <-> SUPPORTED_COIN_LIST config = [])
  /\ (SUPPORTED_COIN_LIST config = [] ->
      download_market_data (S rounds) config values
      = (Raised ZeroDivisionError, [])).
Proof.
  split; [split|].
  - intros H. destruct (SUPPORTED_COIN_LIST config) as [|c l] eqn:Hl;
      [reflexivity|].
    exfalso. revert H. unfold download_market_data. rewrite Hl.
    apply supervise_zero_division. intros r. discriminate.
  - intros H. unfold download_market_data. rewrite H. reflexivity.
  - intros H. unfold download_market_data. rewrite H. reflexivity.
Qed.

(** X18: what a progress report says.  For counters between [lo] and
    [hi], non-negative and below [2^31], a round prints the sum of the
    counters, their mean truncated to an integer, which lies between [lo] and
    [hi], and as "average datetime" 2021-01-01T00:00 plus that many minutes,
    whatever the start time and the interval of the workers; then a blank
    line, and the loop goes on. *)
Theorem report_shows_truncated_mean (values : list Z) (lo hi : Z) :
  values <> [] ->
  Forall (fun v => lo <= v <= hi) values ->
  0 <= lo -> hi < 2 ^ 31 ->
  exists mean,
    report_round values
    = ([TotalDatapointCount (sum_values values);
        AverageFetchedPerSymbol mean;
        AverageDatetime (Datetime.make 2021 1 1 0 0
                         + Datetime.timedelta_minutes mean);
        Blank], None)
    /\ lo <= mean <= hi
    /\ mean * Z.of_nat (length values) <= sum_values values
       < (mean + 1) * Z.of_nat (length values).
Proof.
  intros Hne Hall Hlo Hhi.
  assert (Hsum : Z.of_nat (length values) * lo <= sum_values values
                 <= Z.of_nat (length values) * hi).
  { clear Hne. induction Hall as [|v values Hv _ IH].
    - simpl. unfold sum_values. simpl. lia.
    - unfold sum_values in *. cbn [length foldr]. lia. }
  unfold report_round. destruct values as [|v values]; [congruence|].
  set (n := Z.of_nat (length (v :: values))) in *.
  assert (Hn : 0 < n) by (unfold n; simpl; lia).
  set (total := sum_values (v :: values)) in *.
  assert (Ht : 0 <= total) by nia.
  rewrite Z.quot_div_nonneg by lia.
  pose proof (Z.div_mod total n ltac:(lia)) as Hdm.
  pose proof (Z.mod_pos_bound total n Hn) as Hm.
  set (mean := total / n) in *.
  assert (Hmean : lo <= mean <= hi) by nia.
  assert (Hr : Datetime.in_range
                 (Datetime.make 2021 1 1 0 0 + Datetime.timedelta_minutes mean)
               = true).
  { apply in_range_iff.
    assert (Hs : Datetime.make 2021 1 1 0 0 = 63745056000000000) by reflexivity.
    assert (Hx : Datetime.max = 315537897599999999) by reflexivity.
    rewrite Hs, Hx. unfold Datetime.min, Datetime.timedelta_minutes,
      Datetime.us_per_minute, Datetime.us_per_second. lia. }
  rewrite Hr. exists mean. split; [reflexivity|]. split; [exact Hmean | nia].
Qed.

(** X19: an opening buy that fails is the end of the backtest.  With the
    starting asset not held: when the endpoint has no kline for the start
    time, the backtest raises out of the opening buy (a [TypeError] when the
    sizing helper returns a quantity); when the ledger has no entry for the
    bridge asset, the opening buy finds its price and then raises
    [KeyError].  In both cases no tick is run and no ledger is returned. *)
Theorem opening_buy_failures (fuel : nat) (config : Config)
    (start_date end_date : option Z) (interval : Z)
    (start_balances : option (gmap string Q)) (starting_coin : string)
    (w s0 : State) :
  starting_coin <> "" ->
  MockBinanceManager config start_date start_balances w = Ok tt s0 ->
  (balance_of starting_coin s0 == 0)%Q ->
  (cache s0 !! key_of (starting_coin ++ BRIDGE config) s0 = None ->
   source (calls s0) (starting_coin ++ BRIDGE config)
     (Datetime.strftime (datetime s0)) = Klines [] ->
   exists e,
     backtest fuel start_date end_date interval start_balances
       (Some starting_coin) config w
     = Raise e (tick_calls s0)
     /\ (forall q,
           _buy_quantity starting_coin (BRIDGE config)
             (balance_of (BRIDGE config) s0) None = inr q ->
           e = TypeError))
  /\ (forall p q s1,
        balances s0 !! BRIDGE config = None ->
        get_market_ticker_price (starting_coin ++ BRIDGE config) s0
        = Ok (Some p) s1 ->
        _buy_quantity starting_coin (BRIDGE config) 0%Q (Some p) = inr q ->
        backtest fuel start_date end_date interval start_balances
          (Some starting_coin) config w
        = Raise KeyError s1).
Proof.
  intros Hname Hinit Hzero.
  assert (Hz : Qeq_bool (balance_of starting_coin s0) 0 = true)
    by (apply Qeq_bool_iff; exact Hzero).
  assert (Hopen : forall e s',
            buy_alt starting_coin (BRIDGE config) FakeAllTickers s0 = Raise e s' ->
            backtest fuel start_date end_date interval start_balances
              (Some starting_coin) config w = Raise e s').
  { intros e s' Hbuy. unfold backtest, open_position, bind. rewrite Hinit.
    unfold starting_symbol. destruct (decide (starting_coin = "")) as [|_];
      [contradiction|].
    unfold ret at 1. unfold get_currency_balance, gets.
    fold (balance_of starting_coin s0). rewrite Hz.
    unfold get_all_market_tickers, ret. rewrite Hbuy. reflexivity. }
  split.
  - intros Hmiss Hsrc. pose proof (lookup_no_data _ _ Hmiss Hsrc) as Hl.
    destruct (_buy_quantity starting_coin (BRIDGE config)
                (balance_of (BRIDGE config) s0) None) as [e|q] eqn:Hq.
    + exists e. split; [|discriminate].
      apply Hopen. rewrite buy_alt_unfold, Hl, Hq. reflexivity.
    + exists TypeError. split; [|reflexivity].
      apply Hopen. rewrite buy_alt_unfold, Hl, Hq. reflexivity.
  - intros p q s1 Hnone Hl Hq. apply Hopen.
    pose proof (lookup_keeps_balances _ _ _ _ Hl) as Hb.
    rewrite buy_alt_unfold, Hl. unfold balance_of. rewrite Hnone. cbn [from_option].
    rewrite Hq, Hb, Hnone. reflexivity.
Qed.

(** X20: prices are cached per symbol and second.  The key is built from
    the clock formatted down to the second, so once a lookup has returned a
    price, a manager whose clock lies in the same second, microseconds
    apart, finds that price in the cache and sends no request. *)
Theorem same_second_same_price (ticker_symbol : string) (s s1 later : State)
    (p : Q) :
  get_market_ticker_price ticker_symbol s = Ok (Some p) s1 ->
  cache later = cache s1 ->
  datetime later / 1000000 = datetime s / 1000000 ->
  get_market_ticker_price ticker_symbol later = Ok (Some p) later.
Proof.
  intros Hl Hc Hd. destruct (lookup_caches _ _ _ _ Hl) as [Hk _].
  apply lookup_hit. unfold key_of, Datetime.strftime, Datetime.us_per_second in *.
  rewrite Hc, Hd. exact Hk.
Qed.

(** ** Further edge behaviour *)

(** X21: the lookup never invents a price.  A price it returns is either
    the one that was cached for the key, or the open price of the first
    kline of an answer the endpoint gave to one of the requests of this very
    lookup; and it reports a price as absent only on a miss, after the
    endpoint has answered one of its requests with no kline. *)
Theorem lookup_price_provenance (ticker_symbol : string) (s : State) :
  match get_market_ticker_price ticker_symbol s with
  | Ok (Some p) s' =>
      cache s !! key_of ticker_symbol s = Some p
      \/ (cache s !! key_of ticker_symbol s = None
          /\ exists n l,
               (calls s <= n < calls s')%nat
               /\ source n ticker_symbol (Datetime.strftime (datetime s))
                  = Klines (p :: l))
  | Ok None s' =>
      cache s !! key_of ticker_symbol s = None
      /\ exists n,
           (calls s <= n < calls s')%nat
           /\ (source n ticker_symbol (Datetime.strftime (datetime s)) = Klines []
               \/ source n ticker_symbol (Datetime.strftime (datetime s))
                  = Fails IndexError)
  | Raise _ _ => True
  | Running => False
  end.
Proof.
  unfold get_market_ticker_price. generalize recursion_limit. intros frames.
  revert frames s.
  apply (get_market_ticker_price_ind ticker_symbol
           (fun s r =>
              match r with
              | Ok (Some p) s' =>
                  cache s !! key_of ticker_symbol s = Some p
                  \/ (cache s !! key_of ticker_symbol s = None
                      /\ exists n l,
                           (calls s <= n < calls s')%nat
                           /\ source n ticker_symbol
                                (Datetime.strftime (datetime s))
                              = Klines (p :: l))
              | Ok None s' =>
                  cache s !! key_of ticker_symbol s = None
                  /\ exists n,
                       (calls s <= n < calls s')%nat
                       /\ (source n ticker_symbol
                             (Datetime.strftime (datetime s)) = Klines []
                           \/ source n ticker_symbol
                                (Datetime.strftime (datetime s))
                              = Fails IndexError)
              | Raise _ _ => True
              | Running => False
              end)).
  - intros s v Hhit. left. exact Hhit.
  - intros s p l Hmiss Hsrc. right. split; [exact Hmiss|].
    exists (calls s), l. split; [simpl; lia | exact Hsrc].
  - intros s Hmiss Hsrc. split; [exact Hmiss|].
    exists (calls s). split; [simpl; lia | exact Hsrc].
  - intros; exact I.
  - intros; exact I.
  - intros s r Hmiss _ Hr. destruct r as [[p|] s'|e s'|]; [| |exact I|exact Hr].
    + right. split; [exact Hmiss|].
      destruct Hr as [Hr|(_ & n & l & Hn & Hs)];
        [unfold key_of in *; cbn [cache datetime tick_calls] in Hr; congruence|].
      exists n, l. split; [simpl in Hn; lia | exact Hs].
    + split; [exact Hmiss|]. destruct Hr as (_ & n & Hn & Hs).
      exists n. split; [simpl in Hn; lia | exact Hs].
Qed.

(** X22: when an iteration of a worker raises.  It raises [e] exactly
    when the lookup raises [e] and [e] is not the API exception, or when the
    lookup returns and the advance leaves the datetime range, in which case
    [e] is [OverflowError].  So a worker survives API failures only: a lookup
    that runs out of retries, or any other failure of the endpoint, ends
    it. *)
Theorem worker_iteration_raises_iff (symbol : string) (interval counter : Z)
    (s s' : State) (e : exn) :
  _thread_step symbol interval counter s = Raise e s'
  <-> (get_market_ticker_price symbol s = Raise e s'
       /\ e <> BinanceAPIException)
      \/ (exists v,
             get_market_ticker_price symbol s = Ok v s'
             /\ e = OverflowError
             /\ Datetime.in_range
                  (datetime s' + Datetime.timedelta_minutes interval) = false).
Proof.
  unfold _thread_step, try_except, bind.
  destruct (get_market_ticker_price symbol s) as [v s1|e1 s1|].
  - unfold increment.
    destruct (Datetime.in_range
                (datetime s1 + Datetime.timedelta_minutes interval)) eqn:Hr.
    + split; [discriminate|].
      intros [[H _]|(v' & [= <- <-] & _ & Hf)]; [discriminate | congruence].
    + destruct (decide (OverflowError = BinanceAPIException)); [discriminate|].
      split.
      * intros [= <- <-]. right. exists v. auto.
      * intros [[H _]|(v' & [= <- <-] & -> & _)]; [discriminate | reflexivity].
  - destruct (decide (e1 = BinanceAPIException)) as [->|Hne].
    + split; [discriminate|].
      intros [[[= <- <-] H]|(v' & H & _)]; [congruence | discriminate].
    + split.
      * intros [= <- <-]. left. auto.
      * intros [[[= <- <-] _]|(v' & H & _)]; [reflexivity | discriminate].
  - split; [discriminate|]. intros [[H _]|(v' & H & _)]; discriminate.
Qed.

Lemma backward_run (end_date interval : Z) :
  interval < 0 ->
  (forall t0 s0, exists t1 s1,
        scout t0 s0 = Ok t1 s1 /\ datetime s1 = datetime s0) ->
  forall (k : nat) (t : trader) (s : State),
    datetime s <= Datetime.max ->
    datetime s < end_date ->
    Z.of_nat k * - Datetime.timedelta_minutes interval <= datetime s
      < (Z.of_nat k + 1) * - Datetime.timedelta_minutes interval ->
    exists s',
      datetime s'
      = datetime s + Z.of_nat k * Datetime.timedelta_minutes interval
      /\ forall fuel, (k < fuel)%nat ->
           tick_loop fuel end_date interval t s = Raise OverflowError s'.
Proof.
  intros Hneg Hscout.
  assert (Hst : Datetime.timedelta_minutes interval < 0)
    by (unfold Datetime.timedelta_minutes, Datetime.us_per_minute,
          Datetime.us_per_second; lia).
  induction k as [|k IH]; intros t s Hmax Hlt Hk;
    destruct (Hscout t (print_datetime s)) as (t1 & s1 & Hs & Hd);
    cbn [print_datetime datetime] in Hd.
  - exists s1. split; [lia|]. intros [|fuel] Hfuel; [lia|].
    rewrite tick_loop_step by exact Hlt.
    unfold bind, tick, modify. unfold bind. rewrite Hs.
    unfold increment. cbv zeta.
    assert (Hr : Datetime.in_range
                   (datetime s1 + Datetime.timedelta_minutes interval) = false).
    { unfold Datetime.in_range, Datetime.min.
      apply andb_false_iff. left. apply Z.leb_gt. lia. }
    rewrite Hr. reflexivity.
  - assert (Hr : Datetime.in_range
                   (datetime s1 + Datetime.timedelta_minutes interval) = true)
      by (apply in_range_iff; unfold Datetime.min; lia).
    destruct (IH t1 (set_datetime
                       (datetime s1 + Datetime.timedelta_minutes interval) s1))
      as (s' & Hd' & Hrun).
    + simpl. lia.
    + simpl. lia.
    + simpl. lia.
    + exists s'. split; [simpl in Hd'; lia|].
      intros [|fuel] Hfuel; [lia|].
      rewrite tick_loop_step by exact Hlt.
      unfold bind, tick, modify. unfold bind. rewrite Hs.
      rewrite increment_ok by exact Hr. unfold ret. apply Hrun. lia.
Qed.

(** X23: a negative interval ends in [OverflowError].  With the clock
    before the end time and a strategy that returns and leaves the clock
    alone, the tick loop with a negative interval walks the clock backwards,
    one tick per interval that still fits above [datetime.min], and then
    raises [OverflowError] out of [increment]; it never returns. *)
Theorem negative_interval_overflows (end_date interval : Z) (t : trader)
    (s : State) :
  interval < 0 ->
  (forall t0 s0, exists t1 s1,
        scout t0 s0 = Ok t1 s1 /\ datetime s1 = datetime s0) ->
  Datetime.in_range (datetime s) = true ->
  datetime s < end_date ->
  let k := Z.to_nat (datetime s / - Datetime.timedelta_minutes interval) in
  exists s',
    (forall fuel, (k < fuel)%nat ->
       tick_loop fuel end_date interval t s = Raise OverflowError s')
    /\ datetime s'
       = datetime s + Z.of_nat k * Datetime.timedelta_minutes interval
    /\ 0 <= datetime s' < - Datetime.timedelta_minutes interval.
Proof.
  intros Hneg Hscout Hr Hlt k. apply in_range_iff in Hr.
  unfold Datetime.min in Hr.
  assert (Hst : 0 < - Datetime.timedelta_minutes interval)
    by (unfold Datetime.timedelta_minutes, Datetime.us_per_minute,
          Datetime.us_per_second; lia).
  set (m := - Datetime.timedelta_minutes interval) in *.
  pose proof (Z.div_mod (datetime s) m ltac:(lia)) as Hdm.
  pose proof (Z.mod_pos_bound (datetime s) m Hst) as Hm.
  assert (Hq : 0 <= datetime s / m) by (apply Z.div_pos; lia).
  assert (Hk : Z.of_nat k = datetime s / m) by (unfold k; lia).
  destruct (backward_run end_date interval Hneg Hscout k t s)
    as (s' & Hd & Hrun).
  - lia.
  - exact Hlt.
  - fold m. rewrite Hk. nia.
  - exists s'. split; [exact Hrun|]. split; [exact Hd|].
    rewrite Hd. replace (Datetime.timedelta_minutes interval) with (- m) by lia.
    rewrite Hk. nia.
Qed.

End Backtest.

(** ** The order arithmetic in binary64: signs and rounding

    The primitive operations are specified by the functions of [SpecFloat]
    on the representation [Prim2SF x] of a number.  The lemmas below read
    the sign of a sum, a difference and a product off that specification:
    rounding never turns the sign of a result. *)

Section Rounding.

Variables prec emax : Z.

Lemma shr_1_nonneg (mrs : shr_record) : 0 <= shr_m mrs -> 0 <= shr_m (shr_1 mrs).
Proof.
  destruct mrs as [m r s]. cbn [shr_m shr_1].
  destruct m as [|[p|p|]|p]; cbn [shr_m]; lia.
Qed.

Lemma iter_shr_1_nonneg (p : positive) (mrs : shr_record) :
  0 <= shr_m mrs -> 0 <= shr_m (SpecFloat.iter_pos shr_1 p mrs).
Proof.
  revert mrs. induction p as [p IH|p IH|]; intros mrs H;
    cbn [SpecFloat.iter_pos].
  - apply IH, IH, shr_1_nonneg, H.
  - apply IH, IH, H.
  - apply shr_1_nonneg, H.
Qed.

Lemma shr_fexp_nonneg (m e : Z) (l : location) :
  0 <= m -> 0 <= shr_m (fst (shr_fexp prec emax m e l)).
Proof.
  intros H. unfold shr_fexp, shr.
  assert (H0 : 0 <= shr_m (shr_record_of_loc m l))
    by (destruct l as [|[]]; exact H).
  destruct (fexp prec emax (Zdigits2 m + e) - e); cbn [fst];
    [exact H0 | apply iter_shr_1_nonneg, H0 | exact H0].
Qed.

Lemma round_nearest_even_nonneg (m : Z) (l : location) :
  0 <= m -> 0 <= round_nearest_even m l.
Proof.
  intros H. destruct l as [|[]]; cbn [round_nearest_even];
    [lia | | lia | lia].
  destruct (Z.even m); lia.
Qed.

(** Rounding a mantissa that is not negative gives a result of the sign
    asked for: a zero, a finite number or an infinity. *)
Lemma binary_round_aux_signed (s : bool) (m e : Z) (l : location) :
  0 <= m -> signed s (binary_round_aux prec emax s m e l).
Proof.
  intros H. unfold binary_round_aux.
  pose proof (shr_fexp_nonneg m e l H) as H1.
  destruct (shr_fexp prec emax m e l) as [mrs' e']. cbn [fst] in H1.
  pose proof (shr_fexp_nonneg _ e' loc_Exact
                (round_nearest_even_nonneg _ (loc_of_shr_record mrs') H1)) as H2.
  destruct (shr_fexp prec emax _ e' loc_Exact) as [mrs'' e'']. cbn [fst] in H2.
  destruct (shr_m mrs'') as [|p|p]; [reflexivity | | lia].
  destruct (e'' <=? emax - prec); reflexivity.
Qed.

Lemma binary_round_signed (s : bool) (m : positive) (e : Z) :
  signed s (binary_round prec emax s m e).
Proof.
  unfold binary_round. destruct (shl_align m e _) as [mz ez].
  apply binary_round_aux_signed. lia.
Qed.

Lemma binary_normalize_nonneg (m e : Z) :
  0 <= m -> signed false (binary_normalize prec emax m e false).
Proof.
  intros H. destruct m as [|p|p]; [reflexivity | apply binary_round_signed | lia].
Qed.

End Rounding.

Lemma SFleb_zero (x : spec_float) :
  SFleb (S754_zero false) x = true <-> SFnonneg x.
Proof.
  destruct x as [s|[]| |[] m e]; cbn; intuition congruence.
Qed.

Lemma signed_nonneg (x : spec_float) : signed false x -> SFnonneg x.
Proof. destruct x; cbn; auto. Qed.

Lemma SFltb_positive (x : spec_float) :
  SFltb (S754_zero false) x = true ->
  SFltb x (S754_infinity false) = true ->
  SFpositive x.
Proof.
  destruct x as [s|[]| |[] m e]; cbn; intros; solve [discriminate | exact I].
Qed.

Lemma SFmul_nonneg (x y : spec_float) :
  SFnonneg x -> SFpositive y -> SFnonneg (SFmul prec emax x y).
Proof.
  destruct y as [| | |[] my ey]; try contradiction. intros Hx _.
  destruct x as [sx|sx| |sx mx ex]; cbn in Hx |- *; try contradiction;
    subst; try exact I; try reflexivity.
  apply signed_nonneg, binary_round_aux_signed. lia.
Qed.

Lemma SFadd_nonneg (x y : spec_float) :
  SFnonneg x -> SFnonneg y -> SFnonneg (SFadd prec emax x y).
Proof.
  destruct x as [sx|sx| |sx mx ex], y as [sy|sy| |sy my ey];
    cbn [SFnonneg]; intros Hx Hy; try contradiction; subst;
    cbn [SFadd SFnonneg]; try exact I; try reflexivity.
  - destruct sx, sy; exact I.
  - apply signed_nonneg, binary_normalize_nonneg. cbn [cond_Zopp]. lia.
Qed.

(** The number of binary digits of a mantissa. *)
Lemma digits2_pos_bounds (m : positive) :
  2 ^ (Zpos (digits2_pos m) - 1) <= Zpos m < 2 ^ Zpos (digits2_pos m).
Proof.
  induction m as [m IH|m IH|]; cbn [digits2_pos].
  - rewrite Pos2Z.inj_succ.
    replace (Z.succ (Zpos (digits2_pos m)) - 1)
      with (Z.succ (Zpos (digits2_pos m) - 1)) by lia.
    rewrite !Z.pow_succ_r by lia. lia.
  - rewrite Pos2Z.inj_succ.
    replace (Z.succ (Zpos (digits2_pos m)) - 1)
      with (Z.succ (Zpos (digits2_pos m) - 1)) by lia.
    rewrite !Z.pow_succ_r by lia. lia.
  - cbn. lia.
Qed.

Lemma iter_xO (m d : positive) : Zpos (Pos.iter xO m d) = Zpos m * 2 ^ Zpos d.
Proof.
  induction d as [|d IH] using Pos.peano_ind.
  - cbn. lia.
  - rewrite Pos.iter_succ, Pos2Z.inj_succ, Z.pow_succ_r by lia.
    rewrite Pos2Z.inj_xO, IH. lia.
Qed.

(** Aligning a mantissa to a smaller exponent keeps the value. *)
Lemma shl_align_value (m : positive) (e e' : Z) :
  e' <= e -> Zpos (fst (shl_align m e e')) = Zpos m * 2 ^ (e - e').
Proof.
  intros H. unfold shl_align.
  destruct (e' - e) as [|d|d] eqn:Hd; cbn [fst]; try lia.
  - replace (e - e') with 0 by lia. lia.
  - rewrite iter_xO. f_equal. f_equal. lia.
Qed.

(** Of two canonical binary64 numbers, the one with the smaller exponent
    has the smaller aligned mantissa. *)
Lemma canonical_lt (mx my : positive) (ex ey : Z) :
  canonical_mantissa prec emax mx ex = true ->
  canonical_mantissa prec emax my ey = true ->
  ey < ex ->
  Zpos my <= Zpos mx * 2 ^ (ex - ey).
Proof.
  unfold canonical_mantissa, fexp, SpecFloat.emin, prec, emax.
  intros Hx%Z.eqb_eq Hy%Z.eqb_eq Hlt.
  pose proof (digits2_pos_bounds mx) as [Hx1 _].
  pose proof (digits2_pos_bounds my) as [_ Hy2].
  assert (Hdx : Zpos (digits2_pos mx) = 53) by lia.
  assert (Hdy : Zpos (digits2_pos my) <= 53) by lia.
  rewrite Hdx in Hx1.
  assert (H53 : 2 ^ Zpos (digits2_pos my) <= 2 ^ 53)
    by (apply Z.pow_le_mono_r; lia).
  assert (H2 : 2 ^ 1 <= 2 ^ (ex - ey)) by (apply Z.pow_le_mono_r; lia).
  change (2 ^ (53 - 1)) with 4503599627370496 in Hx1.
  change (2 ^ 53) with 9007199254740992 in H53.
  change (2 ^ 1) with 2 in H2.
  nia.
Qed.

Lemma SFsub_finite_nonneg (mx my : positive) (ex ey : Z) :
  canonical_mantissa prec emax mx ex = true ->
  canonical_mantissa prec emax my ey = true ->
  SFleb (S754_finite false my ey) (S754_finite false mx ex) = true ->
  SFnonneg (SFsub prec emax (S754_finite false mx ex) (S754_finite false my ey)).
Proof.
  intros Hx Hy Hle. cbn [SFsub cond_Zopp].
  apply signed_nonneg, binary_normalize_nonneg.
  unfold SFleb, SFcompare in Hle.
  destruct (Z.compare_spec ey ex) as [Heq|Hlt|Hgt]; [| |discriminate].
  - subst ey. rewrite Z.min_id, !shl_align_value by lia.
    rewrite Z.sub_diag, Z.pow_0_r.
    destruct (Pos.compare_cont Eq my mx) eqn:Hc; try discriminate.
    + apply Pos.compare_eq in Hc. lia.
    + assert (Hm : (my < mx)%positive) by exact Hc. lia.
  - rewrite Z.min_r by lia. rewrite !shl_align_value by lia.
    rewrite Z.sub_diag, Z.pow_0_r.
    pose proof (canonical_lt mx my ex ey Hx Hy Hlt). lia.
Qed.

Lemma SFsub_nonneg (x y : spec_float) :
  valid_binary x = true -> valid_binary y = true ->
  SFnonneg y -> SFleb y x = true -> SFltb y (S754_infinity false) = true ->
  SFnonneg (SFsub prec emax x y).
Proof.
  intros Vx Vy Hy Hle Hfin.
  destruct y as [sy|sy| |sy my ey]; cbn [SFnonneg] in Hy; try contradiction;
    subst.
  - destruct x as [sx|[]| |[] mx ex]; try discriminate.
    + destruct sx, sy; exact I.
    + reflexivity.
    + reflexivity.
  - discriminate.
  - destruct x as [sx|[]| |[] mx ex]; try discriminate.
    + reflexivity.
    + cbn [SpecFloat.valid_binary] in Vx, Vy.
      apply andb_prop in Vx as [Vx _]. apply andb_prop in Vy as [Vy _].
      apply SFsub_finite_nonneg; assumption.
Qed.

Lemma SFcompare_refl (x : spec_float) :
  x <> S754_nan -> SFcompare x x = Some Eq.
Proof.
  destruct x as [s|[]| |[] m e]; cbn; try congruence;
    intros _; rewrite Z.compare_refl;
    change (Pos.compare_cont Eq m m) with (Pos.compare m m);
    rewrite Pos.compare_refl; reflexivity.
Qed.

(** The same facts on the primitive numbers. *)

Lemma nonneg_spec (x : float) : (0 <=? x)%float = true <-> SFnonneg (Prim2SF x).
Proof. rewrite leb_spec. exact (SFleb_zero (Prim2SF x)). Qed.

Lemma positive_spec (x : float) :
  (0 <? x)%float = true -> (x <? infinity)%float = true -> SFpositive (Prim2SF x).
Proof. rewrite !ltb_spec. exact (SFltb_positive (Prim2SF x)). Qed.

Lemma mul_nonneg (x y : float) :
  (0 <=? x)%float = true -> (0 <? y)%float = true ->
  (y <? infinity)%float = true ->
  (0 <=? x * y)%float = true.
Proof.
  intros Hx Hy Hfin. apply nonneg_spec. rewrite mul_spec.
  apply SFmul_nonneg; [apply nonneg_spec, Hx | apply positive_spec; assumption].
Qed.

Lemma add_nonneg (x y : float) :
  (0 <=? x)%float = true -> (0 <=? y)%float = true ->
  (0 <=? x + y)%float = true.
Proof.
  intros Hx Hy. apply nonneg_spec. rewrite add_spec.
  apply SFadd_nonneg; apply nonneg_spec; assumption.
Qed.

Lemma sub_nonneg (x y : float) :
  (0 <=? y)%float = true -> (y <=? x)%float = true ->
  (y <? infinity)%float = true ->
  (0 <=? x - y)%float = true.
Proof.
  intros Hy Hle Hfin. apply nonneg_spec. rewrite sub_spec.
  rewrite leb_spec in Hle. rewrite ltb_spec in Hfin.
  apply SFsub_nonneg;
    [apply Prim2SF_valid | apply Prim2SF_valid | apply nonneg_spec, Hy
    | exact Hle | exact Hfin].
Qed.


Lemma nonneg_leb_refl (x : float) :
  (0 <=? x)%float = true -> (x <=? x)%float = true.
Proof.
  intros H%nonneg_spec. rewrite leb_spec. unfold SFleb.
  rewrite SFcompare_refl; [reflexivity|].
  intros Hn. rewrite Hn in H. exact H.
Qed.


(** [x - x] is zero for a finite [x] that is not negative. *)
Lemma sub_diag (x : float) :
  (0 <=? x)%float = true -> (x <? infinity)%float = true ->
  (x - x =? 0)%float = true.
Proof.
  intros H0%nonneg_spec H. rewrite ltb_spec in H.
  rewrite FloatAxioms.eqb_spec, sub_spec.
  change (Prim2SF 0) with (S754_zero false).
  change (Prim2SF infinity) with (S754_infinity false) in H.
  unfold SFeqb. destruct (Prim2SF x) as [s|s| |s m e];
    cbn [SFnonneg] in H0; try contradiction; subst.
  - destruct s; reflexivity.
  - discriminate.
  - cbn [SF64sub SFsub cond_Zopp]. rewrite Z.sub_diag. reflexivity.
Qed.

(** ** The ledger in binary64 *)

Lemma ledger_nonneg_insert (balances : gmap string float) (k : string)
    (v : float) :
  Binary64.nonneg balances -> (0 <=? v)%float = true ->
  Binary64.nonneg (<[k := v]> balances).
Proof.
  intros Hb Hv symbol x. destruct (decide (symbol = k)) as [->|Hne].
  - rewrite lookup_insert_eq. intros [= <-]. exact Hv.
  - rewrite lookup_insert_ne by congruence. apply Hb.
Qed.

Lemma balance_nonneg (balances : gmap string float) (symbol : string) :
  Binary64.nonneg balances ->
  (0 <=? Binary64.get_currency_balance balances symbol)%float = true.
Proof.
  intros Hb. unfold Binary64.get_currency_balance.
  destruct (balances !! symbol) as [v|] eqn:Hv; [exact (Hb _ _ Hv) | reflexivity].
Qed.

Lemma net_of_fee_nonneg (q : float) (origin target : string) (selling : bool) :
  (0 <=? q)%float = true ->
  (0 <=? q * (1 - Binary64.get_fee origin target selling))%float = true.
Proof. intros Hq. apply mul_nonneg; [exact Hq | reflexivity | reflexivity]. Qed.

(** A covered order leaves no negative balance, whether it returns or
    raises. *)
Lemma place_nonneg bq sq (o : Binary64.order) (balances : gmap string float) :
  Binary64.nonneg balances ->
  Binary64.covered bq sq o balances = true ->
  Binary64.nonneg (Binary64.ledger_of (Binary64.place bq sq o balances)).
Proof.
  intros Hb Hc.
  destruct o as [origin target [p|]|origin target [p|]];
    cbn [Binary64.place Binary64.covered] in *.
  - unfold Binary64.buy_alt.
    destruct (bq origin target _ (Some p)) as [e|q]; [exact Hb|].
    apply andb_prop in Hc as [Hc Hfin]. apply andb_prop in Hc as [Hc Hle].
    apply andb_prop in Hc as [Hc Hq]. apply andb_prop in Hc as [Hc Hpfin].
    apply andb_prop in Hc as [_ Hp].
    unfold Binary64.get_currency_balance in Hle.
    destruct (balances !! target) as [old|] eqn:Hold; [|exact Hb].
    cbn [default from_option id] in Hle. cbn [Binary64.ledger_of].
    assert (Hcost : (0 <=? q * p)%float = true) by (apply mul_nonneg; assumption).
    assert (H1 : Binary64.nonneg (<[target := (old - q * p)%float]> balances))
      by (apply ledger_nonneg_insert; [exact Hb | apply sub_nonneg; assumption]).
    apply ledger_nonneg_insert; [exact H1|].
    apply add_nonneg; [apply balance_nonneg, H1 | apply net_of_fee_nonneg; assumption].
  - unfold Binary64.buy_alt.
    destruct (bq origin target _ None); exact Hb.
  - unfold Binary64.sell_alt.
    destruct (sq origin target _) as [e|q]; [exact Hb|].
    apply andb_prop in Hc as [Hc Hfin]. apply andb_prop in Hc as [Hc Hle].
    apply andb_prop in Hc as [Hc Hq]. apply andb_prop in Hc as [Hc Hpfin].
    apply andb_prop in Hc as [Hne Hp]. apply bool_decide_eq_true in Hne.
    assert (Hcost : (0 <=? q * p)%float = true) by (apply mul_nonneg; assumption).
    assert (H1 : Binary64.nonneg
                   (<[target := (Binary64.get_currency_balance balances target
                                 + q * p * (1 - Binary64.get_fee origin target true))%float]>
                      balances)).
    { apply ledger_nonneg_insert; [exact Hb|].
      apply add_nonneg; [apply balance_nonneg, Hb | apply net_of_fee_nonneg, Hcost]. }
    rewrite lookup_insert_ne by congruence.
    unfold Binary64.get_currency_balance in Hle.
    destruct (balances !! origin) as [old|] eqn:Hold; [|exact H1].
    cbn [default from_option id] in Hle. cbn [Binary64.ledger_of].
    apply ledger_nonneg_insert; [exact H1 | apply sub_nonneg; assumption].
  - unfold Binary64.sell_alt.
    destruct (sq origin target _); exact Hb.
Qed.

(** C1 (amended): take any sequence of buys and sells, each at the price
    its lookup returned, on a ledger without negative balances, and let
    every order be covered by the ledger it meets: two different symbols, a
    quantity [q] that is not negative, a positive finite price [p], and a
    finite cost within the balance it is taken from, as the method computes
    it in binary64 ([q * p] at most the target balance for a buy, [q] at
    most the origin balance for a sell).  Then after every operation of the
    sequence, the one that raises included, no balance of the ledger is
    negative. *)
Theorem balances_never_negative bq sq (orders : list Binary64.order)
    (balances : gmap string float) :
  Binary64.nonneg balances ->
  Binary64.sized_from_balance bq sq orders balances = true ->
  Forall Binary64.nonneg (Binary64.trade bq sq orders balances).
Proof.
  revert balances. induction orders as [|o rest IH]; intros balances Hb Hs.
  - constructor.
  - cbn [Binary64.sized_from_balance Binary64.trade] in *.
    apply andb_prop in Hs as [Hc Hs].
    pose proof (place_nonneg bq sq o balances Hb Hc) as Hp.
    destruct (Binary64.place bq sq o balances) as [b|e b]; cbn in Hp.
    + constructor; [exact Hp | apply IH; assumption].
    + constructor; [exact Hp | constructor].
Qed.


(** X24: selling the whole origin balance is always covered, and leaves
    the origin at zero.  With the origin held at a finite balance [b] that
    is not negative and a positive finite price, the sell that the
    specification sizes (the entire origin balance) is covered by the
    ledger, goes through, and sets the origin to [b - b], which is zero in
    binary64 too. *)
Theorem whole_balance_sell_empties_origin bq (origin target : string)
    (p b : float) (balances : gmap string float) :
  origin <> target ->
  balances !! origin = Some b ->
  (0 <=? b)%float = true -> (b <? infinity)%float = true ->
  (0 <? p)%float = true -> (p <? infinity)%float = true ->
  Binary64.covered bq Binary64.spec_sell_quantity
    (Binary64.Sell origin target (Some p)) balances = true
  /\ exists balances',
       Binary64.sell_alt Binary64.spec_sell_quantity origin target (Some p)
         balances = Binary64.Settled balances'
       /\ balances' !! origin = Some (b - b)%float
       /\ (Binary64.get_currency_balance balances' origin =? 0)%float = true.
Proof.
  intros Hne Hb H0 Hfin Hp Hpfin. split.
  - cbn [Binary64.covered]. unfold Binary64.spec_sell_quantity.
    unfold Binary64.get_currency_balance. rewrite Hb.
    cbn [default from_option id].
    rewrite bool_decide_eq_true_2 by exact Hne.
    rewrite Hp, Hpfin, H0, Hfin, (nonneg_leb_refl b H0). reflexivity.
  - unfold Binary64.sell_alt, Binary64.spec_sell_quantity.
    rewrite lookup_insert_ne by congruence. rewrite Hb.
    unfold Binary64.get_currency_balance at 1. rewrite Hb.
    cbn [default from_option id].
    eexists. split; [reflexivity|].
    unfold Binary64.get_currency_balance. rewrite lookup_insert_eq.
    split; [reflexivity|]. cbn [default from_option id].
    apply sub_diag; assumption.
Qed.

(** ** The binary64 ledger and the methods *)




(** ** Runs on concrete inputs *)

(** Evaluate the left-hand side of an equation and read the result off. *)
Ltac run :=
  lazymatch goal with
  | |- ?lhs = _ =>
      let v := eval vm_compute in lhs in
      transitivity v; [vm_compute; reflexivity | reflexivity]
  end.

(** C4, as stated, fails on the number of requests.  When the endpoint
    drops the connection once, the first lookup alone sends two requests
    before it caches the price that the second lookup then finds.  When the
    endpoint has no kline, the first lookup leaves the cache empty and the
    second lookup sends a second request. *)
Lemma cache_fill_two_requests :
  let retried := get_market_ticker_price (Sample.flaky 2) 1000 "XMRUSDT" in
  let lookup := get_market_ticker_price Sample.no_data 1000 "XMRUSDT" in
  let s1 := tick_calls Sample.genesis in
  let s2 := tick_calls s1 in
  (exists r1,
      retried Sample.genesis = Ok (Some 2%Q) r1
      /\ retried r1 = Ok (Some 2%Q) r1
      /\ calls Sample.genesis = 0%nat /\ calls r1 = 2%nat)
  /\ lookup Sample.genesis = Ok None s1
  /\ cache s1 = ∅
  /\ lookup s1 = Ok None s2
  /\ calls s2 = 2%nat.
Proof.
  cbv zeta. split; [|repeat split].
  eexists. split; [run | repeat split; vm_compute; reflexivity].
Qed.

(** The fill at work: an endpoint that answers 2, asked once, then the
    cache. *)
Lemma cache_fill_idempotent_witness :
  let lookup := get_market_ticker_price (Sample.flat 2) 1000 "XMRUSDT" in
  exists s1,
    lookup Sample.genesis = Ok (Some 2%Q) s1
    /\ lookup s1 = Ok (Some 2%Q) s1
    /\ calls s1 = 1%nat.
Proof.
  apply (proj1 (proj2 (cache_fill_idempotent (Sample.flat 2) 1000
                         "XMRUSDT" Sample.genesis)) 2%Q []);
    reflexivity.
Defined.

(** C7, as stated, fails at the end of the datetime range: one advance of
    one minute from 9999-12-31T23:59 raises [OverflowError], so the clock
    does not read start + 1 minute after the call. *)
Lemma clock_overflow :
  Datetime.in_range (datetime Sample.doomsday) = true
  /\ increment 1 Sample.doomsday = Raise OverflowError Sample.doomsday
  /\ advance 1 1 Sample.doomsday = Raise OverflowError Sample.doomsday.
Proof. repeat split. Qed.

(** Ten advances of one minute from 2021-01-01T00:00. *)
Lemma clock_monotone_witness :
  advance 10 1 Sample.genesis
  = Ok tt (set_datetime (Datetime.make 2021 1 1 0 10) Sample.genesis).
Proof.
  assert (Hpos : 0 < 1) by reflexivity.
  assert (Hmax : datetime Sample.genesis
                 + Z.of_nat 10 * Datetime.timedelta_minutes 1 <= Datetime.max)
    by (vm_compute; discriminate).
  exact (proj1 (clock_monotone Sample.genesis 1 10 Hpos eq_refl Hmax)
           10%nat (le_n 10)).
Defined.

(** C1, as stated, fails in the arithmetic of the code.  A buy that spends
    the entire target balance at the given price, 100 USDT at 11, orders
    [100 / 11]; the cost [100 / 11 * 11] rounds to 100.00000000000001, above
    the balance, and the buy leaves the USDT balance at -1.42e-14. *)
Lemma whole_balance_buy_overdraws :
  Binary64.nonneg {[ "USDT" := 100%float ]}
  /\ Binary64.spec_buy_quantity "XMR" "USDT" 100 (Some 11%float)
     = inr (100 / 11)%float
  /\ (100 / 11 * 11)%float = 100.00000000000001%float
  /\ Binary64.trade Binary64.spec_buy_quantity Binary64.spec_sell_quantity
       [Binary64.Buy "XMR" "USDT" (Some 11%float)] {[ "USDT" := 100%float ]}
     = [ <["XMR" := (0 + 100 / 11 * (1 - 0.0075))%float]>
           {[ "USDT" := (-1.4210854715202004e-14)%float ]} ]
  /\ (-1.4210854715202004e-14 <? 0)%float = true.
Proof.
  split; [|repeat split; vm_compute; reflexivity].
  intros symbol v [_ <-]%lookup_singleton_Some. reflexivity.
Qed.

(** A buy of XMR with the whole 100 USDT at price 2, where the division is
    exact, then a sale of all of it: the ledger reads 0 USDT and 49.625 XMR
    after the buy, 98.50562500000001 USDT and 0 XMR after the sale, and no
    balance is negative. *)
Lemma balances_never_negative_witness :
  Binary64.trade Binary64.spec_buy_quantity Binary64.spec_sell_quantity
    [Binary64.Buy "XMR" "USDT" (Some 2%float);
     Binary64.Sell "XMR" "USDT" (Some 2%float)]
    {[ "USDT" := 100%float ]}
  = [ <["XMR" := 49.625%float]> {[ "USDT" := 0%float ]};
      <["XMR" := 0%float]> {[ "USDT" := 98.505625000000009%float ]} ]
  /\ Forall Binary64.nonneg
       (Binary64.trade Binary64.spec_buy_quantity Binary64.spec_sell_quantity
          [Binary64.Buy "XMR" "USDT" (Some 2%float);
           Binary64.Sell "XMR" "USDT" (Some 2%float)]
          {[ "USDT" := 100%float ]}).
Proof.
  split; [vm_compute; reflexivity|].
  apply balances_never_negative.
  - intros symbol v [_ <-]%lookup_singleton_Some. reflexivity.
  - vm_compute. reflexivity.
Defined.



(** Selling all of 49.625 XMR at 2. *)
Lemma whole_balance_sell_empties_origin_witness :
  exists balances',
    Binary64.sell_alt Binary64.spec_sell_quantity "XMR" "USDT" (Some 2%float)
      (<["XMR" := 49.625%float]> {[ "USDT" := 0%float ]})
    = Binary64.Settled balances'
    /\ balances' !! "XMR" = Some (49.625 - 49.625)%float
    /\ (Binary64.get_currency_balance balances' "XMR" =? 0)%float = true.
Proof.
  assert (Hne : "XMR" <> "USDT") by discriminate.
  assert (Hb : (<["XMR" := 49.625%float]> {[ "USDT" := 0%float ]}
                : gmap string float) !! "XMR" = Some 49.625%float)
    by (vm_compute; reflexivity).
  exact (proj2 (whole_balance_sell_empties_origin Binary64.spec_buy_quantity
                  "XMR" "USDT" 2%float 49.625%float _ Hne Hb
                  eq_refl eq_refl eq_refl eq_refl)).
Defined.


(** C3, as stated, fails for the orders: at a tick without data [buy_alt]
    and [sell_alt] raise [TypeError] instead of reporting a no-fill.  The
    ledger is the one they started from. *)
Lemma no_data_order_raises :
  get_market_ticker_price Sample.no_data 1000 "XMRUSDT" Sample.genesis
  = Ok None (tick_calls Sample.genesis)
  /\ buy_alt Sample.no_data 1000 spec_buy_quantity "XMR" "USDT" FakeAllTickers
       Sample.genesis
     = Raise TypeError (tick_calls Sample.genesis)
  /\ sell_alt Sample.no_data 1000 spec_sell_quantity "XMR" "USDT"
       Sample.genesis
     = Raise TypeError (tick_calls Sample.genesis).
Proof. repeat split. Qed.

(** The lookup and the two orders against the endpoint without data. *)
Lemma no_data_no_fill_witness :
  let s1 := tick_calls Sample.genesis in
  get_market_ticker_price Sample.no_data 1000 "XMRUSDT" Sample.genesis
  = Ok None s1
  /\ balances s1 = balances Sample.genesis
  /\ (exists e,
        buy_alt Sample.no_data 1000 spec_buy_quantity "XMR" "USDT"
          FakeAllTickers Sample.genesis = Raise e s1
        /\ (forall q,
              spec_buy_quantity "XMR" "USDT" (balance_of "USDT" Sample.genesis)
                None = inr q -> e = TypeError))
  /\ (exists e,
        sell_alt Sample.no_data 1000 spec_sell_quantity "XMR" "USDT"
          Sample.genesis = Raise e s1
        /\ (forall q,
              spec_sell_quantity "XMR" "USDT" (balance_of "XMR" Sample.genesis)
              = inr q -> e = TypeError)).
Proof.
  exact (no_data_no_fill Sample.no_data 1000 spec_buy_quantity
           spec_sell_quantity "XMR" "USDT" Sample.genesis eq_refl eq_refl).
Defined.

Arguments tick {trader} scout interval t _.
Arguments tick_loop {trader} scout fuel end_date interval t s.
Arguments completed {trader} scout end_date interval _ _ _ _ _.
Arguments backtest source recursion_limit _buy_quantity {trader} AutoTrader
  initialize_trade_thresholds scout today fuel start_date end_date interval
  start_balances starting_coin config _.



(** Ten one-minute ticks with the operator's interrupt in tick 5: the
    opening buy has spent the 100 USDT, ticks 0 to 4 have credited one USDT
    each, and that ledger is returned. *)
Lemma cancellation_returns_ledger_witness :
  exists s',
    backtest (Sample.flat 2) 1000 spec_buy_quantity Sample.new_trader
      Sample.no_thresholds (Sample.interrupted_at 5) (Datetime.make 2021 6 1 0 0)
      100 (Some (Datetime.make 2021 1 1 0 0)) (Some (Datetime.make 2021 1 1 0 10))
      1 None None Sample.config Sample.genesis
    = Ok (balances s') s'
    /\ (balance_of "USDT" s' == 5)%Q
    /\ datetime s' = Datetime.make 2021 1 1 0 5
    /\ length (stdout s') = 6%nat.
Proof.
  eexists. split.
  - eapply proj1.
    eapply (cancellation_returns_ledger (Sample.flat 2) 1000 spec_buy_quantity
              nat Sample.new_trader Sample.no_thresholds
              (Sample.interrupted_at 5) (Datetime.make 2021 6 1 0 0)
              100 5).
    + run.
    + repeat (eapply completed_S; [vm_compute; reflexivity | run | ]).
      apply completed_O.
    + vm_compute; reflexivity.
    + run.
    + repeat constructor.
  - repeat split; vm_compute; reflexivity.
Defined.

(** ** The invocations of the strategy, counted *)

(** An iteration of the loop run with the counted strategy is the
    iteration run with the strategy itself, and one more on the counter. *)
Lemma tick_counting {T : Type} (scout : T -> M T) (interval : Z) (n : nat)
    (t : T) (s : State) :
  tick (counting scout) interval (n, t) s
  = match tick scout interval t s with
    | Ok t' s' => Ok (S n, t') s'
    | Raise e s' => Raise e s'
    | Running => Running
    end.
Proof.
  unfold tick, counting, bind, modify, ret. cbn [fst snd].
  destruct (scout t (print_datetime s)) as [t1 s1|e s1|]; try reflexivity.
  destruct (increment interval s1) as [[] s2|e s2|]; reflexivity.
Qed.

(** Whole iterations with the counted strategy are whole iterations with
    the strategy, and the counter has gone up by their number. *)
Lemma completed_counting {T : Type} (scout : T -> M T) (end_date interval : Z)
    (k : nat) (ct ct' : nat * T) (s s' : State) :
  completed (counting scout) end_date interval k ct s ct' s' ->
  fst ct' = (k + fst ct)%nat
  /\ completed scout end_date interval k (snd ct) s (snd ct') s'.
Proof.
  induction 1 as [ct s|k [n t] s [n1 t1] s1 ct2 s2 Hlt Htick _ [IHn IHc]].
  - split; [reflexivity | constructor].
  - rewrite tick_counting in Htick.
    destruct (tick scout interval t s) as [t1' s1'|e s1'|] eqn:Ht;
      try discriminate.
    injection Htick as <- <- <-. cbn [fst snd] in *.
    split; [lia|]. econstructor; [exact Hlt | exact Ht | exact IHc].
Qed.

Lemma counting_completed {T : Type} (scout : T -> M T) (end_date interval : Z)
    (k : nat) (t t' : T) (s s' : State) :
  completed scout end_date interval k t s t' s' ->
  forall n,
    completed (counting scout) end_date interval k (n, t) s
      ((k + n)%nat, t') s'.
Proof.
  induction 1 as [t s|k t s t1 s1 t2 s2 Hlt Htick _ IH]; intros n.
  - constructor.
  - econstructor; [exact Hlt | rewrite tick_counting, Htick; reflexivity |].
    replace (S k + n)%nat with (k + S n)%nat by lia. apply IH.
Qed.

(** The counter changes nothing in what the loop does to the program. *)
Lemma tick_loop_counting {T : Type} (scout : T -> M T) (fuel : nat)
    (end_date interval : Z) (n : nat) (t : T) (s : State) :
  tick_loop (counting scout) fuel end_date interval (n, t) s
  = tick_loop scout fuel end_date interval t s.
Proof.
  revert n t s. induction fuel as [|fuel IH]; intros n t s; cbn [tick_loop];
    destruct (datetime s <? end_date); try reflexivity.
  unfold bind. rewrite tick_counting.
  destruct (tick scout interval t s) as [t1 s1|e s1|]; try reflexivity.
  apply IH.
Qed.

Lemma backtest_counting source recursion_limit _buy_quantity {T : Type}
    (AutoTrader : Config -> T) (initialize_trade_thresholds scout : T -> M T)
    (today : Z) (fuel : nat) (start_date end_date : option Z) (interval : Z)
    (start_balances : option (gmap string Q)) (starting_coin : option string)
    (config : Config) (w : State) :
  backtest source recursion_limit _buy_quantity
    (fun c => (0%nat, AutoTrader c)) (uncounted initialize_trade_thresholds)
    (counting scout) today fuel start_date end_date interval start_balances
    starting_coin config w
  = backtest source recursion_limit _buy_quantity AutoTrader
      initialize_trade_thresholds scout today fuel start_date end_date
      interval start_balances starting_coin config w.
Proof.
  unfold backtest, uncounted, try_except, ret, bind. cbn [fst snd].
  destruct (open_position source recursion_limit _buy_quantity start_date
              start_balances starting_coin config w) as [[] s0|e s0|];
    try reflexivity.
  destruct (initialize_trade_thresholds (AutoTrader config) s0)
    as [t s|e s|]; try reflexivity.
  rewrite tick_loop_counting. reflexivity.
Qed.

(** C8: from 2021-01-01T00:00 to 2021-01-01T00:10 with an interval of one
    minute, and a strategy whose per-tick evaluation returns normally and
    leaves the manager's clock alone, the backtest (its position opened and
    its strategy set up) invokes the per-tick evaluation exactly 10 times.
    The invocations are counted by running the loop with [counting scout]:
    its 10 whole iterations bring the clock to the end time with the counter
    at 10; every run of whole iterations has made as many invocations as
    iterations, one per tick, and one that reaches the end time has made
    10; and [backtest] returns the ledger that the 10 ticks leave behind,
    with the counter and without it. *)
Theorem ten_ticks source recursion_limit _buy_quantity (trader : Type)
    (AutoTrader : Config -> trader)
    (initialize_trade_thresholds scout : trader -> M trader) (today : Z)
    (fuel : nat) (start_balances : option (gmap string Q))
    (starting_coin : option string) (config : Config) (w s : State)
    (t : trader) :
  let start_date := Datetime.make 2021 1 1 0 0 in
  let end_date := Datetime.make 2021 1 1 0 10 in
  (forall t0 s0, exists t1 s1,
        scout t0 s0 = Ok t1 s1 /\ datetime s1 = datetime s0) ->
  bind (open_position source recursion_limit _buy_quantity (Some start_date)
          start_balances starting_coin config)
       (fun _ => initialize_trade_thresholds (AutoTrader config)) w
  = Ok t s ->
  datetime s = start_date ->
  (10 <= fuel)%nat ->
  exists t' s',
    completed (counting scout) end_date 1 10 (0%nat, t) s (10%nat, t') s'
    /\ datetime s' = end_date
    /\ (forall k n t'' s'',
          completed (counting scout) end_date 1 k (0%nat, t) s (n, t'') s'' ->
          n = k /\ (end_date <= datetime s'' -> k = 10%nat))
    /\ backtest source recursion_limit _buy_quantity
         (fun c => (0%nat, AutoTrader c))
         (uncounted initialize_trade_thresholds) (counting scout) today fuel
         (Some start_date) (Some end_date) 1 start_balances starting_coin
         config w
       = Ok (balances s') s'
    /\ backtest source recursion_limit _buy_quantity AutoTrader
         initialize_trade_thresholds scout today fuel (Some start_date)
         (Some end_date) 1 start_balances starting_coin config w
       = Ok (balances s') s'.
Proof.
  intros start_date end_date Hscout Hopen Hstart Hfuel.
  destruct (ten_whole_iterations source recursion_limit _buy_quantity trader
              AutoTrader initialize_trade_thresholds scout today fuel
              start_balances starting_coin config w s t Hscout Hopen Hstart
              Hfuel) as (t' & s' & Hc & Hd & Hk & Hb).
  exists t', s'. split.
  { exact (counting_completed scout _ _ _ _ _ _ _ Hc 0%nat). }
  split; [exact Hd|]. split.
  - intros k n t'' s'' Hrun.
    destruct (completed_counting scout _ _ _ _ _ _ _ Hrun) as [Hn Hplain].
    cbn [fst snd] in Hn, Hplain. split; [lia|].
    intros Hend. exact (Hk k t'' s'' Hplain Hend).
  - split; [|exact Hb]. rewrite backtest_counting. exact Hb.
Qed.

(** Ten ticks of the idle strategy, starting with 3 XMR in hand: ten
    invocations. *)
Lemma ten_ticks_witness :
  exists t' s',
    completed (counting Sample.idle) (Datetime.make 2021 1 1 0 10) 1 10
      (0%nat, 0%nat) (set_balances {[ "XMR" := 3%Q ]} Sample.genesis)
      (10%nat, t') s'
    /\ datetime s' = Datetime.make 2021 1 1 0 10
    /\ backtest (Sample.flat 2) 1000 spec_buy_quantity Sample.new_trader
         Sample.no_thresholds Sample.idle (Datetime.make 2021 6 1 0 0) 10
         (Some (Datetime.make 2021 1 1 0 0)) (Some (Datetime.make 2021 1 1 0 10))
         1 (Some {[ "XMR" := 3%Q ]}) None Sample.config Sample.genesis
       = Ok (balances s') s'.
Proof.
  assert (Hidle : forall (t0 : nat) (s0 : State), exists t1 s1,
             Sample.idle t0 s0 = Ok t1 s1 /\ datetime s1 = datetime s0)
    by (intros t0 s0; exists (S t0), s0; split; reflexivity).
  assert (Hopen :
            bind (open_position (Sample.flat 2) 1000 spec_buy_quantity
                    (Some (Datetime.make 2021 1 1 0 0))
                    (Some {[ "XMR" := 3%Q ]}) None Sample.config)
                 (fun _ => Sample.no_thresholds (Sample.new_trader Sample.config))
                 Sample.genesis
            = Ok 0%nat (set_balances {[ "XMR" := 3%Q ]} Sample.genesis))
    by (vm_compute; reflexivity).
  destruct (ten_ticks (Sample.flat 2) 1000 spec_buy_quantity nat
              Sample.new_trader Sample.no_thresholds Sample.idle
              (Datetime.make 2021 6 1 0 0) 10 (Some {[ "XMR" := 3%Q ]}) None
              Sample.config Sample.genesis
              (set_balances {[ "XMR" := 3%Q ]} Sample.genesis) 0%nat
              Hidle Hopen eq_refl (le_n 10))
    as (t' & s' & Hc & Hd & _ & _ & Hb).
  exists t', s'. split; [exact Hc|]. split; [exact Hd | exact Hb].
Defined.

(** C9, as stated, fails: the two workers of the sample configuration walk
    their three-minute timeline and return, each with its counter at 3, and
    the entry point, reading those counters, is still in its supervising loop
    after any number of rounds. *)
Lemma prefetch_supervisor_runs_on :
  let start_date := Datetime.make 2021 1 1 0 0 in
  let end_date := Datetime.make 2021 1 1 0 3 in
  (exists s',
      worker (Sample.flat 2) 1000 3 Sample.config (Some start_date)
        (Some end_date) 1 "XMR" Sample.genesis = Ok 3 s'
      /\ datetime s' = end_date)
  /\ (exists s',
      worker (Sample.flat 2) 1000 3 Sample.config (Some start_date)
        (Some end_date) 1 "ETH" Sample.genesis = Ok 3 s'
      /\ datetime s' = end_date)
  /\ (forall fuel,
        fst (download_market_data fuel Sample.config (fun _ _ => 3))
        = StillRunning).
Proof.
  cbv zeta. split; [|split].
  - eexists. split; [run | vm_compute; reflexivity].
  - eexists. split; [run | vm_compute; reflexivity].
  - intros fuel. unfold download_market_data.
    destruct (supervise_reports fuel
                (fun _ => map (fun _ : nat => 3)
                            (seq 0 (length (SUPPORTED_COIN_LIST Sample.config))))
                0%nat []) as (out & Hs & _).
    + intros _. split; [discriminate|]. repeat constructor; lia.
    + rewrite Hs. reflexivity.
Qed.

(** A three-minute timeline against an endpoint that always answers. *)
Lemma prefetch_never_returns_witness :
  let start_date := Datetime.make 2021 1 1 0 0 in
  let end_date := Datetime.make 2021 1 1 0 3 in
  (exists n counter s',
      end_date <= datetime s'
      /\ forall fuel, (n <= fuel)%nat ->
           worker (Sample.flat 2) 1000 fuel Sample.config (Some start_date)
             (Some end_date) 1 "XMR" Sample.genesis
           = Ok counter s')
  /\ (forall fuel values,
        fst (download_market_data fuel Sample.config values) <> Returned tt)
  /\ (forall fuel values,
        SUPPORTED_COIN_LIST Sample.config <> [] ->
        (forall r i, 0 <= values r i < 2 ^ 31) ->
        exists printed,
          download_market_data fuel Sample.config values
          = (StillRunning, printed)
          /\ length printed = (4 * fuel)%nat).
Proof.
  assert (Hpos : 0 < 1) by reflexivity.
  assert (Hsrc : forall n symbol dt, exists l, Sample.flat 2 n symbol dt = Klines l)
    by (intros; eexists; reflexivity).
  assert (Hmax : Datetime.make 2021 1 1 0 3 + Datetime.timedelta_minutes 1
                 <= Datetime.max) by (vm_compute; discriminate).
  exact (prefetch_never_returns (Sample.flat 2) 1000 Sample.config
           (Datetime.make 2021 1 1 0 0) (Datetime.make 2021 1 1 0 3) 1 "XMR"
           Sample.genesis Hpos Hsrc eq_refl Hmax).
Defined.

(** One iteration of a worker: with a price, without data, and against an
    API failure. *)
Example worker_iterations :
  let next := Datetime.make 2021 1 1 0 1 in
  (exists s',
      _thread_step (Sample.flat 2) 1000 "XMRUSDT" 1 0 Sample.genesis = Ok 1 s'
      /\ datetime s' = next)
  /\ _thread_step Sample.no_data 1000 "XMRUSDT" 1 0 Sample.genesis
     = Ok 1 (set_datetime next (tick_calls Sample.genesis))
  /\ _thread_step (Sample.throttled 2) 1000 "XMRUSDT" 1 0 Sample.genesis
     = Ok 0 (tick_calls Sample.genesis)
  /\ (exists s',
      _thread_step (Sample.flaky 2) 1000 "XMRUSDT" 1 0 Sample.genesis = Ok 1 s'
      /\ datetime s' = next /\ calls s' = 2%nat).
Proof.
  cbv zeta. repeat split.
  - eexists. split; [run | vm_compute; reflexivity].
  - eexists. split; [run | split; vm_compute; reflexivity].
Qed.

(** One iteration of a worker at a minute without data. *)
Lemma no_data_counts_as_fetched_witness :
  exists s1,
    get_market_ticker_price Sample.no_data 1000 "XMRUSDT" Sample.genesis
    = Ok None s1
    /\ _thread_step Sample.no_data 1000 "XMRUSDT" 1 0 Sample.genesis
       = Ok (c_int (0 + 1))
            (set_datetime
               (datetime Sample.genesis + Datetime.timedelta_minutes 1) s1).
Proof.
  exact (proj1 (no_data_counts_as_fetched Sample.no_data 1000 "XMRUSDT" 1 0
                  Sample.genesis eq_refl eq_refl) [] eq_refl).
Defined.

(** ** Further runs on concrete inputs *)

(** One dropped connection, then the price. *)
Lemma dropped_connections_are_retried_witness :
  get_market_ticker_price (Sample.flaky 2) 1000 "XMRUSDT" Sample.genesis
  = Ok (Some 2%Q)
       (set_cache (<[key_of "XMRUSDT" Sample.genesis := 2%Q]>
                     (cache Sample.genesis))
          (after_requests 2 Sample.genesis)).
Proof.
  assert (Hfail : forall i, (i < 1)%nat ->
            Sample.flaky 2 (i + calls Sample.genesis) "XMRUSDT"
              (Datetime.strftime (datetime Sample.genesis))
            = Fails ConnectionError)
    by (intros [|i] Hi; [reflexivity | lia]).
  assert (Hdepth : (1 <= 1000)%nat) by lia.
  exact (proj1 (dropped_connections_are_retried (Sample.flaky 2) 1000 1
                  "XMRUSDT" Sample.genesis eq_refl Hfail)
           2%Q [] Hdepth eq_refl).
Defined.

(** A sale of XMR for BTC by someone who holds neither: the [KeyError]
    leaves a BTC entry behind. *)
Lemma sell_alt_credits_before_it_fails_witness :
  exists s',
    sell_alt (Sample.flat 2) 1000 spec_sell_quantity "XMR" "BTC" Sample.genesis
    = Raise KeyError s'
    /\ balances s'
       = <["BTC" := (balance_of "BTC" Sample.genesis
                     + 0 * 2 * (1 - (75 # 10000)))%Q]>
           (balances Sample.genesis)
    /\ is_Some (balances s' !! "BTC").
Proof.
  assert (Hne : "XMR" <> "BTC") by discriminate.
  exact (sell_alt_credits_before_it_fails (Sample.flat 2) 1000
           spec_sell_quantity "XMR" "BTC" Sample.genesis _ 2%Q 0%Q
           Hne eq_refl eq_refl eq_refl).
Defined.


(** A backtest that starts with 3 XMR in hand buys nothing. *)
Lemma held_asset_opens_nothing_witness :
  let s0 := set_balances {[ "XMR" := 3%Q ]} Sample.genesis in
  open_position (Sample.flat 2) 1000 spec_buy_quantity None
    (Some {[ "XMR" := 3%Q ]}) (Some "XMR") Sample.config Sample.genesis
  = Ok tt s0
  /\ calls s0 = calls Sample.genesis /\ cache s0 = cache Sample.genesis.
Proof.
  assert (Hname : "XMR" <> "") by discriminate.
  assert (Hinit : MockBinanceManager Sample.config None
                    (Some {[ "XMR" := 3%Q ]}) Sample.genesis
                  = Ok tt (set_balances {[ "XMR" := 3%Q ]} Sample.genesis))
    by (vm_compute; reflexivity).
  assert (Hheld : ~ (balance_of "XMR"
                       (set_balances {[ "XMR" := 3%Q ]} Sample.genesis) == 0)%Q)
    by (intros H; vm_compute in H; discriminate H).
  exact (held_asset_opens_nothing (Sample.flat 2) 1000 spec_buy_quantity
           Sample.config None (Some {[ "XMR" := 3%Q ]}) "XMR" Sample.genesis
           _ Hname Hinit Hheld).
Defined.

(** An empty dict of balances and an empty starting coin. *)
Lemma backtest_defaults_witness :
  MockBinanceManager Sample.config None (Some ∅) Sample.genesis
  = Ok tt (fresh_manager Sample.config None Sample.genesis)
  /\ open_position (Sample.flat 2) 1000 spec_buy_quantity None (Some ∅)
       (Some "") Sample.config Sample.genesis
     = open_position (Sample.flat 2) 1000 spec_buy_quantity None None
         (Some "XMR") Sample.config Sample.genesis.
Proof.
  exact (backtest_defaults (Sample.flat 2) 1000 spec_buy_quantity
           Sample.config None (Some ∅) (Some "") Sample.genesis
           (or_intror eq_refl) (or_intror eq_refl)).
Defined.

(** Ten minutes in steps of three: ticks at 00:00, 00:03, 00:06 and 00:09,
    and the clock stops on 00:12. *)
Lemma tick_count_witness :
  exists s',
    tick_loop Sample.idle 10 (Datetime.make 2021 1 1 0 10) 3 0%nat
      Sample.genesis = Ok tt s'
    /\ ticks_between (datetime Sample.genesis) (Datetime.make 2021 1 1 0 10) 3
       = 4%nat
    /\ datetime s' = Datetime.make 2021 1 1 0 12
    /\ stdout s'
       = [Datetime.make 2021 1 1 0 0; Datetime.make 2021 1 1 0 3;
          Datetime.make 2021 1 1 0 6; Datetime.make 2021 1 1 0 9].
Proof.
  assert (Hpos : 0 < 3) by reflexivity.
  assert (Hidle : forall (t0 : nat) (s0 : State), exists t1 s1,
             Sample.idle t0 s0 = Ok t1 s1 /\ datetime s1 = datetime s0
             /\ stdout s1 = stdout s0)
    by (intros t0 s0; exists (S t0), s0; repeat split).
  assert (H0 : 0 <= datetime Sample.genesis) by (vm_compute; discriminate).
  assert (Hmax : Z.max (datetime Sample.genesis) (Datetime.make 2021 1 1 0 10)
                 + Datetime.timedelta_minutes 3 <= Datetime.max)
    by (vm_compute; discriminate).
  assert (Hn : ticks_between (datetime Sample.genesis)
                 (Datetime.make 2021 1 1 0 10) 3 = 4%nat)
    by (vm_compute; reflexivity).
  assert (Hfuel : (ticks_between (datetime Sample.genesis)
                     (Datetime.make 2021 1 1 0 10) 3 <= 10)%nat)
    by (rewrite Hn; lia).
  destruct (tick_count nat Sample.idle 10 (Datetime.make 2021 1 1 0 10) 3
              0%nat Sample.genesis Hpos Hidle H0 Hmax Hfuel)
    as (t' & s' & Hloop & _ & Hd & _ & _ & Ho).
  exists s'. split; [exact Hloop|]. split; [exact Hn|].
  rewrite Hn in Hd, Ho. split; [rewrite Hd | rewrite Ho]; vm_compute; reflexivity.
Defined.

(** An interval of 0 minutes: a thousand rounds and still running. *)
Lemma zero_interval_runs_forever_witness :
  tick_loop Sample.idle 1000 (Datetime.make 2021 1 1 0 10) 0 0%nat
    (set_balances {[ "XMR" := 3%Q ]} Sample.genesis) = Running
  /\ backtest (Sample.flat 2) 1000 spec_buy_quantity Sample.new_trader
       Sample.no_thresholds Sample.idle (Datetime.make 2021 6 1 0 0) 1000
       None (Some (Datetime.make 2021 1 1 0 10)) 0 (Some {[ "XMR" := 3%Q ]})
       None Sample.config Sample.genesis
     = Running.
Proof.
  assert (Hidle : forall (t0 : nat) (s0 : State), exists t1 s1,
             Sample.idle t0 s0 = Ok t1 s1 /\ datetime s1 = datetime s0)
    by (intros t0 s0; exists (S t0), s0; split; reflexivity).
  assert (Hopen :
            bind (open_position (Sample.flat 2) 1000 spec_buy_quantity None
                    (Some {[ "XMR" := 3%Q ]}) None Sample.config)
                 (fun _ => Sample.no_thresholds (Sample.new_trader Sample.config))
                 Sample.genesis
            = Ok 0%nat (set_balances {[ "XMR" := 3%Q ]} Sample.genesis))
    by (vm_compute; reflexivity).
  assert (Hlt : datetime (set_balances {[ "XMR" := 3%Q ]} Sample.genesis)
                < default (Datetime.make 2021 6 1 0 0)
                    (Some (Datetime.make 2021 1 1 0 10)))
    by (vm_compute; reflexivity).
  exact (zero_interval_runs_forever (Sample.flat 2) 1000 spec_buy_quantity nat
           Sample.new_trader Sample.no_thresholds Sample.idle
           (Datetime.make 2021 6 1 0 0) None
           (Some (Datetime.make 2021 1 1 0 10)) (Some {[ "XMR" := 3%Q ]}) None
           Sample.config Sample.genesis _ 0%nat Hidle Hopen eq_refl Hlt 1000%nat).
Defined.

(** A strategy that divides by zero in tick 2. *)
Lemma strategy_errors_are_fatal_witness :
  exists s',
    backtest (Sample.flat 2) 1000 spec_buy_quantity Sample.new_trader
      Sample.no_thresholds (Sample.raises_at ZeroDivisionError 2)
      (Datetime.make 2021 6 1 0 0) 100 (Some (Datetime.make 2021 1 1 0 0))
      (Some (Datetime.make 2021 1 1 0 10)) 1 None None Sample.config
      Sample.genesis
    = Raise ZeroDivisionError s'
    /\ datetime s' = Datetime.make 2021 1 1 0 2.
Proof.
  eexists. split.
  - eapply (strategy_errors_are_fatal (Sample.flat 2) 1000 spec_buy_quantity
              nat Sample.new_trader Sample.no_thresholds
              (Sample.raises_at ZeroDivisionError 2)
              (Datetime.make 2021 6 1 0 0) 100 2).
    + run.
    + repeat (eapply completed_S; [vm_compute; reflexivity | run | ]).
      apply completed_O.
    + vm_compute; reflexivity.
    + run.
    + discriminate.
    + repeat constructor.
  - vm_compute; reflexivity.
Defined.

(** A worker whose first request meets an API failure: three ticks, four
    requests, counter 3. *)
Lemma worker_counts_every_tick_once_witness :
  exists s',
    _thread_loop (Sample.throttled 2) 1000 4 "XMRUSDT"
      (Some (Datetime.make 2021 1 1 0 3)) 1 0 Sample.genesis
    = Ok 3 s'
    /\ datetime s' = Datetime.make 2021 1 1 0 3.
Proof.
  assert (Hpos : 0 < 1) by reflexivity.
  assert (Hsrc : forall n symbol dt,
             (exists l, Sample.throttled 2 n symbol dt = Klines l)
             \/ Sample.throttled 2 n symbol dt = Fails BinanceAPIException)
    by (intros [|n] symbol dt; [right; reflexivity | left; eexists; reflexivity]).
  assert (Hlate : forall n symbol dt, (1 <= n)%nat ->
             exists l, Sample.throttled 2 n symbol dt = Klines l)
    by (intros [|n] symbol dt Hn; [lia | eexists; reflexivity]).
  assert (H0 : 0 <= datetime Sample.genesis) by (vm_compute; discriminate).
  assert (Hmax : Z.max (datetime Sample.genesis) (Datetime.make 2021 1 1 0 3)
                 + Datetime.timedelta_minutes 1 <= Datetime.max)
    by (vm_compute; discriminate).
  assert (Hn : ticks_between (datetime Sample.genesis)
                 (Datetime.make 2021 1 1 0 3) 1 = 3%nat)
    by (vm_compute; reflexivity).
  destruct (worker_counts_every_tick_once (Sample.throttled 2) 1000 1
              "XMRUSDT" (Datetime.make 2021 1 1 0 3) 1 0 Sample.genesis
              Hpos Hsrc Hlate H0 Hmax)
    as (s' & Hrun & Hd & _ & Hexact).
  exists s'. rewrite Hn in Hrun, Hd, Hexact. split.
  - rewrite (Hrun 4%nat) by (vm_compute; lia).
    rewrite Hexact by (vm_compute; first [discriminate | reflexivity]).
    reflexivity.
  - rewrite Hd. vm_compute. reflexivity.
Defined.

(** A worker over three minutes, then a backtest standing at 00:02. *)
Lemma prefetch_fills_the_cache_witness :
  exists counter' s',
    _thread_loop (Sample.flat 2) 1000 3 "XMRUSDT"
      (Some (Datetime.make 2021 1 1 0 3)) 1 0 Sample.genesis
    = Ok counter' s'
    /\ exists p,
         get_market_ticker_price (Sample.flat 2) 1000 "XMRUSDT"
           (set_datetime (Datetime.make 2021 1 1 0 2) s')
         = Ok (Some p) (set_datetime (Datetime.make 2021 1 1 0 2) s').
Proof.
  assert (Hpos : 0 < 1) by reflexivity.
  assert (Hsrc : forall n symbol dt, exists p l,
             Sample.flat 2 n symbol dt = Klines (p :: l))
    by (intros; do 2 eexists; reflexivity).
  assert (H0 : 0 <= datetime Sample.genesis) by (vm_compute; discriminate).
  assert (Hmax : Z.max (datetime Sample.genesis) (Datetime.make 2021 1 1 0 3)
                 + Datetime.timedelta_minutes 1 <= Datetime.max)
    by (vm_compute; discriminate).
  assert (Hn : ticks_between (datetime Sample.genesis)
                 (Datetime.make 2021 1 1 0 3) 1 = 3%nat)
    by (vm_compute; reflexivity).
  destruct (prefetch_fills_the_cache (Sample.flat 2) 1000 "XMRUSDT"
              (Datetime.make 2021 1 1 0 3) 1 0 Sample.genesis
              Hpos Hsrc H0 Hmax)
    as (c' & s' & Hrun & _ & _ & Hlater).
  rewrite Hn in Hrun, Hlater.
  exists c', s'. split; [apply Hrun; lia|].
  apply (Hlater 2%nat); [lia | reflexivity | vm_compute; reflexivity].
Defined.

(** Two workers at 3 and 4 datapoints: total 7, average 3, 00:03. *)
Lemma report_shows_truncated_mean_witness :
  exists mean,
    report_round [3; 4]
    = ([TotalDatapointCount (sum_values [3; 4]);
        AverageFetchedPerSymbol mean;
        AverageDatetime (Datetime.make 2021 1 1 0 0
                         + Datetime.timedelta_minutes mean);
        Blank], None)
    /\ 3 <= mean <= 4
    /\ mean * Z.of_nat (length [3; 4]) <= sum_values [3; 4]
       < (mean + 1) * Z.of_nat (length [3; 4]).
Proof.
  assert (Hne : [3; 4] <> ([] : list Z)) by discriminate.
  assert (Hall : Forall (fun v => 3 <= v <= 4) [3; 4])
    by (repeat constructor; lia).
  assert (Hlo : 0 <= 3) by lia.
  assert (Hhi : 4 < 2 ^ 31) by reflexivity.
  exact (report_shows_truncated_mean [3; 4] 3 4 Hne Hall Hlo Hhi).
Defined.

(** The default backtest against an endpoint without data. *)
Lemma opening_buy_failures_witness :
  exists e,
    backtest (Sample.no_data) 1000 spec_buy_quantity Sample.new_trader
      Sample.no_thresholds Sample.idle (Datetime.make 2021 6 1 0 0) 10 None
      None 1 None (Some "XMR") Sample.config Sample.genesis
    = Raise e (tick_calls Sample.genesis)
    /\ (forall q,
          spec_buy_quantity "XMR" (BRIDGE Sample.config)
            (balance_of (BRIDGE Sample.config) Sample.genesis) None = inr q ->
          e = TypeError).
Proof.
  assert (Hname : "XMR" <> "") by discriminate.
  exact (proj1 (opening_buy_failures Sample.no_data 1000 spec_buy_quantity nat
                  Sample.new_trader Sample.no_thresholds Sample.idle
                  (Datetime.make 2021 6 1 0 0) 10 Sample.config None None 1
                  None "XMR" Sample.genesis Sample.genesis
                  Hname eq_refl eq_refl)
           eq_refl eq_refl).
Defined.

(** Five microseconds later, the same price from the cache. *)
Lemma same_second_same_price_witness :
  exists s1,
    get_market_ticker_price (Sample.flat 2) 1000 "XMRUSDT" Sample.genesis
    = Ok (Some 2%Q) s1
    /\ get_market_ticker_price (Sample.flat 2) 1000 "XMRUSDT"
         (set_datetime (datetime Sample.genesis + 5) s1)
       = Ok (Some 2%Q) (set_datetime (datetime Sample.genesis + 5) s1).
Proof.
  eexists. split; [run|].
  eapply (same_second_same_price (Sample.flat 2) 1000 "XMRUSDT" Sample.genesis).
  - run.
  - reflexivity.
  - vm_compute. reflexivity.
Defined.

(** Stepping back a minute at a time from 0001-01-01T00:02: two ticks, and
    the third cannot step back. *)
Lemma negative_interval_overflows_witness :
  exists s',
    tick_loop Sample.idle 3 (Datetime.make 2021 1 1 0 0) (-1) 0%nat Sample.dawn
    = Raise OverflowError s'
    /\ datetime s' = Datetime.min.
Proof.
  assert (Hneg : -1 < 0) by reflexivity.
  assert (Hidle : forall (t0 : nat) (s0 : State), exists t1 s1,
             Sample.idle t0 s0 = Ok t1 s1 /\ datetime s1 = datetime s0)
    by (intros t0 s0; exists (S t0), s0; split; reflexivity).
  assert (Hlt : datetime Sample.dawn < Datetime.make 2021 1 1 0 0)
    by (vm_compute; reflexivity).
  assert (Hk : Z.to_nat (datetime Sample.dawn / - Datetime.timedelta_minutes (-1))
               = 2%nat) by (vm_compute; reflexivity).
  destruct (negative_interval_overflows nat Sample.idle
              (Datetime.make 2021 1 1 0 0) (-1) 0%nat Sample.dawn
              Hneg Hidle eq_refl Hlt)
    as (s' & Hrun & Hd & _).
  rewrite Hk in Hrun, Hd.
  exists s'. split; [apply Hrun; lia|]. rewrite Hd. vm_compute. reflexivity.
Defined.
